(** * CalTrack: the nutrition aggregation and tracking engine

    A shallow embedding of [backend/app/api/routes.py],
    [backend/app/models/models.py] and
    [backend/app/services/openfoodfacts.py], followed by the properties
    of the engine: daily and weekly aggregation, weight upsert, goal
    update, entry update, entry listing and the food fact normalizer. *)

From Stdlib Require Import ZArith List Bool Ascii String Lia.
From Stdlib Require Import Permutation Sorted.
From Stdlib Require OrderedTypeEx.
From Stdlib Require Import Floats.PrimFloat.
Import ListNotations.

Open Scope string_scope.
Open Scope list_scope.
Open Scope Z_scope.

(* ================================================================= *)
(** * Python values and control flow *)

Module Py.

(** The exceptions the embedded code can raise.  [HTTPException]
    carries the status code and the detail string of the source;
    [IntegrityError] and [DataError] are the errors of the database
    for a row that breaks a constraint and for a value its column
    cannot hold, [ValueError] is the driver's for a string it cannot
    send, [UnicodeDecodeError] and [JSONDecodeError] are those of
    [response.json()]. *)
Inductive exn : Type :=
| HTTPException (status_code : Z) (detail : string)
| KeyError (key : string)
| OverflowError
| AttributeError
| TypeError
| JSONDecodeError
| TimeoutException
| UnicodeDecodeError
| ValueError
| DataError
| IntegrityError.

(** A computation either returns a value or raises. *)
Inductive result (A : Type) : Type :=
| Return (a : A)
| Raise (e : exn).
Arguments Return {A} a.
Arguments Raise {A} e.

Definition bind {A B} (m : result A) (k : A -> result B) : result B :=
  match m with
  | Return a => k a
  | Raise e => Raise e
  end.

(** [for x in xs: acc = body acc x], stopping at the first raise. *)
Fixpoint for_each {A S} (body : S -> A -> result S) (xs : list A) (acc : S)
  : result S :=
  match xs with
  | [] => Return acc
  | x :: rest => bind (body acc x) (for_each body rest)
  end.

Definition raises {A} (m : result A) : bool :=
  match m with
  | Return _ => false
  | Raise _ => true
  end.

End Py.

Notation "x <- m ;; k" := (Py.bind m (fun x => k))
  (at level 100, m at next level, right associativity).

(* ================================================================= *)
(** * [datetime.date]

    The dates of the [Date] columns and of the path and query
    parameters are Python's [datetime.date]; the definitions follow
    the standard library's [datetime.py] ([_ord2ymd], [_ymd2ord],
    [date.__add__], [date.weekday], [date.isoformat]).

    A date is represented by its proleptic Gregorian ordinal
    ([date.toordinal()]: 0001-01-01 is day 1, 9999-12-31 is day
    [_MAXORDINAL]).  Comparison of dates is comparison of ordinals. *)

Module Date.

Definition date := Z.

Definition _MAXORDINAL : Z := 3652059.
Definition _DI400Y : Z := 146097.
Definition _DI100Y : Z := 36524.
Definition _DI4Y : Z := 1461.

Definition valid (d : date) : Prop := 1 <= d <= _MAXORDINAL.

(** [date.__add__(timedelta(days=k))]. *)
Definition add_days (d : date) (k : Z) : Py.result date :=
  let o := d + k in
  if (0 <? o) && (o <=? _MAXORDINAL) then Py.Return o
  else Py.Raise Py.OverflowError.

(** [date.__sub__(timedelta(days=k))]. *)
Definition sub_days (d : date) (k : Z) : Py.result date :=
  add_days d (- k).

(** [date.weekday()]: Monday is 0, Sunday is 6. *)
Definition weekday (d : date) : Z := (d + 6) mod 7.

Definition _is_leap (year : Z) : bool :=
  (year mod 4 =? 0) && (negb (year mod 100 =? 0) || (year mod 400 =? 0)).

Definition _days_before_year (year : Z) : Z :=
  let y := year - 1 in
  y * 365 + y / 4 - y / 100 + y / 400.

Definition _DAYS_IN_MONTH (month : Z) : Z :=
  match month with
  | 1 => 31 | 2 => 28 | 3 => 31 | 4 => 30 | 5 => 31 | 6 => 30
  | 7 => 31 | 8 => 31 | 9 => 30 | 10 => 31 | 11 => 30 | 12 => 31
  | _ => -1
  end.

Definition _DAYS_BEFORE_MONTH (month : Z) : Z :=
  match month with
  | 1 => 0 | 2 => 31 | 3 => 59 | 4 => 90 | 5 => 120 | 6 => 151
  | 7 => 181 | 8 => 212 | 9 => 243 | 10 => 273 | 11 => 304 | 12 => 334
  | _ => -1
  end.

Definition _days_before_month (year month : Z) : Z :=
  _DAYS_BEFORE_MONTH month
  + (if (2 <? month) && _is_leap year then 1 else 0).

Definition _ymd2ord (year month day : Z) : Z :=
  _days_before_year year + _days_before_month year month + day.

Definition _ord2ymd (n : Z) : Z * Z * Z :=
  let n := n - 1 in
  let n400 := n / _DI400Y in
  let n := n mod _DI400Y in
  let year := n400 * 400 + 1 in
  let n100 := n / _DI100Y in
  let n := n mod _DI100Y in
  let n4 := n / _DI4Y in
  let n := n mod _DI4Y in
  let n1 := n / 365 in
  let n := n mod 365 in
  let year := year + (n100 * 100 + n4 * 4 + n1) in
  if (n1 =? 4) || (n100 =? 4) then (year - 1, 12, 31)
  else
    let leapyear := (n1 =? 3) && (negb (n4 =? 24) || (n100 =? 3)) in
    let month := Z.shiftr (n + 50) 5 in
    let preceding :=
      _DAYS_BEFORE_MONTH month
      + (if (2 <? month) && leapyear then 1 else 0) in
    if n <? preceding then
      let month := month - 1 in
      let preceding :=
        preceding
        - (_DAYS_IN_MONTH month
           + (if (month =? 2) && leapyear then 1 else 0)) in
      (year, month, n - preceding + 1)
    else (year, month, n - preceding + 1).

(** One decimal digit, [0 <= k <= 9]. *)
Definition digit (k : Z) : ascii := ascii_of_nat (Z.to_nat (48 + k)).

(** ["%02d" % n] for [0 <= n < 100]. *)
Definition fmt_02d (n : Z) (rest : string) : string :=
  String (digit (n / 10)) (String (digit (n mod 10)) rest).

(** ["%04d" % n] for [0 <= n < 10000]. *)
Definition fmt_04d (n : Z) (rest : string) : string :=
  String (digit (n / 1000))
    (String (digit (n / 100 mod 10)) (fmt_02d (n mod 100) rest)).

(** [date.isoformat()]: ["%04d-%02d-%02d" % (year, month, day)]. *)
Definition isoformat (d : date) : string :=
  let '(y, m, dd) := _ord2ymd d in
  fmt_04d y (String "-" (fmt_02d m (String "-" (fmt_02d dd EmptyString)))).

(** [date(year, month, day)] for a valid calendar day. *)
Definition of_ymd (year month day : Z) : date := _ymd2ord year month day.

End Date.

(* ================================================================= *)
(** * [dict]: insertion-ordered, keyed by strings *)

Module Dict.

Definition t (V : Type) : Type := list (string * V).

Fixpoint get {V} (k : string) (d : t V) : option V :=
  match d with
  | [] => None
  | (k', v) :: rest => if String.eqb k' k then Some v else get k rest
  end.

(** [k in d]. *)
Definition mem {V} (k : string) (d : t V) : bool :=
  match get k d with
  | Some _ => true
  | None => false
  end.

(** [d[k]], raising [KeyError] on a missing key. *)
Definition getitem {V} (k : string) (d : t V) : Py.result V :=
  match get k d with
  | Some v => Py.Return v
  | None => Py.Raise (Py.KeyError k)
  end.

(** [d[k] = v]: an existing key keeps its position, a new key goes
    last. *)
Fixpoint set {V} (k : string) (v : V) (d : t V) : t V :=
  match d with
  | [] => [(k, v)]
  | (k', v') :: rest =>
      if String.eqb k' k then (k', v) :: rest
      else (k', v') :: set k v rest
  end.

Definition keys {V} (d : t V) : list string := map fst d.

End Dict.

(* ================================================================= *)
(** * SQL queries over a table held as the list of its rows *)

Module Query.

Fixpoint insert {A} (leb : A -> A -> bool) (x : A) (l : list A) : list A :=
  match l with
  | [] => [x]
  | y :: rest => if leb x y then x :: y :: rest else y :: insert leb x rest
  end.

(** [.order_by(...)]: the rows sorted by the given order.  The
    database fixes no order among rows that compare equal; here they
    stay in table order. *)
Fixpoint order_by {A} (leb : A -> A -> bool) (rows : list A) : list A :=
  match rows with
  | [] => []
  | x :: rest => insert leb x (order_by leb rest)
  end.

(** [.first()]. *)
Definition first {A} (p : A -> bool) (rows : list A) : option A :=
  find p rows.

Fixpoint sorted {A} (leb : A -> A -> bool) (l : list A) : bool :=
  match l with
  | [] => true
  | x :: rest =>
      match rest with
      | [] => true
      | y :: _ => leb x y && sorted leb rest
      end
  end.

End Query.

(* ================================================================= *)
(** * [app/models/models.py]

    [Float] columns are IEEE binary64 floats, [Date] columns are dates,
    [DateTime] columns are instants on an integer clock, nullable
    [String] columns are optional strings. *)

Module User.
Record t : Type := {
  id : Z;
  name : string;
  calorie_goal : Z;
  protein_goal : Z;
  carb_goal : Z;
  fat_goal : Z;
  created_at : Z
}.
End User.

Module FoodEntry.
Record t : Type := {
  id : Z;
  user_id : Z;
  date : Date.date;
  meal_type : string;
  name : string;
  brand : option string;
  barcode : option string;
  serving_size : float;
  servings : float;
  calories : float;
  protein : float;
  carbs : float;
  fat : float;
  fiber : float;
  sugar : float;
  source : string;
  external_id : option string;
  image_url : option string;
  created_at : Z
}.
End FoodEntry.

Module WeightEntry.
Record t : Type := {
  id : Z;
  user_id : Z;
  date : Date.date;
  weight : float;
  note : option string;
  created_at : Z
}.
End WeightEntry.

(** The store: one list of rows per table. *)
Module DB.
Record t : Type := {
  users : list User.t;
  food_entries : list FoodEntry.t;
  weight_entries : list WeightEntry.t
}.
End DB.

(** What the database (PostgreSQL, as [app/core/config.py] names it)
    takes for the columns of [models.py], and what it refuses. *)
Module Sql.

(** An [Integer] column holds a signed 32-bit integer. *)
Definition int4 (z : Z) : bool :=
  (-2147483648 <=? z) && (z <=? 2147483647).

(** A string can be sent as a parameter if no character of it is
    NUL. *)
Fixpoint text (s : string) : bool :=
  match s with
  | EmptyString => true
  | String c rest => negb (Ascii.eqb c "000"%char) && text rest
  end.

(** A [String(n)] column holds a string of at most [n] characters. *)
Definition varchar (n : nat) (s : string) : bool :=
  Nat.leb (String.length s) n.

(** A nullable column takes [None] as it is. *)
Definition nullable (column : string -> bool) (value : option string)
  : bool :=
  match value with
  | None => true
  | Some s => column s
  end.

(** A [Float] column reads back the float written to it, except that
    a negative zero is written, and read back, as zero. *)
Definition float8 (f : float) : float :=
  match PrimFloat.classify f with
  | FloatClass.NZero => 0%float
  | _ => f
  end.

(** A row with the key [user_id] exists in [users]: what the foreign
    keys [ForeignKey("users.id")] ask for. *)
Definition has_user (user_id : Z) (db : DB.t) : bool :=
  existsb (fun u => User.id u =? user_id) (DB.users db).

(** The error of an [INSERT] or [UPDATE], if there is one: the driver
    refuses the parameters it cannot send, then the database the
    values that do not fit their columns, then the row whose foreign
    key names no row. *)
Definition refused (sendable fits referenced : bool) : option Py.exn :=
  if negb sendable then Some Py.ValueError
  else if negb fits then Some Py.DataError
  else if negb referenced then Some Py.IntegrityError
  else None.

End Sql.

(* ================================================================= *)
(** * [app/services/openfoodfacts.py] *)

Module OpenFoodFacts.

(** A value of a decoded JSON document, as [response.json()] yields
    it: [None], [bool], [int], [float], [str], [list] or [dict]. *)
#[local] Set Warnings "-register-all".
Inductive value : Type :=
| VNone
| VBool (b : bool)
| VInt (z : Z)
| VFloat (f : float)
| VStr (s : string)
| VList (l : list value)
| VDict (d : list (string * value)).

(** What [client.get] hands back: the status line, and the body as
    what decoding it gives: the document, or the exception raised for
    a body that is not one ([UnicodeDecodeError] for bytes that are
    no text, [JSONDecodeError] for text that is no JSON). *)
Record response : Type := {
  status_code : Z;
  body : Py.result value
}.

(** [response.json()]. *)
Definition json (r : response) : Py.result value :=
  body r.

(** [x.get(key, default)]: only a [dict] has the method. *)
Definition get (x : value) (key : string) (default : value)
  : Py.result value :=
  match x with
  | VDict d =>
      Py.Return match Dict.get key d with
                | Some v => v
                | None => default
                end
  | _ => Py.Raise Py.AttributeError
  end.

Fixpoint chars (s : string) : list value :=
  match s with
  | EmptyString => []
  | String c rest => VStr (String c EmptyString) :: chars rest
  end.

(** [for product in x]: a list yields its items, a dict its keys, a
    string its characters; nothing else is iterable. *)
Definition iter (x : value) : Py.result (list value) :=
  match x with
  | VList l => Py.Return l
  | VDict d => Py.Return (map (fun kv => VStr (fst kv)) d)
  | VStr s => Py.Return (chars s)
  | _ => Py.Raise Py.TypeError
  end.

(** [x != 1], with Python's numeric equality. *)
Definition ne_one (x : value) : bool :=
  match x with
  | VInt z => negb (z =? 1)
  | VFloat f => negb (PrimFloat.eqb f 1)
  | VBool b => negb b
  | _ => true
  end.

Record fact : Type := {
  barcode : value;
  name : value;
  brand : value;
  image_url : value;
  serving_size : value;
  calories_per_100g : value;
  protein_per_100g : value;
  carbs_per_100g : value;
  fat_per_100g : value;
  fiber_per_100g : value;
  sugar_per_100g : value;
  source : string
}.

Record search_result : Type := {
  products : list fact;
  count : value;
  page : option Z;
  page_size : option Z
}.

(** One turn of [for product in data.get("products", [])]. *)
Definition search_step (products : list fact) (product : value)
  : Py.result (list fact) :=
  nutriments <- get product "nutriments" (VDict []) ;;
  barcode <- get product "code" VNone ;;
  name <- get product "product_name" (VStr "Unbekannt") ;;
  brand <- get product "brands" (VStr "") ;;
  image_url <- get product "image_front_small_url" VNone ;;
  serving_size <- get product "serving_size" (VStr "100g") ;;
  calories_per_100g <- get nutriments "energy-kcal_100g" (VInt 0) ;;
  protein_per_100g <- get nutriments "proteins_100g" (VInt 0) ;;
  carbs_per_100g <- get nutriments "carbohydrates_100g" (VInt 0) ;;
  fat_per_100g <- get nutriments "fat_100g" (VInt 0) ;;
  fiber_per_100g <- get nutriments "fiber_100g" (VInt 0) ;;
  sugar_per_100g <- get nutriments "sugars_100g" (VInt 0) ;;
  Py.Return
    (products ++
     [{| barcode := barcode;
         name := name;
         brand := brand;
         image_url := image_url;
         serving_size := serving_size;
         calories_per_100g := calories_per_100g;
         protein_per_100g := protein_per_100g;
         carbs_per_100g := carbs_per_100g;
         fat_per_100g := fat_per_100g;
         fiber_per_100g := fiber_per_100g;
         sugar_per_100g := sugar_per_100g;
         source := "openfoodfacts" |}]).

(** [search_food(query, page, page_size)]; [client_get] is the
    outcome of [await client.get(...)] for the request: a response,
    or the exception the transport raised (a timeout after ten
    seconds among them). *)
Definition search_food (client_get : Py.result response)
    (page page_size : Z) : Py.result search_result :=
  response <- client_get ;;
  if negb (status_code response =? 200) then
    Py.Return {| products := []; count := VInt 0;
                 page := None; page_size := None |}
  else
    data <- json response ;;
    raw <- get data "products" (VList []) ;;
    items <- iter raw ;;
    products <- Py.for_each search_step items [] ;;
    count <- get data "count" (VInt 0) ;;
    Py.Return {| products := products; count := count;
                 page := Some page; page_size := Some page_size |}.

(** [get_product_by_barcode(barcode)]. *)
Definition get_product_by_barcode (client_get : Py.result response)
  : Py.result (option fact) :=
  response <- client_get ;;
  if negb (status_code response =? 200) then Py.Return None
  else
    data <- json response ;;
    status <- get data "status" VNone ;;
    if ne_one status then Py.Return None
    else
      product <- get data "product" (VDict []) ;;
      nutriments <- get product "nutriments" (VDict []) ;;
      barcode <- get product "code" VNone ;;
      name <- get product "product_name" (VStr "Unbekannt") ;;
      brand <- get product "brands" (VStr "") ;;
      image_url <- get product "image_front_small_url" VNone ;;
      serving_size <- get product "serving_size" (VStr "100g") ;;
      calories_per_100g <- get nutriments "energy-kcal_100g" (VInt 0) ;;
      protein_per_100g <- get nutriments "proteins_100g" (VInt 0) ;;
      carbs_per_100g <- get nutriments "carbohydrates_100g" (VInt 0) ;;
      fat_per_100g <- get nutriments "fat_100g" (VInt 0) ;;
      fiber_per_100g <- get nutriments "fiber_100g" (VInt 0) ;;
      sugar_per_100g <- get nutriments "sugars_100g" (VInt 0) ;;
      Py.Return
        (Some {| barcode := barcode;
                 name := name;
                 brand := brand;
                 image_url := image_url;
                 serving_size := serving_size;
                 calories_per_100g := calories_per_100g;
                 protein_per_100g := protein_per_100g;
                 carbs_per_100g := carbs_per_100g;
                 fat_per_100g := fat_per_100g;
                 fiber_per_100g := fiber_per_100g;
                 sugar_per_100g := sugar_per_100g;
                 source := "openfoodfacts" |}).

End OpenFoodFacts.

(* ================================================================= *)
(** * [app/api/routes.py] *)

Module Routes.

(** A request handler runs against the store and leaves a store. *)
Definition handler (A : Type) : Type := DB.t -> Py.result A * DB.t.

(** ** Pydantic models *)

Module UserUpdate.

(** A field of the request body: not sent, or sent with a value,
    which may be [null]. *)
Inductive field : Type :=
| Unset
| Sent (value : option Z).

Record t : Type := {
  calorie_goal : field;
  protein_goal : field;
  carb_goal : field;
  fat_goal : field
}.

Definition item (k : string) (f : field) : list (string * option Z) :=
  match f with
  | Unset => []
  | Sent value => [(k, value)]
  end.

(** [.dict(exclude_unset=True).items()]. *)
Definition dict_exclude_unset (u : t) : list (string * option Z) :=
  item "calorie_goal" (calorie_goal u)
  ++ item "protein_goal" (protein_goal u)
  ++ item "carb_goal" (carb_goal u)
  ++ item "fat_goal" (fat_goal u).

End UserUpdate.

Module WeightEntryCreate.
Record t : Type := {
  user_id : Z;
  date : Date.date;
  weight : float;
  note : option string
}.
End WeightEntryCreate.

(** ** User endpoints *)

(** [setattr(user, field, value)]; a name that is no column of
    [User] changes nothing that is stored. *)
Definition setattr (user : User.t) (field : string) (value : Z) : User.t :=
  if String.eqb field "calorie_goal" then
    {| User.id := User.id user; User.name := User.name user;
       User.calorie_goal := value;
       User.protein_goal := User.protein_goal user;
       User.carb_goal := User.carb_goal user;
       User.fat_goal := User.fat_goal user;
       User.created_at := User.created_at user |}
  else if String.eqb field "protein_goal" then
    {| User.id := User.id user; User.name := User.name user;
       User.calorie_goal := User.calorie_goal user;
       User.protein_goal := value;
       User.carb_goal := User.carb_goal user;
       User.fat_goal := User.fat_goal user;
       User.created_at := User.created_at user |}
  else if String.eqb field "carb_goal" then
    {| User.id := User.id user; User.name := User.name user;
       User.calorie_goal := User.calorie_goal user;
       User.protein_goal := User.protein_goal user;
       User.carb_goal := value;
       User.fat_goal := User.fat_goal user;
       User.created_at := User.created_at user |}
  else if String.eqb field "fat_goal" then
    {| User.id := User.id user; User.name := User.name user;
       User.calorie_goal := User.calorie_goal user;
       User.protein_goal := User.protein_goal user;
       User.carb_goal := User.carb_goal user;
       User.fat_goal := value;
       User.created_at := User.created_at user |}
  else user.

(** [db.commit()] after a change to the row [user]: the row with
    its primary key is rewritten.  The database fixes no place for a
    row within its table; here the row stays where it was. *)
Definition commit_user (user : User.t) (db : DB.t) : DB.t :=
  {| DB.users :=
       map (fun row => if User.id row =? User.id user then user else row)
         (DB.users db);
     DB.food_entries := DB.food_entries db;
     DB.weight_entries := DB.weight_entries db |}.

(** A value of the request body that [db.commit()] can write to its
    [Integer] column; [None] is never written. *)
Definition goal_fits (kv : string * option Z) : bool :=
  match snd kv with
  | Some value => Sql.int4 value
  | None => true
  end.

(** [PUT /users/{user_id}]; [db.commit()] raises, and writes nothing,
    if a value that was set does not fit its column. *)
Definition update_user (user_id : Z) (user_update : UserUpdate.t)
  : handler User.t :=
  fun db =>
    match Query.first (fun u => User.id u =? user_id) (DB.users db) with
    | None => (Py.Raise (Py.HTTPException 404 "User not found"), db)
    | Some user =>
        let user :=
          fold_left
            (fun user (kv : string * option Z) =>
               match snd kv with
               | Some value => setattr user (fst kv) value
               | None => user
               end)
            (UserUpdate.dict_exclude_unset user_update) user in
        if forallb goal_fits (UserUpdate.dict_exclude_unset user_update)
        then (Py.Return user, commit_user user db)
        else (Py.Raise Py.DataError, db)
    end.

(** ** Food search endpoints *)

(** [GET /food/search]. *)
Definition search_food (client_get : Py.result OpenFoodFacts.response)
    (page : Z) : Py.result OpenFoodFacts.search_result :=
  OpenFoodFacts.search_food client_get page 20.

(** [GET /food/barcode/{barcode}]. *)
Definition get_food_by_barcode (client_get : Py.result OpenFoodFacts.response)
  : Py.result OpenFoodFacts.fact :=
  product <- OpenFoodFacts.get_product_by_barcode client_get ;;
  match product with
  | None => Py.Raise (Py.HTTPException 404 "Product not found")
  | Some product => Py.Return product
  end.

(** ** Food entry endpoints *)

(** [FoodEntry.date.desc(), FoodEntry.created_at.desc()]. *)
Definition date_desc_created_desc (a b : FoodEntry.t) : bool :=
  (FoodEntry.date b <? FoodEntry.date a)
  || ((FoodEntry.date a =? FoodEntry.date b)
      && (FoodEntry.created_at b <=? FoodEntry.created_at a)).

(** [FoodEntry.meal_type, FoodEntry.created_at]. *)
Definition meal_type_created (a b : FoodEntry.t) : bool :=
  String.ltb (FoodEntry.meal_type a) (FoodEntry.meal_type b)
  || (String.eqb (FoodEntry.meal_type a) (FoodEntry.meal_type b)
      && (FoodEntry.created_at a <=? FoodEntry.created_at b)).

(** [GET /entries/{user_id}]. *)
Definition get_food_entries (user_id : Z)
    (date_from date_to : option Date.date) (db : DB.t) : list FoodEntry.t :=
  let query :=
    filter (fun e => FoodEntry.user_id e =? user_id) (DB.food_entries db) in
  let query :=
    match date_from with
    | Some date_from => filter (fun e => date_from <=? FoodEntry.date e) query
    | None => query
    end in
  let query :=
    match date_to with
    | Some date_to => filter (fun e => FoodEntry.date e <=? date_to) query
    | None => query
    end in
  Query.order_by date_desc_created_desc query.

Module Totals.
Record t : Type := {
  calories : float;
  protein : float;
  carbs : float;
  fat : float
}.

(** [{"calories": 0, "protein": 0, "carbs": 0, "fat": 0}]; the
    integer [0] of the source is the float zero it equals and
    turns into at the first [+=]. *)
Definition zero : t :=
  {| calories := 0; protein := 0; carbs := 0; fat := 0 |}.

(** The four [+=] of the aggregation loops. *)
Definition add_entry (totals : t) (entry : FoodEntry.t) : t :=
  {| calories :=
       calories totals + FoodEntry.calories entry * FoodEntry.servings entry;
     protein :=
       protein totals + FoodEntry.protein entry * FoodEntry.servings entry;
     carbs :=
       carbs totals + FoodEntry.carbs entry * FoodEntry.servings entry;
     fat :=
       fat totals + FoodEntry.fat entry * FoodEntry.servings entry |}%float.
End Totals.

(** [{**entry.__dict__, "total_calories": ..., ...}]. *)
Record entry_view : Type := {
  entry : FoodEntry.t;
  total_calories : float;
  total_protein : float;
  total_carbs : float;
  total_fat : float
}.

Record daily : Type := {
  date : Date.date;
  meals : Dict.t (list entry_view);
  totals : Totals.t
}.

Definition view_of (entry : FoodEntry.t) : entry_view :=
  {| entry := entry;
     total_calories := FoodEntry.calories entry * FoodEntry.servings entry;
     total_protein := FoodEntry.protein entry * FoodEntry.servings entry;
     total_carbs := FoodEntry.carbs entry * FoodEntry.servings entry;
     total_fat := FoodEntry.fat entry * FoodEntry.servings entry |}%float.

Definition empty_meals : Dict.t (list entry_view) :=
  [("breakfast", []); ("lunch", []); ("dinner", []); ("snack", [])].

(** One turn of [for entry in entries] of [get_daily_entries]. *)
Definition daily_step (acc : Dict.t (list entry_view) * Totals.t)
    (entry : FoodEntry.t) : Py.result (Dict.t (list entry_view) * Totals.t) :=
  let '(grouped, totals) := acc in
  bucket <- Dict.getitem (FoodEntry.meal_type entry) grouped ;;
  let grouped :=
    Dict.set (FoodEntry.meal_type entry) (bucket ++ [view_of entry]) grouped in
  Py.Return (grouped, Totals.add_entry totals entry).

(** The grouping and summing of [get_daily_entries] over the rows
    the query fetched. *)
Definition daily_of (entry_date : Date.date) (entries : list FoodEntry.t)
  : Py.result daily :=
  acc <- Py.for_each daily_step entries (empty_meals, Totals.zero) ;;
  Py.Return {| date := entry_date; meals := fst acc; totals := snd acc |}.

(** The query of [get_daily_entries]. *)
Definition daily_query (user_id : Z) (entry_date : Date.date) (db : DB.t)
  : list FoodEntry.t :=
  Query.order_by meal_type_created
    (filter
       (fun e => (FoodEntry.user_id e =? user_id)
                 && (FoodEntry.date e =? entry_date))
       (DB.food_entries db)).

(** [GET /entries/{user_id}/day/{entry_date}]. *)
Definition get_daily_entries (user_id : Z) (entry_date : Date.date)
    (db : DB.t) : Py.result daily :=
  daily_of entry_date (daily_query user_id entry_date db).

Definition with_servings (entry : FoodEntry.t) (servings : float)
  : FoodEntry.t :=
  {| FoodEntry.id := FoodEntry.id entry;
     FoodEntry.user_id := FoodEntry.user_id entry;
     FoodEntry.date := FoodEntry.date entry;
     FoodEntry.meal_type := FoodEntry.meal_type entry;
     FoodEntry.name := FoodEntry.name entry;
     FoodEntry.brand := FoodEntry.brand entry;
     FoodEntry.barcode := FoodEntry.barcode entry;
     FoodEntry.serving_size := FoodEntry.serving_size entry;
     FoodEntry.servings := servings;
     FoodEntry.calories := FoodEntry.calories entry;
     FoodEntry.protein := FoodEntry.protein entry;
     FoodEntry.carbs := FoodEntry.carbs entry;
     FoodEntry.fat := FoodEntry.fat entry;
     FoodEntry.fiber := FoodEntry.fiber entry;
     FoodEntry.sugar := FoodEntry.sugar entry;
     FoodEntry.source := FoodEntry.source entry;
     FoodEntry.external_id := FoodEntry.external_id entry;
     FoodEntry.image_url := FoodEntry.image_url entry;
     FoodEntry.created_at := FoodEntry.created_at entry |}.

Definition commit_food_entry (entry : FoodEntry.t) (db : DB.t) : DB.t :=
  {| DB.users := DB.users db;
     DB.food_entries :=
       map (fun row =>
              if FoodEntry.id row =? FoodEntry.id entry then entry else row)
         (DB.food_entries db);
     DB.weight_entries := DB.weight_entries db |}.

(** [PUT /entries/{entry_id}]; the entry returned is the row as
    [db.refresh(entry)] reads it back. *)
Definition update_food_entry (entry_id : Z) (servings : float)
  : handler FoodEntry.t :=
  fun db =>
    match Query.first (fun e => FoodEntry.id e =? entry_id)
            (DB.food_entries db) with
    | None => (Py.Raise (Py.HTTPException 404 "Entry not found"), db)
    | Some entry =>
        let entry := with_servings entry (Sql.float8 servings) in
        (Py.Return entry, commit_food_entry entry db)
    end.

(** ** Statistics endpoints *)

Record weekly : Type := {
  start_date : Date.date;
  end_date : Date.date;
  daily_stats : Dict.t Totals.t
}.

(** [for i in range(7)]: the seven keys, zeroed. *)
Definition seed_step (start_date : Date.date) (daily_stats : Dict.t Totals.t)
    (i : Z) : Py.result (Dict.t Totals.t) :=
  day <- Date.add_days start_date i ;;
  Py.Return (Dict.set (Date.isoformat day) Totals.zero daily_stats).

(** One turn of [for entry in entries] of [get_weekly_stats]. *)
Definition weekly_step (daily_stats : Dict.t Totals.t) (entry : FoodEntry.t)
  : Dict.t Totals.t :=
  let day_key := Date.isoformat (FoodEntry.date entry) in
  match Dict.get day_key daily_stats with
  | Some day => Dict.set day_key (Totals.add_entry day entry) daily_stats
  | None => daily_stats
  end.

(** The seeding and summing of [get_weekly_stats] over the rows the
    query fetched. *)
Definition weekly_of (start_date end_date : Date.date)
    (entries : list FoodEntry.t) : Py.result weekly :=
  daily_stats <-
    Py.for_each (seed_step start_date) [0; 1; 2; 3; 4; 5; 6] [] ;;
  Py.Return {| start_date := start_date;
               end_date := end_date;
               daily_stats := fold_left weekly_step entries daily_stats |}.

(** The query of [get_weekly_stats]. *)
Definition weekly_query (user_id : Z) (start_date end_date : Date.date)
    (db : DB.t) : list FoodEntry.t :=
  filter
    (fun e => (FoodEntry.user_id e =? user_id)
              && (start_date <=? FoodEntry.date e)
              && (FoodEntry.date e <=? end_date))
    (DB.food_entries db).

(** [GET /stats/{user_id}/week]; [today] is [date.today()]. *)
Definition get_weekly_stats (today : Date.date) (user_id : Z)
    (start_date : option Date.date) (db : DB.t) : Py.result weekly :=
  start_date <-
    match start_date with
    | Some start_date => Py.Return start_date
    | None => Date.sub_days today (Date.weekday today)
    end ;;
  end_date <- Date.add_days start_date 6 ;;
  weekly_of start_date end_date (weekly_query user_id start_date end_date db).

(** ** Weight endpoints *)

Definition with_weight_note (existing : WeightEntry.t) (weight : float)
    (note : option string) : WeightEntry.t :=
  {| WeightEntry.id := WeightEntry.id existing;
     WeightEntry.user_id := WeightEntry.user_id existing;
     WeightEntry.date := WeightEntry.date existing;
     WeightEntry.weight := weight;
     WeightEntry.note := note;
     WeightEntry.created_at := WeightEntry.created_at existing |}.

Definition commit_weight_entry (entry : WeightEntry.t) (db : DB.t) : DB.t :=
  {| DB.users := DB.users db;
     DB.food_entries := DB.food_entries db;
     DB.weight_entries :=
       map (fun row =>
              if WeightEntry.id row =? WeightEntry.id entry then entry
              else row)
         (DB.weight_entries db) |}.

(** [db.add(db_entry); db.commit()]. *)
Definition add_weight_entry (entry : WeightEntry.t) (db : DB.t) : DB.t :=
  {| DB.users := DB.users db;
     DB.food_entries := DB.food_entries db;
     DB.weight_entries := DB.weight_entries db ++ [entry] |}.

(** [POST /weight]; [new_id] and [now] are the primary key and the
    [created_at] the database gives a new row.  [db.commit()] raises,
    and writes nothing, if the database refuses the row; the entry
    returned is the row as [db.refresh] reads it back. *)
Definition create_weight_entry (new_id now : Z) (entry : WeightEntryCreate.t)
  : handler WeightEntry.t :=
  fun db =>
    match Query.first
            (fun w => (WeightEntry.user_id w =? WeightEntryCreate.user_id entry)
                      && (WeightEntry.date w =? WeightEntryCreate.date entry))
            (DB.weight_entries db) with
    | Some existing =>
        let existing :=
          with_weight_note existing
            (Sql.float8 (WeightEntryCreate.weight entry))
            (WeightEntryCreate.note entry) in
        match Sql.refused
                (Sql.nullable Sql.text (WeightEntryCreate.note entry))
                (Sql.nullable (Sql.varchar 500) (WeightEntryCreate.note entry))
                true with
        | Some e => (Py.Raise e, db)
        | None => (Py.Return existing, commit_weight_entry existing db)
        end
    | None =>
        let db_entry :=
          {| WeightEntry.id := new_id;
             WeightEntry.user_id := WeightEntryCreate.user_id entry;
             WeightEntry.date := WeightEntryCreate.date entry;
             WeightEntry.weight := Sql.float8 (WeightEntryCreate.weight entry);
             WeightEntry.note := WeightEntryCreate.note entry;
             WeightEntry.created_at := now |} in
        match Sql.refused
                (Sql.nullable Sql.text (WeightEntryCreate.note entry))
                (Sql.int4 (WeightEntryCreate.user_id entry)
                 && Sql.nullable (Sql.varchar 500)
                      (WeightEntryCreate.note entry))
                (Sql.has_user (WeightEntryCreate.user_id entry) db) with
        | Some e => (Py.Raise e, db)
        | None => (Py.Return db_entry, add_weight_entry db_entry db)
        end
    end.

End Routes.

(* ================================================================= *)
(** * [app/models/models.py]: favorites *)

Module FavoriteFood.
Record t : Type := {
  id : Z;
  user_id : Z;
  name : string;
  brand : option string;
  barcode : option string;
  calories_per_100g : float;
  protein_per_100g : float;
  carbs_per_100g : float;
  fat_per_100g : float;
  source : string;
  external_id : option string;
  image_url : option string;
  created_at : Z
}.
End FavoriteFood.

(* ================================================================= *)
(** * [app/api/routes.py]: the endpoints that create, read and delete

    As in [create_weight_entry], [new_id] and [now] are the primary
    key and the [created_at] the database gives a new row, and a row
    the database refuses raises and is not written.  The three
    favorites endpoints run against the store extended by the table
    [favorite_foods], which no other endpoint touches. *)

Module Crud.
Import Routes.

(** ** Pydantic models *)

Module UserCreate.
Record t : Type := {
  name : string;
  calorie_goal : Z;
  protein_goal : Z;
  carb_goal : Z;
  fat_goal : Z
}.
End UserCreate.

Module FoodEntryCreate.
Record t : Type := {
  user_id : Z;
  date : Date.date;
  meal_type : string;
  name : string;
  brand : option string;
  barcode : option string;
  serving_size : float;
  servings : float;
  calories : float;
  protein : float;
  carbs : float;
  fat : float;
  fiber : float;
  sugar : float;
  source : string;
  external_id : option string;
  image_url : option string
}.
End FoodEntryCreate.

Module FavoriteFoodCreate.
Record t : Type := {
  user_id : Z;
  name : string;
  brand : option string;
  barcode : option string;
  calories_per_100g : float;
  protein_per_100g : float;
  carbs_per_100g : float;
  fat_per_100g : float;
  source : string;
  external_id : option string;
  image_url : option string
}.
End FavoriteFoodCreate.

(** [{"status": "deleted"}]. *)
Definition deleted : Dict.t string := [("status", "deleted")].

(** ** User endpoints *)

(** The columns of [users] take the request. *)
Definition user_fits (user : UserCreate.t) : bool :=
  Sql.varchar 100 (UserCreate.name user)
  && Sql.int4 (UserCreate.calorie_goal user)
  && Sql.int4 (UserCreate.protein_goal user)
  && Sql.int4 (UserCreate.carb_goal user)
  && Sql.int4 (UserCreate.fat_goal user).

(** [POST /users]; the name is sent with the query already. *)
Definition create_user (new_id now : Z) (user : UserCreate.t)
  : handler User.t :=
  fun db =>
    if negb (Sql.text (UserCreate.name user)) then
      (Py.Raise Py.ValueError, db)
    else
    match Query.first (fun u => String.eqb (User.name u) (UserCreate.name user))
            (DB.users db) with
    | Some existing =>
        (Py.Raise (Py.HTTPException 400 "User already exists"), db)
    | None =>
        let db_user :=
          {| User.id := new_id;
             User.name := UserCreate.name user;
             User.calorie_goal := UserCreate.calorie_goal user;
             User.protein_goal := UserCreate.protein_goal user;
             User.carb_goal := UserCreate.carb_goal user;
             User.fat_goal := UserCreate.fat_goal user;
             User.created_at := now |} in
        match Sql.refused true (user_fits user) true with
        | Some e => (Py.Raise e, db)
        | None =>
            (Py.Return db_user,
             {| DB.users := DB.users db ++ [db_user];
                DB.food_entries := DB.food_entries db;
                DB.weight_entries := DB.weight_entries db |})
        end
    end.

(** [GET /users/{user_id}]. *)
Definition get_user (user_id : Z) (db : DB.t) : Py.result User.t :=
  match Query.first (fun u => User.id u =? user_id) (DB.users db) with
  | None => Py.Raise (Py.HTTPException 404 "User not found")
  | Some user => Py.Return user
  end.

(** ** Food entry endpoints *)

(** The strings of the request can be sent. *)
Definition food_entry_sendable (entry : FoodEntryCreate.t) : bool :=
  Sql.text (FoodEntryCreate.meal_type entry)
  && Sql.text (FoodEntryCreate.name entry)
  && Sql.nullable Sql.text (FoodEntryCreate.brand entry)
  && Sql.nullable Sql.text (FoodEntryCreate.barcode entry)
  && Sql.text (FoodEntryCreate.source entry)
  && Sql.nullable Sql.text (FoodEntryCreate.external_id entry)
  && Sql.nullable Sql.text (FoodEntryCreate.image_url entry).

(** The columns of [food_entries] take the request. *)
Definition food_entry_fits (entry : FoodEntryCreate.t) : bool :=
  Sql.int4 (FoodEntryCreate.user_id entry)
  && Sql.varchar 20 (FoodEntryCreate.meal_type entry)
  && Sql.varchar 500 (FoodEntryCreate.name entry)
  && Sql.nullable (Sql.varchar 255) (FoodEntryCreate.brand entry)
  && Sql.nullable (Sql.varchar 50) (FoodEntryCreate.barcode entry)
  && Sql.varchar 50 (FoodEntryCreate.source entry)
  && Sql.nullable (Sql.varchar 100) (FoodEntryCreate.external_id entry)
  && Sql.nullable (Sql.varchar 500) (FoodEntryCreate.image_url entry).

(** [POST /entries]. *)
Definition create_food_entry (new_id now : Z) (entry : FoodEntryCreate.t)
  : handler FoodEntry.t :=
  fun db =>
    let db_entry :=
      {| FoodEntry.id := new_id;
         FoodEntry.user_id := FoodEntryCreate.user_id entry;
         FoodEntry.date := FoodEntryCreate.date entry;
         FoodEntry.meal_type := FoodEntryCreate.meal_type entry;
         FoodEntry.name := FoodEntryCreate.name entry;
         FoodEntry.brand := FoodEntryCreate.brand entry;
         FoodEntry.barcode := FoodEntryCreate.barcode entry;
         FoodEntry.serving_size :=
           Sql.float8 (FoodEntryCreate.serving_size entry);
         FoodEntry.servings := Sql.float8 (FoodEntryCreate.servings entry);
         FoodEntry.calories := Sql.float8 (FoodEntryCreate.calories entry);
         FoodEntry.protein := Sql.float8 (FoodEntryCreate.protein entry);
         FoodEntry.carbs := Sql.float8 (FoodEntryCreate.carbs entry);
         FoodEntry.fat := Sql.float8 (FoodEntryCreate.fat entry);
         FoodEntry.fiber := Sql.float8 (FoodEntryCreate.fiber entry);
         FoodEntry.sugar := Sql.float8 (FoodEntryCreate.sugar entry);
         FoodEntry.source := FoodEntryCreate.source entry;
         FoodEntry.external_id := FoodEntryCreate.external_id entry;
         FoodEntry.image_url := FoodEntryCreate.image_url entry;
         FoodEntry.created_at := now |} in
    match Sql.refused (food_entry_sendable entry) (food_entry_fits entry)
            (Sql.has_user (FoodEntryCreate.user_id entry) db) with
    | Some e => (Py.Raise e, db)
    | None =>
        (Py.Return db_entry,
         {| DB.users := DB.users db;
            DB.food_entries := DB.food_entries db ++ [db_entry];
            DB.weight_entries := DB.weight_entries db |})
    end.

(** [DELETE /entries/{entry_id}]; [db.delete(entry); db.commit()]
    deletes the row with the primary key of [entry]. *)
Definition delete_food_entry (entry_id : Z) : handler (Dict.t string) :=
  fun db =>
    match Query.first (fun e => FoodEntry.id e =? entry_id)
            (DB.food_entries db) with
    | None => (Py.Raise (Py.HTTPException 404 "Entry not found"), db)
    | Some entry =>
        (Py.Return deleted,
         {| DB.users := DB.users db;
            DB.food_entries :=
              filter (fun row => negb (FoodEntry.id row =? FoodEntry.id entry))
                (DB.food_entries db);
            DB.weight_entries := DB.weight_entries db |})
    end.

(** ** Weight endpoints *)



(** [DELETE /weight/{entry_id}]. *)
Definition delete_weight_entry (entry_id : Z) : handler (Dict.t string) :=
  fun db =>
    match Query.first (fun w => WeightEntry.id w =? entry_id)
            (DB.weight_entries db) with
    | None => (Py.Raise (Py.HTTPException 404 "Entry not found"), db)
    | Some entry =>
        (Py.Return deleted,
         {| DB.users := DB.users db;
            DB.food_entries := DB.food_entries db;
            DB.weight_entries :=
              filter
                (fun row => negb (WeightEntry.id row =? WeightEntry.id entry))
                (DB.weight_entries db) |})
    end.

(** ** Favorites endpoints *)

(** The store with the table [favorite_foods]. *)
Module Store.
Record t : Type := {
  db : DB.t;
  favorite_foods : list FavoriteFood.t
}.
End Store.

(** [GET /favorites/{user_id}]; the order among names is that of
    the collation of the database, here the order of their bytes. *)
Definition get_favorites (user_id : Z) (store : Store.t)
  : list FavoriteFood.t :=
  Query.order_by
    (fun a b => String.leb (FavoriteFood.name a) (FavoriteFood.name b))
    (filter (fun f => FavoriteFood.user_id f =? user_id)
       (Store.favorite_foods store)).

(** The strings of the request can be sent. *)
Definition favorite_sendable (favorite : FavoriteFoodCreate.t) : bool :=
  Sql.text (FavoriteFoodCreate.name favorite)
  && Sql.nullable Sql.text (FavoriteFoodCreate.brand favorite)
  && Sql.nullable Sql.text (FavoriteFoodCreate.barcode favorite)
  && Sql.text (FavoriteFoodCreate.source favorite)
  && Sql.nullable Sql.text (FavoriteFoodCreate.external_id favorite)
  && Sql.nullable Sql.text (FavoriteFoodCreate.image_url favorite).

(** The columns of [favorite_foods] take the request. *)
Definition favorite_fits (favorite : FavoriteFoodCreate.t) : bool :=
  Sql.int4 (FavoriteFoodCreate.user_id favorite)
  && Sql.varchar 500 (FavoriteFoodCreate.name favorite)
  && Sql.nullable (Sql.varchar 255) (FavoriteFoodCreate.brand favorite)
  && Sql.nullable (Sql.varchar 50) (FavoriteFoodCreate.barcode favorite)
  && Sql.varchar 50 (FavoriteFoodCreate.source favorite)
  && Sql.nullable (Sql.varchar 100) (FavoriteFoodCreate.external_id favorite)
  && Sql.nullable (Sql.varchar 500) (FavoriteFoodCreate.image_url favorite).

(** [POST /favorites]. *)
Definition add_favorite (new_id now : Z) (favorite : FavoriteFoodCreate.t)
    (store : Store.t) : Py.result FavoriteFood.t * Store.t :=
  let db_fav :=
    {| FavoriteFood.id := new_id;
       FavoriteFood.user_id := FavoriteFoodCreate.user_id favorite;
       FavoriteFood.name := FavoriteFoodCreate.name favorite;
       FavoriteFood.brand := FavoriteFoodCreate.brand favorite;
       FavoriteFood.barcode := FavoriteFoodCreate.barcode favorite;
       FavoriteFood.calories_per_100g :=
         Sql.float8 (FavoriteFoodCreate.calories_per_100g favorite);
       FavoriteFood.protein_per_100g :=
         Sql.float8 (FavoriteFoodCreate.protein_per_100g favorite);
       FavoriteFood.carbs_per_100g :=
         Sql.float8 (FavoriteFoodCreate.carbs_per_100g favorite);
       FavoriteFood.fat_per_100g :=
         Sql.float8 (FavoriteFoodCreate.fat_per_100g favorite);
       FavoriteFood.source := FavoriteFoodCreate.source favorite;
       FavoriteFood.external_id := FavoriteFoodCreate.external_id favorite;
       FavoriteFood.image_url := FavoriteFoodCreate.image_url favorite;
       FavoriteFood.created_at := now |} in
  match Sql.refused (favorite_sendable favorite) (favorite_fits favorite)
          (Sql.has_user (FavoriteFoodCreate.user_id favorite)
             (Store.db store)) with
  | Some e => (Py.Raise e, store)
  | None =>
      (Py.Return db_fav,
       {| Store.db := Store.db store;
          Store.favorite_foods := Store.favorite_foods store ++ [db_fav] |})
  end.

(** [DELETE /favorites/{favorite_id}]. *)
Definition remove_favorite (favorite_id : Z) (store : Store.t)
  : Py.result (Dict.t string) * Store.t :=
  match Query.first (fun f => FavoriteFood.id f =? favorite_id)
          (Store.favorite_foods store) with
  | None => (Py.Raise (Py.HTTPException 404 "Favorite not found"), store)
  | Some fav =>
      (Py.Return deleted,
       {| Store.db := Store.db store;
          Store.favorite_foods :=
            filter
              (fun row => negb (FavoriteFood.id row =? FavoriteFood.id fav))
              (Store.favorite_foods store) |})
  end.

End Crud.

(* ================================================================= *)
(** * Definitions used to state the properties *)

(** The month and day of the [n]-th day (from 0) of a year. *)
Definition month_day (leapyear : bool) (n : Z) : Z * Z :=
  let month := Z.shiftr (n + 50) 5 in
  let preceding :=
    Date._DAYS_BEFORE_MONTH month + (if (2 <? month) && leapyear then 1 else 0) in
  if n <? preceding then
    let month := month - 1 in
    let preceding :=
      preceding
      - (Date._DAYS_IN_MONTH month + (if (month =? 2) && leapyear then 1 else 0)) in
    (month, n - preceding + 1)
  else (month, n - preceding + 1).

Definition month_day_ok (leapyear : bool) (n : Z) : bool :=
  let '(m, d) := month_day leapyear n in
  (1 <=? m) && (m <=? 12) && (1 <=? d) && (d <=? 31)
  && (Date._DAYS_BEFORE_MONTH m + (if (2 <? m) && leapyear then 1 else 0) + d
      =? n + 1).

(** The four meal slots, in the order [get_daily_entries] lists them. *)
Definition meal_slots : list string := ["breakfast"; "lunch"; "dinner"; "snack"].

Definition meal_slot (m : string) : Prop := In m meal_slots.

Definition in_meal (m : string) (e : FoodEntry.t) : bool :=
  String.eqb (FoodEntry.meal_type e) m.

(** A running sum, as repeated [+=] from zero computes it. *)
Definition sum (xs : list float) : float := fold_left PrimFloat.add xs 0%float.

(** The effective contribution of an entry: a per-serving value times
    the serving count. *)
Definition effective (per_serving : FoodEntry.t -> float) (e : FoodEntry.t)
  : float :=
  (per_serving e * FoodEntry.servings e)%float.

Definition with_fiber_sugar (fiber sugar : FoodEntry.t -> float)
    (e : FoodEntry.t) : FoodEntry.t :=
  {| FoodEntry.id := FoodEntry.id e;
     FoodEntry.user_id := FoodEntry.user_id e;
     FoodEntry.date := FoodEntry.date e;
     FoodEntry.meal_type := FoodEntry.meal_type e;
     FoodEntry.name := FoodEntry.name e;
     FoodEntry.brand := FoodEntry.brand e;
     FoodEntry.barcode := FoodEntry.barcode e;
     FoodEntry.serving_size := FoodEntry.serving_size e;
     FoodEntry.servings := FoodEntry.servings e;
     FoodEntry.calories := FoodEntry.calories e;
     FoodEntry.protein := FoodEntry.protein e;
     FoodEntry.carbs := FoodEntry.carbs e;
     FoodEntry.fat := FoodEntry.fat e;
     FoodEntry.fiber := fiber e;
     FoodEntry.sugar := sugar e;
     FoodEntry.source := FoodEntry.source e;
     FoodEntry.external_id := FoodEntry.external_id e;
     FoodEntry.image_url := FoodEntry.image_url e;
     FoodEntry.created_at := FoodEntry.created_at e |}.

(** A food entry with the column defaults of [FoodEntryCreate]. *)
Definition food (id user_id : Z) (date : Date.date) (meal_type name : string)
    (servings calories protein carbs fat : float) (created_at : Z)
  : FoodEntry.t :=
  {| FoodEntry.id := id;
     FoodEntry.user_id := user_id;
     FoodEntry.date := date;
     FoodEntry.meal_type := meal_type;
     FoodEntry.name := name;
     FoodEntry.brand := None;
     FoodEntry.barcode := None;
     FoodEntry.serving_size := 100;
     FoodEntry.servings := servings;
     FoodEntry.calories := calories;
     FoodEntry.protein := protein;
     FoodEntry.carbs := carbs;
     FoodEntry.fat := fat;
     FoodEntry.fiber := 0;
     FoodEntry.sugar := 0;
     FoodEntry.source := "manual";
     FoodEntry.external_id := None;
     FoodEntry.image_url := None;
     FoodEntry.created_at := created_at |}.

#[local] Set Warnings "-inexact-float".

(** The scenario of the specification: two servings of a 90 kcal item
    for breakfast on 2024-03-04. *)
Definition banana : FoodEntry.t :=
  food 1 1 (Date.of_ymd 2024 3 4) "breakfast" "Banana" 2 90 1 20 0.3 0.

(** A row whose meal type is none of the four slots, as
    [POST /entries] stores it ([meal_type: str]). *)
Definition brunch : FoodEntry.t :=
  food 2 1 (Date.of_ymd 2024 3 4) "brunch" "Eggs" 1 150 12 1 10 0.

(** The seven days of the week that starts on [start]. *)
Definition week (start : Date.date) : list Date.date :=
  map (fun i => start + i) [0; 1; 2; 3; 4; 5; 6].

Definition on_day (d : Date.date) (e : FoodEntry.t) : bool :=
  FoodEntry.date e =? d.

Definition in_week (start : Date.date) (e : FoodEntry.t) : bool :=
  (start <=? FoodEntry.date e) && (FoodEntry.date e <=? start + 6).

Definition dated (e : FoodEntry.t) : Prop := Date.valid (FoodEntry.date e).

(** Monday 2024-03-04, and the last Tuesday of the calendar. *)
Definition monday : Date.date := Date.of_ymd 2024 3 4.

Definition late_start : Date.date := Date.of_ymd 9999 12 28.

Definition empty_db : DB.t :=
  {| DB.users := []; DB.food_entries := []; DB.weight_entries := [] |}.

(** [GET /users/{user_id}] finds a user. *)
Definition user_exists (db : DB.t) (user_id : Z) : bool :=
  existsb (fun u => User.id u =? user_id) (DB.users db).

(** The foreign key of [food_entries.user_id] into [users.id]. *)
Definition food_entries_fk (db : DB.t) : Prop :=
  Forall (fun e => user_exists db (FoodEntry.user_id e) = true)
    (DB.food_entries db).

Definition no_entries (db : DB.t) (user_id : Z) : Prop :=
  Forall (fun e => FoodEntry.user_id e <> user_id) (DB.food_entries db).

Definition alice : User.t :=
  {| User.id := 1; User.name := "alice";
     User.calorie_goal := 2000; User.protein_goal := 150;
     User.carb_goal := 200; User.fat_goal := 65;
     User.created_at := 0 |}.

Definition sample_db : DB.t :=
  {| DB.users := [alice];
     DB.food_entries := [banana];
     DB.weight_entries := [] |}.

(** The only exception dates raise. *)
Definition only_overflow {A} (m : Py.result A) : Prop :=
  match m with
  | Py.Return _ => True
  | Py.Raise e => e = Py.OverflowError
  end.

(** The pair a weight entry is logged under. *)
Definition weight_key (w : WeightEntry.t) : Z * Z :=
  (WeightEntry.user_id w, WeightEntry.date w).

(** At most one weight entry per (user, date). *)
Definition one_per_day (db : DB.t) : Prop :=
  NoDup (map weight_key (DB.weight_entries db)).

(** [weight_entries.id] is the primary key. *)
Definition weight_ids (db : DB.t) : list Z :=
  map WeightEntry.id (DB.weight_entries db).

(** The stored weight entries of a user on a date. *)
Definition logged (user_id : Z) (d : Date.date) (db : DB.t)
  : list WeightEntry.t :=
  filter
    (fun w => (WeightEntry.user_id w =? user_id) && (WeightEntry.date w =? d))
    (DB.weight_entries db).

Definition weigh (user_id : Z) (d : Date.date) (weight : float)
    (note : option string) : Routes.WeightEntryCreate.t :=
  {| Routes.WeightEntryCreate.user_id := user_id;
     Routes.WeightEntryCreate.date := d;
     Routes.WeightEntryCreate.weight := weight;
     Routes.WeightEntryCreate.note := note |}.

(** What a goal becomes under one field of the request body. *)
Definition apply_field (f : Routes.UserUpdate.field) (old : Z) : Z :=
  match f with
  | Routes.UserUpdate.Sent (Some value) => value
  | _ => old
  end.

(** Request bodies [{"protein_goal": 180}] and [{"protein_goal": null}]. *)
Definition protein_180 : Routes.UserUpdate.t :=
  {| Routes.UserUpdate.calorie_goal := Routes.UserUpdate.Unset;
     Routes.UserUpdate.protein_goal := Routes.UserUpdate.Sent (Some 180);
     Routes.UserUpdate.carb_goal := Routes.UserUpdate.Unset;
     Routes.UserUpdate.fat_goal := Routes.UserUpdate.Unset |}.

Definition protein_null : Routes.UserUpdate.t :=
  {| Routes.UserUpdate.calorie_goal := Routes.UserUpdate.Unset;
     Routes.UserUpdate.protein_goal := Routes.UserUpdate.Sent None;
     Routes.UserUpdate.carb_goal := Routes.UserUpdate.Unset;
     Routes.UserUpdate.fat_goal := Routes.UserUpdate.Unset |}.

(** The order that [get_food_entries] produces: later dates first,
    and within a date later creation first. *)
Definition newest_first (a b : FoodEntry.t) : Prop :=
  FoodEntry.date b < FoodEntry.date a
  \/ (FoodEntry.date a = FoodEntry.date b
      /\ FoodEntry.created_at b <= FoodEntry.created_at a).

(** The order of the Entry Store Adapter contract: date descending,
    then meal type, then creation time. *)
Definition date_desc_meal_type_created (a b : FoodEntry.t) : bool :=
  (FoodEntry.date b <? FoodEntry.date a)
  || ((FoodEntry.date a =? FoodEntry.date b)
      && (String.ltb (FoodEntry.meal_type a) (FoodEntry.meal_type b)
          || (String.eqb (FoodEntry.meal_type a) (FoodEntry.meal_type b)
              && (FoodEntry.created_at a <=? FoodEntry.created_at b)))).

(** The rows [get_food_entries] selects. *)
Definition selected (user_id : Z) (date_from date_to : option Date.date)
    (e : FoodEntry.t) : bool :=
  (FoodEntry.user_id e =? user_id)
  && match date_from with
     | Some date_from => date_from <=? FoodEntry.date e
     | None => true
     end
  && match date_to with
     | Some date_to => FoodEntry.date e <=? date_to
     | None => true
     end.

(** A day with porridge logged at breakfast and an apple logged later
    as a snack. *)
Definition porridge : FoodEntry.t :=
  food 10 1 monday "breakfast" "Porridge" 1 300 10 50 6 100.

Definition apple : FoodEntry.t :=
  food 11 1 monday "snack" "Apple" 1 52 0 14 0 200.

Definition snack_db : DB.t :=
  {| DB.users := [alice];
     DB.food_entries := [porridge; apple];
     DB.weight_entries := [] |}.

(** ** The food fact normalizer, as the specification words it *)

Definition or_default (default : OpenFoodFacts.value)
    (found : option OpenFoodFacts.value) : OpenFoodFacts.value :=
  match found with
  | Some v => v
  | None => default
  end.

(** A raw product record: a JSON object whose [nutriments], when
    there, is a JSON object too. *)
Definition raw_product (product : Dict.t OpenFoodFacts.value) : Prop :=
  match Dict.get "nutriments" product with
  | None | Some (OpenFoodFacts.VDict _) => True
  | Some _ => False
  end.

Definition nutrient_map (product : Dict.t OpenFoodFacts.value)
  : Dict.t OpenFoodFacts.value :=
  match Dict.get "nutriments" product with
  | Some (OpenFoodFacts.VDict nutriments) => nutriments
  | _ => []
  end.

(** The canonical fact of a raw product: every field is the upstream
    field when present, and its default otherwise. *)
Definition canonical (product : Dict.t OpenFoodFacts.value)
  : OpenFoodFacts.fact :=
  let nutriments := nutrient_map product in
  {| OpenFoodFacts.barcode :=
       or_default OpenFoodFacts.VNone (Dict.get "code" product);
     OpenFoodFacts.name :=
       or_default (OpenFoodFacts.VStr "Unbekannt")
         (Dict.get "product_name" product);
     OpenFoodFacts.brand :=
       or_default (OpenFoodFacts.VStr "") (Dict.get "brands" product);
     OpenFoodFacts.image_url :=
       or_default OpenFoodFacts.VNone
         (Dict.get "image_front_small_url" product);
     OpenFoodFacts.serving_size :=
       or_default (OpenFoodFacts.VStr "100g") (Dict.get "serving_size" product);
     OpenFoodFacts.calories_per_100g :=
       or_default (OpenFoodFacts.VInt 0) (Dict.get "energy-kcal_100g" nutriments);
     OpenFoodFacts.protein_per_100g :=
       or_default (OpenFoodFacts.VInt 0) (Dict.get "proteins_100g" nutriments);
     OpenFoodFacts.carbs_per_100g :=
       or_default (OpenFoodFacts.VInt 0)
         (Dict.get "carbohydrates_100g" nutriments);
     OpenFoodFacts.fat_per_100g :=
       or_default (OpenFoodFacts.VInt 0) (Dict.get "fat_100g" nutriments);
     OpenFoodFacts.fiber_per_100g :=
       or_default (OpenFoodFacts.VInt 0) (Dict.get "fiber_100g" nutriments);
     OpenFoodFacts.sugar_per_100g :=
       or_default (OpenFoodFacts.VInt 0) (Dict.get "sugars_100g" nutriments);
     OpenFoodFacts.source := "openfoodfacts" |}.

(** A 200 response carrying [data]. *)
Definition ok_response (data : OpenFoodFacts.value)
  : Py.result OpenFoodFacts.response :=
  Py.Return {| OpenFoodFacts.status_code := 200;
               OpenFoodFacts.body := Py.Return data |}.

(** A 200 response whose body is text but not JSON, one whose body is
    not UTF-8 text, and a 503 with an error page. *)
Definition garbled : OpenFoodFacts.response :=
  {| OpenFoodFacts.status_code := 200;
     OpenFoodFacts.body := Py.Raise Py.JSONDecodeError |}.

Definition mangled : OpenFoodFacts.response :=
  {| OpenFoodFacts.status_code := 200;
     OpenFoodFacts.body := Py.Raise Py.UnicodeDecodeError |}.

Definition unavailable : OpenFoodFacts.response :=
  {| OpenFoodFacts.status_code := 503;
     OpenFoodFacts.body := Py.Raise Py.JSONDecodeError |}.

(** A 200 barcode payload without a status field. *)
Definition no_status : OpenFoodFacts.response :=
  {| OpenFoodFacts.status_code := 200;
     OpenFoodFacts.body :=
       Py.Return
         (OpenFoodFacts.VDict
            [("product",
              OpenFoodFacts.VDict
                [("product_name", OpenFoodFacts.VStr "Haferflocken")])]) |}.

(** A barcode payload [{"status": 1, "product": product}]. *)
Definition found (product : OpenFoodFacts.value) : OpenFoodFacts.value :=
  OpenFoodFacts.VDict
    [("status", OpenFoodFacts.VInt 1); ("product", product)].

(** ** Requests used as examples *)

Definition log_food (user_id : Z) (date : Date.date) (meal_type name : string)
    (servings calories : float) : Crud.FoodEntryCreate.t :=
  {| Crud.FoodEntryCreate.user_id := user_id;
     Crud.FoodEntryCreate.date := date;
     Crud.FoodEntryCreate.meal_type := meal_type;
     Crud.FoodEntryCreate.name := name;
     Crud.FoodEntryCreate.brand := None;
     Crud.FoodEntryCreate.barcode := None;
     Crud.FoodEntryCreate.serving_size := 100;
     Crud.FoodEntryCreate.servings := servings;
     Crud.FoodEntryCreate.calories := calories;
     Crud.FoodEntryCreate.protein := 0;
     Crud.FoodEntryCreate.carbs := 0;
     Crud.FoodEntryCreate.fat := 0;
     Crud.FoodEntryCreate.fiber := 0;
     Crud.FoodEntryCreate.sugar := 0;
     Crud.FoodEntryCreate.source := "manual";
     Crud.FoodEntryCreate.external_id := None;
     Crud.FoodEntryCreate.image_url := None |}.

(** The primary keys of the tables. *)
Definition food_ids (db : DB.t) : list Z :=
  map FoodEntry.id (DB.food_entries db).

Definition user_ids (db : DB.t) : list Z := map User.id (DB.users db).

Definition user_names (db : DB.t) : list string :=
  map User.name (DB.users db).

(** The mapping [get_weekly_stats] starts from: the seven days of the
    week, zeroed. *)
Definition seeded (start : Date.date) : Dict.t Routes.Totals.t :=
  map (fun day => (Date.isoformat day, Routes.Totals.zero)) (week start).

(** A payload sets nothing when every field sent is [null]. *)
Definition sets_nothing (user_update : Routes.UserUpdate.t) : Prop :=
  Forall (fun kv : string * option Z => snd kv = None)
    (Routes.UserUpdate.dict_exclude_unset user_update).

Definition sign_up (name : string) : Crud.UserCreate.t :=
  {| Crud.UserCreate.name := name;
     Crud.UserCreate.calorie_goal := 2000;
     Crud.UserCreate.protein_goal := 150;
     Crud.UserCreate.carb_goal := 200;
     Crud.UserCreate.fat_goal := 65 |}.

(** Weigh-ins of one user on three days, stored out of order. *)
Definition weighed (id : Z) (d : Date.date) (weight : float) : WeightEntry.t :=
  {| WeightEntry.id := id; WeightEntry.user_id := 1; WeightEntry.date := d;
     WeightEntry.weight := weight; WeightEntry.note := None;
     WeightEntry.created_at := 0 |}.

Definition weight_db : DB.t :=
  {| DB.users := [alice];
     DB.food_entries := [];
     DB.weight_entries :=
       [weighed 1 (monday + 1) 80; weighed 2 monday 81;
        weighed 3 (monday + 2) 79] |}.


(** An item of the upstream product list that is a raw product. *)
Definition raw_item (item : OpenFoodFacts.value) : bool :=
  match item with
  | OpenFoodFacts.VDict product =>
      match Dict.get "nutriments" product with
      | None | Some (OpenFoodFacts.VDict _) => true
      | Some _ => false
      end
  | _ => false
  end.

Definition is_object (data : OpenFoodFacts.value) : bool :=
  match data with
  | OpenFoodFacts.VDict _ => true
  | _ => false
  end.

(** [None], [bool], [int] and [float]: what [for ... in] cannot walk. *)
Definition is_scalar (data : OpenFoodFacts.value) : bool :=
  match data with
  | OpenFoodFacts.VNone | OpenFoodFacts.VBool _
  | OpenFoodFacts.VInt _ | OpenFoodFacts.VFloat _ => true
  | _ => false
  end.

Definition favor (user_id : Z) (name : string) : Crud.FavoriteFoodCreate.t :=
  {| Crud.FavoriteFoodCreate.user_id := user_id;
     Crud.FavoriteFoodCreate.name := name;
     Crud.FavoriteFoodCreate.brand := None;
     Crud.FavoriteFoodCreate.barcode := None;
     Crud.FavoriteFoodCreate.calories_per_100g := 0;
     Crud.FavoriteFoodCreate.protein_per_100g := 0;
     Crud.FavoriteFoodCreate.carbs_per_100g := 0;
     Crud.FavoriteFoodCreate.fat_per_100g := 0;
     Crud.FavoriteFoodCreate.source := "openfoodfacts";
     Crud.FavoriteFoodCreate.external_id := None;
     Crud.FavoriteFoodCreate.image_url := None |}.

(** The change [PUT /entries/{entry_id}] makes to a row. *)
Definition rescale (entry_id : Z) (servings : float) (e : FoodEntry.t)
  : FoodEntry.t :=
  if FoodEntry.id e =? entry_id then Routes.with_servings e servings else e.

(** Views in order of creation, earliest first. *)
Definition created_before (v w : Routes.entry_view) : Prop :=
  FoodEntry.created_at (Routes.entry v) <= FoodEntry.created_at (Routes.entry w).

(** ** What the database takes *)

(** The float is the negative zero. *)
Definition negative_zero (f : float) : Prop :=
  PrimFloat.classify f = FloatClass.NZero.

(** What a [Float] column holds once [supplied] was written to it:
    the float itself, and zero for the negative zero. *)
Definition stored_as (supplied stored : float) : Prop :=
  (negative_zero supplied -> stored = 0%float)
  /\ (~ negative_zero supplied -> stored = supplied).

(** No character of the string is NUL. *)
Definition no_nul (s : string) : bool :=
  forallb (fun c => negb (Ascii.eqb c Ascii.zero)) (list_ascii_of_string s).

(** A note that can be stored: none, or a string without NUL of at
    most 500 characters. *)
Definition note_fits (note : option string) : bool :=
  match note with
  | None => true
  | Some s => no_nul s && Nat.leb (String.length s) 500
  end.

(** A weight-log request the database takes: for a user that exists,
    with an id that is a 32-bit integer, and with a note that can be
    stored. *)
Definition weight_accepted (entry : Routes.WeightEntryCreate.t) (db : DB.t)
  : bool :=
  user_exists db (Routes.WeightEntryCreate.user_id entry)
  && (-2147483648 <=? Routes.WeightEntryCreate.user_id entry)
  && (Routes.WeightEntryCreate.user_id entry <=? 2147483647)
  && note_fits (Routes.WeightEntryCreate.note entry).

(** A number the request body gives for a goal fits a 32-bit integer
    column; a field left out or given as [null] asks for nothing. *)
Definition goal_in_range (f : Routes.UserUpdate.field) : Prop :=
  match f with
  | Routes.UserUpdate.Sent (Some value) =>
      -2147483648 <= value <= 2147483647
  | _ => True
  end.

Definition goals_in_range (user_update : Routes.UserUpdate.t) : Prop :=
  goal_in_range (Routes.UserUpdate.calorie_goal user_update)
  /\ goal_in_range (Routes.UserUpdate.protein_goal user_update)
  /\ goal_in_range (Routes.UserUpdate.carb_goal user_update)
  /\ goal_in_range (Routes.UserUpdate.fat_goal user_update).

(** Request body [{"protein_goal": 2147483648}]. *)
Definition protein_overflow : Routes.UserUpdate.t :=
  {| Routes.UserUpdate.calorie_goal := Routes.UserUpdate.Unset;
     Routes.UserUpdate.protein_goal :=
       Routes.UserUpdate.Sent (Some 2147483648);
     Routes.UserUpdate.carb_goal := Routes.UserUpdate.Unset;
     Routes.UserUpdate.fat_goal := Routes.UserUpdate.Unset |}.

(** A string a [String(n)] column takes: one without NUL of at most
    [n] characters; a nullable column also takes [None]. *)
Definition string_fits (n : nat) (s : string) : bool :=
  no_nul s && Nat.leb (String.length s) n.

Definition optional_fits (n : nat) (value : option string) : bool :=
  match value with
  | None => true
  | Some s => string_fits n s
  end.

(** A food entry the database takes: for a user that exists, with an
    id that is a 32-bit integer, and with strings that fit the columns
    of [food_entries]. *)
Definition food_entry_accepted (entry : Crud.FoodEntryCreate.t) (db : DB.t)
  : bool :=
  user_exists db (Crud.FoodEntryCreate.user_id entry)
  && (-2147483648 <=? Crud.FoodEntryCreate.user_id entry)
  && (Crud.FoodEntryCreate.user_id entry <=? 2147483647)
  && string_fits 20 (Crud.FoodEntryCreate.meal_type entry)
  && string_fits 500 (Crud.FoodEntryCreate.name entry)
  && optional_fits 255 (Crud.FoodEntryCreate.brand entry)
  && optional_fits 50 (Crud.FoodEntryCreate.barcode entry)
  && string_fits 50 (Crud.FoodEntryCreate.source entry)
  && optional_fits 100 (Crud.FoodEntryCreate.external_id entry)
  && optional_fits 500 (Crud.FoodEntryCreate.image_url entry).

(** A sign-up the database takes: a name without NUL of at most 100
    characters, and goals that are 32-bit integers. *)
Definition int_fits (z : Z) : bool :=
  (-2147483648 <=? z) && (z <=? 2147483647).

Definition user_accepted (user : Crud.UserCreate.t) : bool :=
  string_fits 100 (Crud.UserCreate.name user)
  && int_fits (Crud.UserCreate.calorie_goal user)
  && int_fits (Crud.UserCreate.protein_goal user)
  && int_fits (Crud.UserCreate.carb_goal user)
  && int_fits (Crud.UserCreate.fat_goal user).

(** A favorite the database takes. *)
Definition favorite_accepted (favorite : Crud.FavoriteFoodCreate.t)
    (db : DB.t) : bool :=
  user_exists db (Crud.FavoriteFoodCreate.user_id favorite)
  && int_fits (Crud.FavoriteFoodCreate.user_id favorite)
  && string_fits 500 (Crud.FavoriteFoodCreate.name favorite)
  && optional_fits 255 (Crud.FavoriteFoodCreate.brand favorite)
  && optional_fits 50 (Crud.FavoriteFoodCreate.barcode favorite)
  && string_fits 50 (Crud.FavoriteFoodCreate.source favorite)
  && optional_fits 100 (Crud.FavoriteFoodCreate.external_id favorite)
  && optional_fits 500 (Crud.FavoriteFoodCreate.image_url favorite).

(** A store with one user and one favorite of hers. *)
Definition quark : FavoriteFood.t :=
  {| FavoriteFood.id := 1;
     FavoriteFood.user_id := 1;
     FavoriteFood.name := "Quark";
     FavoriteFood.brand := None;
     FavoriteFood.barcode := None;
     FavoriteFood.calories_per_100g := 67;
     FavoriteFood.protein_per_100g := 12;
     FavoriteFood.carbs_per_100g := 4;
     FavoriteFood.fat_per_100g := 0;
     FavoriteFood.source := "openfoodfacts";
     FavoriteFood.external_id := None;
     FavoriteFood.image_url := None;
     FavoriteFood.created_at := 0 |}.

Definition favorites_db : Crud.Store.t :=
  {| Crud.Store.db := sample_db;
     Crud.Store.favorite_foods := [quark] |}.

(** A day with three snacks, stored out of the order of their
    creation. *)
Definition nuts : FoodEntry.t :=
  food 12 1 monday "snack" "Nuts" 1 180 5 6 15 300.

Definition yoghurt : FoodEntry.t :=
  food 13 1 monday "snack" "Yoghurt" 1 90 5 7 3 150.

Definition snacks_db : DB.t :=
  {| DB.users := [alice];
     DB.food_entries := [nuts; apple; yoghurt];
     DB.weight_entries := [] |}.

(** What [ORDER BY meal_type, created_at] sorts an entry by. *)
Definition sort_key (e : FoodEntry.t) : string * Z :=
  (FoodEntry.meal_type e, FoodEntry.created_at e).

(** A name of 101 characters. *)
Definition long_name : string :=
  string_of_list_ascii (repeat "a"%char 101).

(* ================================================================= *)
(** * Dates: [isoformat] tells valid dates apart *)

Section DateFacts.
Import Date.

Lemma leap_decomp a b c e :
0 <= a -> 0 <= b <= 3 -> 0 <= c <= 24 -> 0 <= e <= 3 ->
_is_leap (a * 400 + 1 + (b * 100 + c * 4 + e)) =
((e =? 3) && (negb (c =? 24) || (b =? 3))).
Proof.
intros Ha Hb Hc He. unfold _is_leap.
repeat match goal with
       | |- context [?x =? ?y] => destruct (Z.eqb_spec x y)
       end; simpl; try reflexivity; exfalso;
  Z.div_mod_to_equations; lia.
Qed.

Lemma dby_decomp a b c e :
0 <= a -> 0 <= b <= 3 -> 0 <= c <= 24 -> 0 <= e <= 3 ->
_days_before_year (a * 400 + 1 + (b * 100 + c * 4 + e)) =
146097 * a + 36524 * b + 1461 * c + 365 * e.
Proof.
intros Ha Hb Hc He. unfold _days_before_year.
Z.div_mod_to_equations. lia.
Qed.

Lemma month_estimate_bounds n :
0 <= n -> 32 * Z.shiftr (n + 50) 5 <= n + 50 < 32 * Z.shiftr (n + 50) 5 + 32.
Proof.
intros Hn. rewrite Z.shiftr_div_pow2 by lia.
change (2 ^ 5) with 32. Z.div_mod_to_equations. lia.
Qed.

Lemma month_day_checked (leapyear : bool) :
forallb (fun k => month_day_ok leapyear (Z.of_nat k))
  (seq 0 (if leapyear then 366 else 365)) = true.
Proof. destruct leapyear; vm_compute; reflexivity. Qed.

Lemma month_day_spec (leapyear : bool) n :
0 <= n < 365 + (if leapyear then 1 else 0) ->
let '(m, d) := month_day leapyear n in
1 <= m <= 12 /\ 1 <= d <= 31 /\
_DAYS_BEFORE_MONTH m + (if (2 <? m) && leapyear then 1 else 0) + d = n + 1.
Proof.
intros Hn.
pose proof (month_day_checked leapyear) as Hall.
rewrite forallb_forall in Hall.
specialize (Hall (Z.to_nat n)).
rewrite Z2Nat.id in Hall by lia.
unfold month_day_ok in Hall.
destruct (month_day leapyear n) as [m d].
assert (Hin : In (Z.to_nat n) (seq 0 (if leapyear then 366 else 365)))
  by (apply in_seq; destruct leapyear; lia).
specialize (Hall Hin).
repeat rewrite andb_true_iff in Hall.
destruct Hall as ((((H1 & H2) & H3) & H4) & H5).
apply Z.leb_le in H1, H2, H3, H4. apply Z.eqb_eq in H5.
repeat split; assumption.
Qed.

Lemma _ord2ymd_month_day n :
_ord2ymd n =
let n0 := n - 1 in
let a := n0 / 146097 in
let r1 := n0 mod 146097 in
let b := r1 / 36524 in
let r2 := r1 mod 36524 in
let c := r2 / 1461 in
let r3 := r2 mod 1461 in
let e := r3 / 365 in
let r4 := r3 mod 365 in
let year := a * 400 + 1 + (b * 100 + c * 4 + e) in
if (e =? 4) || (b =? 4) then (year - 1, 12, 31)
else
  let '(m, d) := month_day ((e =? 3) && (negb (c =? 24) || (b =? 3))) r4 in
  (year, m, d).
Proof.
unfold _ord2ymd, month_day, _DI400Y, _DI100Y, _DI4Y. cbv zeta.
destruct ((_ =? 4) || _); [reflexivity|].
destruct (_ <? _); reflexivity.
Qed.

Lemma _ord2ymd_spec n :
valid n ->
let '(y, m, d) := _ord2ymd n in
1 <= y <= 9999 /\ 1 <= m <= 12 /\ 1 <= d <= 31 /\ _ymd2ord y m d = n.
Proof.
unfold valid, _MAXORDINAL. intros Hn.
rewrite _ord2ymd_month_day. cbv zeta.
pose proof (Z.div_mod (n - 1) 146097 ltac:(lia)) as E1.
pose proof (Z.mod_pos_bound (n - 1) 146097 ltac:(lia)) as B1.
set (a := (n - 1) / 146097) in *. set (r1 := (n - 1) mod 146097) in *.
pose proof (Z.div_mod r1 36524 ltac:(lia)) as E2.
pose proof (Z.mod_pos_bound r1 36524 ltac:(lia)) as B2.
set (b := r1 / 36524) in *. set (r2 := r1 mod 36524) in *.
pose proof (Z.div_mod r2 1461 ltac:(lia)) as E3.
pose proof (Z.mod_pos_bound r2 1461 ltac:(lia)) as B3.
set (c := r2 / 1461) in *. set (r3 := r2 mod 1461) in *.
pose proof (Z.div_mod r3 365 ltac:(lia)) as E4.
pose proof (Z.mod_pos_bound r3 365 ltac:(lia)) as B4.
set (e := r3 / 365) in *. set (r4 := r3 mod 365) in *.
clearbody a r1 b r2 c r3 e r4.
assert (Ha : 0 <= a <= 24) by lia.
assert (Hb : 0 <= b <= 4) by lia.
assert (Hc : 0 <= c <= 24) by lia.
assert (He : 0 <= e <= 4) by lia.
destruct (Z.eqb_spec e 4) as [He4 | He4]; simpl.
- (* 31 December closing a 4-year cycle *)
  repeat split; try lia.
  unfold _ymd2ord, _days_before_year, _days_before_month, _is_leap; simpl.
  repeat match goal with
         | |- context [?x =? ?y] => destruct (Z.eqb_spec x y)
         end; simpl; Z.div_mod_to_equations; lia.
- destruct (Z.eqb_spec b 4) as [Hb4 | Hb4]; simpl.
  + (* 31 December closing a 400-year cycle *)
    repeat split; try lia.
    unfold _ymd2ord, _days_before_year, _days_before_month, _is_leap; simpl.
    repeat match goal with
           | |- context [?x =? ?y] => destruct (Z.eqb_spec x y)
           end; simpl; Z.div_mod_to_equations; lia.
  + assert (Hb3 : 0 <= b <= 3) by lia.
    assert (He3 : 0 <= e <= 3) by lia.
    pose proof (leap_decomp a b c e ltac:(lia) Hb3 Hc He3) as HL.
    pose proof (dby_decomp a b c e ltac:(lia) Hb3 Hc He3) as HD.
    set (leap := (e =? 3) && (negb (c =? 24) || (b =? 3))) in *.
    pose proof (month_day_spec leap r4 ltac:(destruct leap; lia)) as HM.
    destruct (month_day leap r4) as [m d].
    destruct HM as (Hm & Hd & HM).
    repeat split; try lia.
    unfold _ymd2ord, _days_before_month. rewrite HL, HD. lia.
Qed.

Lemma digit_inj j k :
0 <= j <= 9 -> 0 <= k <= 9 -> digit j = digit k -> j = k.
Proof.
intros Hj Hk E. unfold digit in E.
apply (f_equal nat_of_ascii) in E.
rewrite !nat_ascii_embedding in E by lia. lia.
Qed.

Lemma fmt_02d_inj m n r s :
0 <= m < 100 -> 0 <= n < 100 ->
fmt_02d m r = fmt_02d n s -> m = n /\ r = s.
Proof.
intros Hm Hn E. unfold fmt_02d in E.
injection E as E1 E2 E3.
apply digit_inj in E1; [| Z.div_mod_to_equations; lia ..].
apply digit_inj in E2; [| Z.div_mod_to_equations; lia ..].
split; [Z.div_mod_to_equations; lia | assumption].
Qed.

Lemma fmt_04d_inj m n r s :
0 <= m < 10000 -> 0 <= n < 10000 ->
fmt_04d m r = fmt_04d n s -> m = n /\ r = s.
Proof.
intros Hm Hn E. unfold fmt_04d in E.
injection E as E1 E2 E3 E4 E5.
apply digit_inj in E1; [| Z.div_mod_to_equations; lia ..].
apply digit_inj in E2; [| Z.div_mod_to_equations; lia ..].
apply digit_inj in E3; [| Z.div_mod_to_equations; lia ..].
apply digit_inj in E4; [| Z.div_mod_to_equations; lia ..].
split; [Z.div_mod_to_equations; lia | assumption].
Qed.

Lemma String_tail_inj c s t : String c s = String c t -> s = t.
Proof. intros E. injection E as E. exact E. Qed.

Example isoformat_min : isoformat 1 = "0001-01-01".
Proof. reflexivity. Qed.

Example isoformat_max : isoformat _MAXORDINAL = "9999-12-31".
Proof. reflexivity. Qed.

Example isoformat_leap_day : isoformat (of_ymd 2024 2 29) = "2024-02-29".
Proof. reflexivity. Qed.

Example ord2ymd_new_year : _ord2ymd (of_ymd 2000 12 31 + 1) = (2001, 1, 1).
Proof. reflexivity. Qed.

(** [isoformat] tells valid dates apart. *)
Lemma isoformat_inj a b :
valid a -> valid b -> isoformat a = isoformat b -> a = b.
Proof.
intros Ha Hb E.
pose proof (_ord2ymd_spec a Ha) as Sa.
pose proof (_ord2ymd_spec b Hb) as Sb.
unfold isoformat in E.
destruct (_ord2ymd a) as [[ya ma] da].
destruct (_ord2ymd b) as [[yb mb] db].
destruct Sa as (Hya & Hma & Hda & Ea).
destruct Sb as (Hyb & Hmb & Hdb & Eb).
apply fmt_04d_inj in E; [| lia ..]. destruct E as [Ey E].
apply String_tail_inj in E.
apply fmt_02d_inj in E; [| lia ..]. destruct E as [Em E].
apply String_tail_inj in E.
apply fmt_02d_inj in E; [| lia ..]. destruct E as [Ed _].
congruence.
Qed.

End DateFacts.

(* ================================================================= *)
(** * Dictionaries *)

Section DictFacts.
Context {V : Type}.
Implicit Types (d : Dict.t V) (k : string) (v : V).

Lemma get_set_same k v d : Dict.get k (Dict.set k v d) = Some v.
Proof.
  induction d as [| [k' v'] rest IH]; simpl.
  - now rewrite String.eqb_refl.
  - destruct (String.eqb k' k) eqn:E; simpl; rewrite E; auto.
Qed.

Lemma get_set_other k k' v d :
  k <> k' -> Dict.get k' (Dict.set k v d) = Dict.get k' d.
Proof.
  intros Hne. induction d as [| [k0 v0] rest IH]; simpl.
  - apply String.eqb_neq in Hne. now rewrite Hne.
  - destruct (String.eqb_spec k0 k) as [-> | E]; simpl.
    + apply String.eqb_neq in Hne. now rewrite Hne.
    + now rewrite IH.
Qed.

Lemma keys_set_present k v d :
  Dict.mem k d = true -> Dict.keys (Dict.set k v d) = Dict.keys d.
Proof.
  unfold Dict.mem, Dict.keys.
  induction d as [| [k' v'] rest IH]; simpl; [discriminate |].
  destruct (String.eqb k' k) eqn:E; simpl; intros H.
  - reflexivity.
  - now rewrite IH.
Qed.

Lemma keys_set_absent k v d :
  Dict.mem k d = false -> Dict.keys (Dict.set k v d) = Dict.keys d ++ [k].
Proof.
  unfold Dict.mem, Dict.keys.
  induction d as [| [k' v'] rest IH]; simpl; [reflexivity |].
  destruct (String.eqb k' k) eqn:E; simpl; intros H.
  - discriminate.
  - now rewrite IH.
Qed.

Lemma mem_keys k d : Dict.mem k d = true <-> In k (Dict.keys d).
Proof.
  unfold Dict.mem, Dict.keys.
  induction d as [| [k' v'] rest IH]; simpl.
  - split; [discriminate | tauto].
  - destruct (String.eqb_spec k' k) as [-> | Hne].
    + split; auto.
    + rewrite IH. split; [auto | intros [E | H]; [contradiction | exact H]].
Qed.

Lemma mem_set k k' v d :
  Dict.mem k' (Dict.set k v d) = Dict.mem k' d || String.eqb k k'.
Proof.
  unfold Dict.mem.
  destruct (String.eqb_spec k k') as [<- | Hne].
  - rewrite get_set_same. now rewrite orb_true_r.
  - rewrite get_set_other by assumption. now rewrite orb_false_r.
Qed.

End DictFacts.

(* ================================================================= *)
(** * Daily aggregation *)

Section Daily.
Import Routes.

Lemma totals_fold (es : list FoodEntry.t) (t : Totals.t) :
  let t' := fold_left Totals.add_entry es t in
  Totals.calories t'
  = fold_left PrimFloat.add (map (effective FoodEntry.calories) es)
      (Totals.calories t)
  /\ Totals.protein t'
     = fold_left PrimFloat.add (map (effective FoodEntry.protein) es)
         (Totals.protein t)
  /\ Totals.carbs t'
     = fold_left PrimFloat.add (map (effective FoodEntry.carbs) es)
         (Totals.carbs t)
  /\ Totals.fat t'
     = fold_left PrimFloat.add (map (effective FoodEntry.fat) es)
         (Totals.fat t).
Proof.
  revert t. induction es as [| e es IH]; intros t; simpl.
  - repeat split.
  - apply (IH (Totals.add_entry t e)).
Qed.

Lemma totals_fiber_sugar fiber sugar (es : list FoodEntry.t) (t : Totals.t) :
  fold_left Totals.add_entry (map (with_fiber_sugar fiber sugar) es) t
  = fold_left Totals.add_entry es t.
Proof.
  revert t. induction es as [| e es IH]; intros t; simpl; [reflexivity |].
  rewrite <- IH. reflexivity.
Qed.

(** The loop of [get_daily_entries], from any accumulator whose
    buckets cover the meal types of the rows. *)
Lemma daily_loop (es : list FoodEntry.t) :
  forall (grouped : Dict.t (list entry_view)) (totals : Totals.t),
    Forall (fun e => Dict.mem (FoodEntry.meal_type e) grouped = true) es ->
    exists grouped',
      Py.for_each daily_step es (grouped, totals)
      = Py.Return (grouped', fold_left Totals.add_entry es totals)
      /\ Dict.keys grouped' = Dict.keys grouped
      /\ forall m,
           Dict.get m grouped'
           = option_map
               (fun bucket => bucket ++ map view_of (filter (in_meal m) es))
               (Dict.get m grouped).
Proof.
  induction es as [| e es IH]; intros grouped totals Hall.
  - exists grouped. simpl. repeat split.
    intros m. destruct (Dict.get m grouped); simpl; [| reflexivity].
    now rewrite app_nil_r.
  - inversion Hall as [| ? ? He Hes]; subst.
    simpl. unfold Dict.getitem.
    pose proof He as He'. unfold Dict.mem in He'.
    destruct (Dict.get (FoodEntry.meal_type e) grouped) as [bucket |] eqn:Eb;
      [| discriminate].
    simpl.
    set (g1 := Dict.set (FoodEntry.meal_type e) (bucket ++ [view_of e]) grouped).
    destruct (IH g1 (Totals.add_entry totals e)) as (g' & Hrun & Hkeys & Hget).
    { eapply Forall_impl; [| exact Hes]. intros a Ha. unfold g1.
      rewrite mem_set, Ha. reflexivity. }
    exists g'. split; [exact Hrun |]. split.
    { rewrite Hkeys. unfold g1. now apply keys_set_present. }
    intros m. rewrite Hget. unfold g1, in_meal at 2.
    destruct (String.eqb_spec (FoodEntry.meal_type e) m) as [<- | Hne].
    + rewrite get_set_same, Eb. simpl. now rewrite <- app_assoc.
    + now rewrite get_set_other.
Qed.

Lemma mem_empty_meals (m : string) :
  meal_slot m -> Dict.mem m empty_meals = true.
Proof.
  unfold meal_slot, meal_slots. simpl.
  intros [<- | [<- | [<- | [<- | []]]]]; reflexivity.
Qed.

(** Rows with an enumerated meal type split among the four slots. *)
Lemma slots_partition (es : list FoodEntry.t) :
  Forall (fun e => meal_slot (FoodEntry.meal_type e)) es ->
  Permutation
    (filter (in_meal "breakfast") es ++ filter (in_meal "lunch") es
     ++ filter (in_meal "dinner") es ++ filter (in_meal "snack") es)
    es.
Proof.
  unfold in_meal.
  induction 1 as [| e es He Hes IH]; simpl; [constructor |].
  unfold meal_slot, meal_slots in He. simpl in He.
  destruct He as [<- | [<- | [<- | [<- | []]]]]; simpl.
  - now apply perm_skip.
  - apply Permutation_sym, Permutation_cons_app, Permutation_sym, IH.
  - rewrite app_assoc.
    apply Permutation_sym, Permutation_cons_app, Permutation_sym.
    now rewrite <- app_assoc.
  - rewrite 2 app_assoc.
    apply Permutation_sym, Permutation_cons_app, Permutation_sym.
    now rewrite <- 2 app_assoc.
Qed.

End Daily.

Section DailyClaims.
Import Routes.

Lemma slots_covered (es : list FoodEntry.t) :
  Forall (fun e => meal_slot (FoodEntry.meal_type e)) es ->
  Forall (fun e => Dict.mem (FoodEntry.meal_type e) empty_meals = true) es.
Proof.
  intros H. eapply Forall_impl; [| exact H].
  intros e. apply mem_empty_meals.
Qed.

(** C1 (amended): for rows whose meal types are all among the four
    slots, daily aggregation returns the four buckets in their fixed
    order, bucket [m] holding exactly the rows of meal type [m] in
    fetch order, so that the buckets partition the rows; each of the
    four totals is the running sum of per-serving value times
    servings over all rows; fiber and sugar do not enter the
    totals. *)
Theorem daily_partition_and_totals
    (entry_date : Date.date) (entries : list FoodEntry.t) :
  Forall (fun e => meal_slot (FoodEntry.meal_type e)) entries ->
  exists r,
    daily_of entry_date entries = Py.Return r
    /\ date r = entry_date
    /\ Dict.keys (meals r) = meal_slots
    /\ (forall m, meal_slot m ->
          Dict.get m (meals r)
          = Some (map view_of (filter (in_meal m) entries)))
    /\ Permutation (List.concat (map snd (meals r))) (map view_of entries)
    /\ Totals.calories (totals r)
       = sum (map (effective FoodEntry.calories) entries)
    /\ Totals.protein (totals r)
       = sum (map (effective FoodEntry.protein) entries)
    /\ Totals.carbs (totals r)
       = sum (map (effective FoodEntry.carbs) entries)
    /\ Totals.fat (totals r)
       = sum (map (effective FoodEntry.fat) entries)
    /\ (forall fiber sugar,
          exists r',
            daily_of entry_date (map (with_fiber_sugar fiber sugar) entries)
            = Py.Return r'
            /\ totals r' = totals r).
Proof.
  intros Hslots.
  destruct (daily_loop entries empty_meals Totals.zero (slots_covered _ Hslots))
    as (g & Hrun & Hkeys & Hget).
  unfold daily_of. rewrite Hrun. simpl.
  eexists; split; [reflexivity |]. simpl.
  assert (Hbuckets : forall m, meal_slot m ->
            Dict.get m g = Some (map view_of (filter (in_meal m) entries))).
  { intros m Hm. rewrite Hget.
    unfold meal_slot, meal_slots in Hm. simpl in Hm.
    destruct Hm as [<- | [<- | [<- | [<- | []]]]]; reflexivity. }
  split; [reflexivity |]. split; [exact Hkeys |]. split; [exact Hbuckets |].
  split.
  { pose proof (Hbuckets "breakfast" ltac:(unfold meal_slot; simpl; auto)) as B1.
    pose proof (Hbuckets "lunch" ltac:(unfold meal_slot; simpl; auto)) as B2.
    pose proof (Hbuckets "dinner" ltac:(unfold meal_slot; simpl; auto)) as B3.
    pose proof (Hbuckets "snack" ltac:(unfold meal_slot; simpl; auto)) as B4.
    destruct g as [| [k1 v1] [| [k2 v2] [| [k3 v3] [| [k4 v4] [| ? ?]]]]];
      try discriminate Hkeys.
    injection Hkeys as -> -> -> ->.
    simpl in B1, B2, B3, B4.
    injection B1 as ->. injection B2 as ->.
    injection B3 as ->. injection B4 as ->.
    simpl. rewrite app_nil_r, <- !map_app.
    apply Permutation_map, slots_partition, Hslots. }
  destruct (totals_fold entries Totals.zero) as (Hc & Hp & Hb & Hf).
  repeat (split; [assumption |]).
  intros fiber sugar.
  destruct (daily_loop (map (with_fiber_sugar fiber sugar) entries)
              empty_meals Totals.zero) as (g' & Hrun' & _ & _).
  { apply slots_covered. rewrite Forall_map.
    eapply Forall_impl; [| exact Hslots]. intros e He. exact He. }
  rewrite Hrun'. simpl. eexists; split; [reflexivity |]. simpl.
  apply totals_fiber_sugar.
Qed.

Lemma daily_partition_and_totals_witness :
  exists r,
    daily_of (FoodEntry.date banana) [banana] = Py.Return r
    /\ date r = FoodEntry.date banana
    /\ Dict.keys (meals r) = meal_slots
    /\ (forall m, meal_slot m ->
          Dict.get m (meals r)
          = Some (map view_of (filter (in_meal m) [banana])))
    /\ Permutation (List.concat (map snd (meals r))) (map view_of [banana])
    /\ Totals.calories (totals r)
       = sum (map (effective FoodEntry.calories) [banana])
    /\ Totals.protein (totals r)
       = sum (map (effective FoodEntry.protein) [banana])
    /\ Totals.carbs (totals r)
       = sum (map (effective FoodEntry.carbs) [banana])
    /\ Totals.fat (totals r)
       = sum (map (effective FoodEntry.fat) [banana])
    /\ (forall fiber sugar,
          exists r',
            daily_of (FoodEntry.date banana)
              (map (with_fiber_sugar fiber sugar) [banana])
            = Py.Return r'
            /\ totals r' = totals r).
Proof.
  apply (daily_partition_and_totals (FoodEntry.date banana) [banana]).
  repeat constructor.
Defined.

(** C1 as stated fails: a fetched row whose meal type is not one of
    the four slots makes the aggregation raise instead of return. *)
Lemma daily_unknown_meal_raises :
  daily_of (FoodEntry.date brunch) [banana; brunch]
  = Py.Raise (Py.KeyError "brunch").
Proof. reflexivity. Qed.

(** The scenario of the specification. *)
Example daily_scenario :
  exists r,
    daily_of (FoodEntry.date banana) [banana] = Py.Return r
    /\ Totals.calories (totals r) = 180%float
    /\ Dict.get "breakfast" (meals r) = Some [view_of banana]
    /\ total_calories (view_of banana) = 180%float
    /\ Dict.get "lunch" (meals r) = Some []
    /\ Dict.get "dinner" (meals r) = Some []
    /\ Dict.get "snack" (meals r) = Some [].
Proof. eexists; repeat split. Qed.

(** C9: when every fetched row has one of the four meal types, no
    bucket lookup of the daily aggregation fails, at any turn of the
    loop, and the operation returns. *)
Theorem daily_bucket_lookup_total
    (user_id : Z) (entry_date : Date.date) (db : DB.t) :
  Forall (fun e => meal_slot (FoodEntry.meal_type e))
    (daily_query user_id entry_date db) ->
  Py.raises (get_daily_entries user_id entry_date db) = false
  /\ forall before entry after,
       daily_query user_id entry_date db = before ++ entry :: after ->
       exists grouped totals bucket,
         Py.for_each daily_step before (empty_meals, Totals.zero)
         = Py.Return (grouped, totals)
         /\ Dict.getitem (FoodEntry.meal_type entry) grouped
            = Py.Return bucket.
Proof.
  intros Hslots. split.
  - unfold get_daily_entries, daily_of.
    destruct (daily_loop _ empty_meals Totals.zero (slots_covered _ Hslots))
      as (g & Hrun & _). now rewrite Hrun.
  - intros before entry after Hsplit. rewrite Hsplit in Hslots.
    apply Forall_app in Hslots. destruct Hslots as [Hbefore Hrest].
    inversion Hrest as [| ? ? Hentry _]; subst.
    destruct (daily_loop before empty_meals Totals.zero
                (slots_covered _ Hbefore)) as (g & Hrun & Hkeys & _).
    assert (Hmem : Dict.mem (FoodEntry.meal_type entry) g = true).
    { apply mem_keys. rewrite Hkeys. exact Hentry. }
    unfold Dict.mem in Hmem.
    destruct (Dict.get (FoodEntry.meal_type entry) g) as [bucket |] eqn:Eb;
      [| discriminate].
    exists g, (fold_left Totals.add_entry before Totals.zero), bucket.
    split; [exact Hrun |]. unfold Dict.getitem. now rewrite Eb.
Qed.

Lemma daily_bucket_lookup_total_witness :
  Py.raises (get_daily_entries 1 (FoodEntry.date banana) sample_db) = false.
Proof.
  apply (daily_bucket_lookup_total 1 (FoodEntry.date banana) sample_db).
  repeat constructor.
Defined.

End DailyClaims.

(* ================================================================= *)
(** * Weekly aggregation *)

Section DictAppend.
Context {V : Type}.

Lemma get_app (k : string) (d1 d2 : Dict.t V) :
  Dict.get k (d1 ++ d2)
  = match Dict.get k d1 with
    | Some v => Some v
    | None => Dict.get k d2
    end.
Proof.
  induction d1 as [| [k' v'] rest IH]; simpl; [reflexivity |].
  destruct (String.eqb k' k); [reflexivity | exact IH].
Qed.

Lemma set_absent (k : string) (v : V) (d : Dict.t V) :
  Dict.mem k d = false -> Dict.set k v d = d ++ [(k, v)].
Proof.
  unfold Dict.mem.
  induction d as [| [k' v'] rest IH]; simpl; [reflexivity |].
  destruct (String.eqb k' k); [discriminate |].
  intros H. now rewrite IH.
Qed.

Lemma mem_absent_keys (k : string) (d : Dict.t V) :
  ~ In k (Dict.keys d) -> Dict.get k d = None.
Proof.
  intros Hnot. destruct (Dict.get k d) eqn:E; [| reflexivity].
  exfalso. apply Hnot, mem_keys. unfold Dict.mem. now rewrite E.
Qed.

End DictAppend.

Section Weekly.
Import Routes.

Lemma add_days_valid (d k : Z) :
  Date.valid (d + k) -> Date.add_days d k = Py.Return (d + k).
Proof.
  unfold Date.valid, Date.add_days. intros [H1 H2]. cbv zeta.
  destruct (Z.ltb_spec 0 (d + k)); [| lia].
  destruct (Z.leb_spec (d + k) Date._MAXORDINAL); [reflexivity | lia].
Qed.

Lemma add_days_overflow (d k : Z) :
  Date._MAXORDINAL < d + k -> Date.add_days d k = Py.Raise Py.OverflowError.
Proof.
  unfold Date.add_days. intros H. cbv zeta.
  destruct (Z.leb_spec (d + k) Date._MAXORDINAL); [lia |].
  now rewrite andb_false_r.
Qed.

Lemma isoformat_eqb (a b : Date.date) :
  Date.valid a -> Date.valid b ->
  String.eqb (Date.isoformat a) (Date.isoformat b) = (a =? b).
Proof.
  intros Ha Hb.
  destruct (Z.eqb_spec a b) as [-> | Hne].
  - apply String.eqb_refl.
  - apply String.eqb_neq. intros E. apply Hne. now apply isoformat_inj.
Qed.

(** [for i in range(7)] seeds one fresh key per day. *)
Lemma seed_loop (start : Date.date) (offsets : list Z) :
  forall daily_stats : Dict.t Totals.t,
    NoDup offsets ->
    Forall (fun i => Date.valid (start + i)) offsets ->
    Forall (fun i => ~ In (Date.isoformat (start + i)) (Dict.keys daily_stats))
      offsets ->
    Py.for_each (seed_step start) offsets daily_stats
    = Py.Return
        (daily_stats
         ++ map (fun i => (Date.isoformat (start + i), Totals.zero)) offsets).
Proof.
  induction offsets as [| i rest IH]; intros d Hnd Hvalid Hfresh; simpl.
  - now rewrite app_nil_r.
  - inversion Hnd as [| ? ? Hi Hrest]; subst.
    inversion Hvalid as [| ? ? Vi Vrest]; subst.
    inversion Hfresh as [| ? ? Fi Frest]; subst.
    unfold seed_step at 1. rewrite add_days_valid by assumption. simpl.
    rewrite set_absent.
    2:{ unfold Dict.mem. now rewrite mem_absent_keys. }
    rewrite IH; try assumption.
    + now rewrite <- app_assoc.
    + rewrite Forall_forall in *. intros j Hj Hin.
      unfold Dict.keys in Hin. rewrite map_app in Hin.
      apply in_app_or in Hin. destruct Hin as [Hin | Hin].
      * exact (Frest j Hj Hin).
      * simpl in Hin. destruct Hin as [E | []].
        apply isoformat_inj in E; auto.
        assert (i = j) by lia. subst. contradiction.
Qed.

Lemma weekly_step_keys (d : Dict.t Totals.t) (e : FoodEntry.t) :
  Dict.keys (weekly_step d e) = Dict.keys d.
Proof.
  unfold weekly_step.
  destruct (Dict.get _ d) eqn:E; [| reflexivity].
  apply keys_set_present. unfold Dict.mem. now rewrite E.
Qed.

Lemma weekly_loop_keys (es : list FoodEntry.t) :
  forall d, Dict.keys (fold_left weekly_step es d) = Dict.keys d.
Proof.
  induction es as [| e es IH]; intros d; simpl; [reflexivity |].
  now rewrite IH, weekly_step_keys.
Qed.

(** The loop of [get_weekly_stats] adds to the day of each key the
    rows whose date prints as that key, in fetch order. *)
Lemma weekly_loop_get (es : list FoodEntry.t) (k : string) :
  forall d,
    Dict.get k (fold_left weekly_step es d)
    = option_map
        (fold_left Totals.add_entry
           (filter (fun e => String.eqb (Date.isoformat (FoodEntry.date e)) k)
              es))
        (Dict.get k d).
Proof.
  induction es as [| e es IH]; intros d; simpl.
  - now destruct (Dict.get k d).
  - rewrite IH. unfold weekly_step.
    destruct (String.eqb_spec (Date.isoformat (FoodEntry.date e)) k)
      as [<- | Hne].
    + destruct (Dict.get _ d) as [t |] eqn:E; simpl.
      * now rewrite get_set_same.
      * now rewrite E.
    + destruct (Dict.get (Date.isoformat (FoodEntry.date e)) d) as [t |] eqn:E.
      * now rewrite get_set_other.
      * reflexivity.
Qed.

(** Rows dated outside the seeded keys leave the mapping as it is. *)
Lemma weekly_loop_ignores (start : Date.date) (es : list FoodEntry.t) :
  Forall Date.valid (week start) ->
  Forall dated es ->
  forall d,
    Dict.keys d = map Date.isoformat (week start) ->
    fold_left weekly_step es d
    = fold_left weekly_step (filter (in_week start) es) d.
Proof.
  intros Hweek. induction 1 as [| e es He Hes IH]; intros d Hkeys; simpl.
  - reflexivity.
  - destruct (in_week start e) eqn:Ein; simpl.
    + apply IH. now rewrite weekly_step_keys.
    + replace (weekly_step d e) with d; [now apply IH |].
      unfold weekly_step. rewrite mem_absent_keys; [reflexivity |].
      rewrite Hkeys. intros Hin. apply in_map_iff in Hin.
      destruct Hin as (day & E & Hday).
      rewrite Forall_forall in Hweek.
      apply isoformat_inj in E; [| now apply Hweek | exact He].
      unfold week in Hday. apply in_map_iff in Hday.
      destruct Hday as (i & Hi & Hin). simpl in Hin.
      unfold in_week in Ein.
      apply andb_false_iff in Ein.
      rewrite Z.leb_gt, Z.leb_gt in Ein. lia.
Qed.

End Weekly.

Section WeeklyClaims.
Import Routes.

Lemma week_valid (start : Date.date) :
  Date.valid start -> Date.valid (start + 6) -> Forall Date.valid (week start).
Proof.
  unfold Date.valid, week. intros H0 H6. simpl.
  repeat (constructor; [lia |]). constructor.
Qed.

Lemma get_seeded (start : Date.date) (offsets : list Z) (i : Z) :
  In i offsets ->
  Dict.get (Date.isoformat (start + i))
    (map (fun i => (Date.isoformat (start + i), Totals.zero)) offsets)
  = Some Totals.zero.
Proof.
  induction offsets as [| j rest IH]; simpl; [tauto |].
  intros [-> | Hin].
  - now rewrite String.eqb_refl.
  - destruct (String.eqb _ _); [reflexivity | now apply IH].
Qed.

(** C2 (amended): for a start date whose sixth following day is
    still a date, weekly aggregation returns that day as the end
    date, and a mapping whose keys are the ISO strings of the seven
    days in order; each day maps to the running sums of per-serving
    value times servings over the fetched rows bearing that date
    (all zero when there are none), and fetched rows dated outside
    the seven days change nothing. *)
Theorem weekly_window (start : Date.date) (entries : list FoodEntry.t) :
  Date.valid start ->
  Date.valid (start + 6) ->
  Forall dated entries ->
  Date.add_days start 6 = Py.Return (start + 6)
  /\ (forall today user_id db,
        get_weekly_stats today user_id (Some start) db
        = weekly_of start (start + 6)
            (weekly_query user_id start (start + 6) db))
  /\ exists r,
       weekly_of start (start + 6) entries = Py.Return r
       /\ start_date r = start
       /\ end_date r = start + 6
       /\ Dict.keys (daily_stats r) = map Date.isoformat (week start)
       /\ (forall day, In day (week start) ->
             exists t,
               Dict.get (Date.isoformat day) (daily_stats r) = Some t
               /\ Totals.calories t
                  = sum (map (effective FoodEntry.calories)
                           (filter (on_day day) entries))
               /\ Totals.protein t
                  = sum (map (effective FoodEntry.protein)
                           (filter (on_day day) entries))
               /\ Totals.carbs t
                  = sum (map (effective FoodEntry.carbs)
                           (filter (on_day day) entries))
               /\ Totals.fat t
                  = sum (map (effective FoodEntry.fat)
                           (filter (on_day day) entries))
               /\ (filter (on_day day) entries = [] -> t = Totals.zero))
       /\ weekly_of start (start + 6) (filter (in_week start) entries)
          = Py.Return r.
Proof.
  intros Hstart Hend Hdated.
  pose proof (week_valid start Hstart Hend) as Hweek.
  pose proof (add_days_valid start 6 Hend) as Hadd.
  split; [exact Hadd |]. split.
  { intros today user_id db. unfold get_weekly_stats. simpl.
    now rewrite Hadd. }
  assert (Hseed :
    Py.for_each (seed_step start) [0; 1; 2; 3; 4; 5; 6] []
    = Py.Return
        (map (fun i => (Date.isoformat (start + i), Totals.zero))
           [0; 1; 2; 3; 4; 5; 6])).
  { rewrite seed_loop; [reflexivity | | apply Forall_map; exact Hweek | ].
    - repeat (constructor; [simpl; intuition lia |]). constructor.
    - apply Forall_forall. intros i _ []. }
  set (seeded := map (fun i => (Date.isoformat (start + i), Totals.zero))
                   [0; 1; 2; 3; 4; 5; 6]) in *.
  assert (Hkeys : Dict.keys seeded = map Date.isoformat (week start))
    by reflexivity.
  unfold weekly_of. rewrite Hseed. cbn [Py.bind].
  eexists; split; [reflexivity |]. cbn [start_date end_date daily_stats].
  split; [reflexivity |]. split; [reflexivity |].
  split; [now rewrite weekly_loop_keys |]. split.
  - intros day Hday. rewrite weekly_loop_get.
    assert (Hget : Dict.get (Date.isoformat day) seeded = Some Totals.zero).
    { unfold week in Hday. apply in_map_iff in Hday.
      destruct Hday as (i & <- & Hi). now apply get_seeded. }
    rewrite Hget. simpl.
    assert (Hfilter :
      filter (fun e => String.eqb (Date.isoformat (FoodEntry.date e))
                         (Date.isoformat day)) entries
      = filter (on_day day) entries).
    { apply filter_ext_in. intros e He. unfold on_day.
      rewrite Forall_forall in Hdated, Hweek.
      apply isoformat_eqb; [now apply Hdated | now apply Hweek]. }
    rewrite Hfilter.
    eexists; split; [reflexivity |].
    destruct (totals_fold (filter (on_day day) entries) Totals.zero)
      as (Hc & Hp & Hb & Hf).
    repeat (split; [assumption |]).
    intros ->. reflexivity.
  - now rewrite <- (weekly_loop_ignores start entries Hweek Hdated seeded Hkeys).
Qed.

Lemma monday_valid : Date.valid monday /\ Date.valid (monday + 6).
Proof. unfold Date.valid. cbv. repeat split; discriminate. Qed.

Lemma weekly_window_witness :
  exists r,
    weekly_of monday (monday + 6) [banana] = Py.Return r
    /\ Dict.keys (daily_stats r) = map Date.isoformat (week monday).
Proof.
  destruct (weekly_window monday [banana]) as (_ & _ & r & Hr & _ & _ & Hk & _).
  - exact (proj1 monday_valid).
  - exact (proj2 monday_valid).
  - repeat constructor; cbv; discriminate.
  - exists r. split; [exact Hr | exact Hk].
Defined.

(** C2 as stated fails: from 9999-12-28 the end date is past the
    last date there is, and the request raises. *)
Lemma weekly_late_start_raises :
  get_weekly_stats monday 1 (Some late_start) empty_db
  = Py.Raise Py.OverflowError.
Proof. reflexivity. Qed.

(** Week-start policy: without a start date the week is the one of
    [today], from its Monday; 2024-03-06 is a Wednesday. *)
Example weekly_default_start :
  option_map start_date
    match get_weekly_stats (Date.of_ymd 2024 3 6) 1 None sample_db with
    | Py.Return r => Some r
    | Py.Raise _ => None
    end
  = Some monday.
Proof. reflexivity. Qed.

Example weekly_scenario :
  exists r,
    get_weekly_stats monday 1 (Some monday)
      {| DB.users := []; DB.food_entries := [banana];
         DB.weight_entries := [] |}
    = Py.Return r
    /\ end_date r = Date.of_ymd 2024 3 10
    /\ Dict.keys (daily_stats r)
       = ["2024-03-04"; "2024-03-05"; "2024-03-06"; "2024-03-07";
          "2024-03-08"; "2024-03-09"; "2024-03-10"]
    /\ option_map Totals.calories (Dict.get "2024-03-04" (daily_stats r))
       = Some 180%float
    /\ Dict.get "2024-03-05" (daily_stats r) = Some Totals.zero.
Proof. eexists; repeat split. Qed.

End WeeklyClaims.

(* ================================================================= *)
(** * Aggregation for a user id nobody has *)

Section UnknownUser.
Import Routes.

Lemma filter_none {A} (f : A -> bool) (l : list A) :
  Forall (fun a => f a = false) l -> filter f l = [].
Proof.
  induction 1 as [| a l Ha _ IH]; simpl; [reflexivity |].
  now rewrite Ha.
Qed.

Lemma unknown_no_entries (db : DB.t) (user_id : Z) :
  food_entries_fk db -> user_exists db user_id = false ->
  no_entries db user_id.
Proof.
  unfold food_entries_fk, no_entries. intros Hfk Hunknown.
  eapply Forall_impl; [| exact Hfk].
  intros e He <-. congruence.
Qed.

Lemma daily_query_none (db : DB.t) (user_id : Z) (d : Date.date) :
  no_entries db user_id -> daily_query user_id d db = [].
Proof.
  intros Hno. unfold daily_query. rewrite filter_none; [reflexivity |].
  eapply Forall_impl; [| exact Hno].
  intros e He. simpl in He. apply Z.eqb_neq in He. now rewrite He.
Qed.

Lemma weekly_query_none (db : DB.t) (user_id : Z) (s e : Date.date) :
  no_entries db user_id -> weekly_query user_id s e db = [].
Proof.
  intros Hno. unfold weekly_query. apply filter_none.
  eapply Forall_impl; [| exact Hno].
  intros a Ha. simpl in Ha. apply Z.eqb_neq in Ha. now rewrite Ha.
Qed.

Lemma add_days_only_overflow (d k : Z) : only_overflow (Date.add_days d k).
Proof.
  unfold Date.add_days. cbv zeta.
  destruct ((0 <? d + k) && (d + k <=? Date._MAXORDINAL)); simpl; auto.
Qed.

Lemma seed_only_overflow (start : Date.date) (offsets : list Z) :
  forall d, only_overflow (Py.for_each (seed_step start) offsets d).
Proof.
  induction offsets as [| i rest IH]; intros d; simpl; [exact I |].
  unfold seed_step at 1.
  pose proof (add_days_only_overflow start i) as H.
  destruct (Date.add_days start i); simpl; [apply IH | exact H].
Qed.

Lemma weekly_only_overflow today user_id start db :
  only_overflow (get_weekly_stats today user_id start db).
Proof.
  unfold get_weekly_stats.
  assert (H0 : only_overflow
                 match start with
                 | Some start_date => Py.Return start_date
                 | None => Date.sub_days today (Date.weekday today)
                 end).
  { destruct start; simpl; [exact I | apply add_days_only_overflow]. }
  destruct (match start with Some _ => _ | None => _ end) as [s | e];
    simpl; [| exact H0].
  pose proof (add_days_only_overflow s 6) as H6.
  destruct (Date.add_days s 6) as [e6 | e]; simpl; [| exact H6].
  unfold weekly_of.
  pose proof (seed_only_overflow s [0; 1; 2; 3; 4; 5; 6] []) as Hs.
  destruct (Py.for_each (seed_step s) [0; 1; 2; 3; 4; 5; 6] []);
    simpl; [exact I | exact Hs].
Qed.

Lemma daily_loop_no_http (entries : list FoodEntry.t) :
  forall acc status_code detail,
    Py.for_each daily_step entries acc
    <> Py.Raise (Py.HTTPException status_code detail).
Proof.
  induction entries as [| e entries IH]; intros [grouped totals] code detail;
    simpl; [discriminate |].
  unfold Dict.getitem.
  destruct (Dict.get (FoodEntry.meal_type e) grouped); simpl;
    [apply IH | discriminate].
Qed.

(** C7 (amended): for every user id, neither aggregation ever raises
    a 404 or any other HTTP error.  For a user id no user has, in a
    store whose food entries belong to users, daily aggregation
    returns the four buckets breakfast, lunch, dinner and snack, all
    empty, with zero totals; weekly aggregation returns the seven
    days of the week, zeroed, when the week lies within the calendar,
    and raises [OverflowError] when its last day lies beyond
    9999-12-31; both give what they give for a user who exists and
    has no entries. *)
Theorem aggregation_unknown_user (db : DB.t) (user_id : Z) :
  (forall today start d status_code detail,
     get_daily_entries user_id d db
     <> Py.Raise (Py.HTTPException status_code detail)
     /\ get_weekly_stats today user_id start db
        <> Py.Raise (Py.HTTPException status_code detail))
  /\ (food_entries_fk db ->
      user_exists db user_id = false ->
      (forall d,
         get_daily_entries user_id d db
         = Py.Return
             {| date := d;
                meals := [("breakfast", []); ("lunch", []);
                          ("dinner", []); ("snack", [])];
                totals := {| Totals.calories := 0; Totals.protein := 0;
                             Totals.carbs := 0; Totals.fat := 0 |} |})
      /\ (forall today start,
            Date.valid start -> Date.valid (start + 6) ->
            get_weekly_stats today user_id (Some start) db
            = Py.Return
                {| start_date := start;
                   end_date := start + 6;
                   daily_stats :=
                     map (fun day =>
                            (Date.isoformat day,
                             {| Totals.calories := 0; Totals.protein := 0;
                                Totals.carbs := 0; Totals.fat := 0 |}))
                       [start; start + 1; start + 2; start + 3;
                        start + 4; start + 5; start + 6] |})
      /\ (forall today start,
            3652059 < start + 6 ->
            get_weekly_stats today user_id (Some start) db
            = Py.Raise Py.OverflowError)
      /\ (forall db' user_id',
            user_exists db' user_id' = true -> no_entries db' user_id' ->
            forall today start d,
              get_daily_entries user_id d db
              = get_daily_entries user_id' d db'
              /\ get_weekly_stats today user_id start db
                 = get_weekly_stats today user_id' start db')).
Proof.
  split.
  { intros today start d status_code detail. split.
    - unfold get_daily_entries, daily_of.
      pose proof (daily_loop_no_http (daily_query user_id d db)
                    (empty_meals, Totals.zero) status_code detail) as H.
      revert H.
      destruct (Py.for_each daily_step _ _) as [acc | e]; simpl;
        intros H E; [discriminate E |].
      injection E as ->. now apply H.
    - pose proof (weekly_only_overflow today user_id start db) as H.
      intros E. rewrite E in H. discriminate H. }
  intros Hfk Hunknown.
  pose proof (unknown_no_entries db user_id Hfk Hunknown) as Hno.
  split; [| split; [| split]].
  - intros d. unfold get_daily_entries. now rewrite daily_query_none.
  - intros today start Hs He. unfold get_weekly_stats. simpl.
    rewrite (add_days_valid start 6 He). simpl.
    rewrite weekly_query_none by assumption.
    unfold weekly_of. rewrite seed_loop.
    + simpl. rewrite Z.add_0_r. reflexivity.
    + repeat (constructor; [simpl; intuition lia |]). constructor.
    + apply Forall_map. now apply week_valid.
    + apply Forall_forall. intros i _ [].
  - intros today start Hlate. unfold get_weekly_stats. simpl.
    now rewrite (add_days_overflow start 6 Hlate).
  - intros db' user_id' _ Hno' today start d. split.
    + unfold get_daily_entries. now rewrite !daily_query_none.
    + unfold get_weekly_stats.
      destruct (match start with Some _ => _ | None => _ end); simpl;
        [| reflexivity].
      destruct (Date.add_days a 6); simpl; [| reflexivity].
      now rewrite !weekly_query_none.
Qed.

Lemma aggregation_unknown_user_witness :
  get_daily_entries 42 monday sample_db
  = Py.Return
      {| date := monday;
         meals := [("breakfast", []); ("lunch", []);
                   ("dinner", []); ("snack", [])];
         totals := {| Totals.calories := 0; Totals.protein := 0;
                      Totals.carbs := 0; Totals.fat := 0 |} |}
  /\ (exists r,
        get_weekly_stats monday 42 (Some monday) sample_db = Py.Return r
        /\ Dict.keys (daily_stats r)
           = ["2024-03-04"; "2024-03-05"; "2024-03-06"; "2024-03-07";
              "2024-03-08"; "2024-03-09"; "2024-03-10"])
  /\ get_weekly_stats monday 1 (Some monday) sample_db
     <> Py.Raise (Py.HTTPException 404 "User not found").
Proof.
  destruct (aggregation_unknown_user sample_db 42) as (_ & Hunknown).
  destruct (aggregation_unknown_user sample_db 1) as (Hknown & _).
  destruct Hunknown as (Hd & Hw & _).
  - repeat constructor.
  - reflexivity.
  - split; [apply Hd |]. split.
    + eexists. split.
      * apply Hw; unfold Date.valid; vm_compute; split; discriminate.
      * reflexivity.
    + exact (proj2 (Hknown monday (Some monday) monday 404 _)).
Defined.

(** C7 as stated fails: for a week that starts on 9999-12-28 the
    weekly aggregation of a user id no user has does not yield seven
    zeroed days; it raises [OverflowError]. *)
Lemma aggregation_unknown_user_overflow :
  user_exists sample_db 42 = false
  /\ Date.valid late_start
  /\ get_weekly_stats monday 42 (Some late_start) sample_db
     = Py.Raise Py.OverflowError.
Proof.
  split; [reflexivity |]. split; [| reflexivity].
  unfold Date.valid. vm_compute. split; discriminate.
Qed.

End UnknownUser.

(* ================================================================= *)
(** * Rows rewritten by primary key *)

Section Rows.
Context {A : Type} (id : A -> Z).

Lemma rewrite_others (k : Z) (x' : A) (rows : list A) :
  ~ In k (map id rows) ->
  map (fun r => if id r =? k then x' else r) rows = rows.
Proof.
  induction rows as [| r rows IH]; simpl; [reflexivity |].
  intros Hnot. destruct (Z.eqb_spec (id r) k) as [E | _].
  - exfalso. apply Hnot. now left.
  - rewrite IH; [reflexivity |]. intros H. apply Hnot. now right.
Qed.

(** With unique keys, rewriting the row of [x] touches that row
    alone. *)
Lemma rewrite_row (rows : list A) (x x' : A) :
  NoDup (map id rows) -> In x rows -> id x' = id x ->
  exists before after,
    rows = before ++ x :: after
    /\ map (fun r => if id r =? id x' then x' else r) rows
       = before ++ x' :: after.
Proof.
  intros Hnd Hin Hid.
  destruct (in_split _ _ Hin) as (before & after & ->).
  exists before, after. split; [reflexivity |].
  rewrite map_app in Hnd. simpl in Hnd.
  apply NoDup_remove_2 in Hnd.
  rewrite map_app. simpl. rewrite Hid, Z.eqb_refl.
  rewrite !rewrite_others; [reflexivity | |];
    intros H; apply Hnd, in_or_app; auto.
Qed.

End Rows.

(* ================================================================= *)
(** * Weight upsert *)

Section Weight.
Import Routes.

Lemma first_is_head {A} (p : A -> bool) (rows : list A) :
  Query.first p rows = hd_error (filter p rows).
Proof.
  unfold Query.first.
  induction rows as [| r rows IH]; simpl; [reflexivity |].
  destruct (p r); [reflexivity | exact IH].
Qed.

Lemma same_day_key (user_id : Z) (d : Date.date) (w : WeightEntry.t) :
  (WeightEntry.user_id w =? user_id) && (WeightEntry.date w =? d) = true
  <-> weight_key w = (user_id, d).
Proof.
  unfold weight_key. rewrite andb_true_iff, !Z.eqb_eq.
  split; [intros [-> ->]; reflexivity | intros E; now inversion E].
Qed.

Lemma filter_key_none (k : Z * Z) (rows : list WeightEntry.t) :
  ~ In k (map weight_key rows) ->
  filter (fun w => (WeightEntry.user_id w =? fst k)
                   && (WeightEntry.date w =? snd k)) rows = [].
Proof.
  intros Hnot. apply filter_none, Forall_forall. intros w Hw.
  destruct (_ && _) eqn:E; [| reflexivity].
  exfalso. apply Hnot. apply same_day_key in E.
  rewrite <- surjective_pairing in E. rewrite <- E. now apply in_map.
Qed.

Lemma float8_spec (f : float) : stored_as f (Sql.float8 f).
Proof.
  unfold stored_as, negative_zero, Sql.float8.
  destruct (PrimFloat.classify f); split; intros H;
    try reflexivity; try discriminate; now contradiction H.
Qed.

Lemma float8_float8 (f : float) : Sql.float8 (Sql.float8 f) = Sql.float8 f.
Proof.
  unfold Sql.float8 at 2 3.
  destruct (PrimFloat.classify f) eqn:E; try reflexivity;
    unfold Sql.float8; now rewrite E.
Qed.

Lemma no_nul_text (s : string) : no_nul s = Sql.text s.
Proof.
  unfold no_nul. induction s as [| c s IH]; simpl; [reflexivity |].
  now rewrite IH.
Qed.

Lemma note_fits_spec (note : option string) :
  note_fits note = true ->
  Sql.nullable Sql.text note = true
  /\ Sql.nullable (Sql.varchar 500) note = true.
Proof.
  unfold note_fits, Sql.nullable, Sql.varchar.
  destruct note as [s |]; [| now split].
  now rewrite no_nul_text, andb_true_iff.
Qed.

Lemma weight_accepted_spec (entry : WeightEntryCreate.t) (db : DB.t) :
  weight_accepted entry db = true ->
  Sql.nullable Sql.text (WeightEntryCreate.note entry) = true
  /\ Sql.nullable (Sql.varchar 500) (WeightEntryCreate.note entry) = true
  /\ Sql.int4 (WeightEntryCreate.user_id entry) = true
  /\ Sql.has_user (WeightEntryCreate.user_id entry) db = true.
Proof.
  unfold weight_accepted, note_fits, Sql.int4, Sql.has_user, user_exists,
    Sql.nullable, Sql.varchar.
  rewrite !andb_true_iff. intros [[[Hu Hlo] Hhi] Hnote].
  rewrite Hu, Hlo, Hhi.
  destruct (WeightEntryCreate.note entry) as [s |]; [| repeat split].
  rewrite no_nul_text in Hnote.
  apply andb_true_iff in Hnote. destruct Hnote as [-> ->]. repeat split.
Qed.

(** A request the database takes is answered with a row. *)
Lemma upsert_accepted (db : DB.t) (new_id now : Z)
    (entry : WeightEntryCreate.t) :
  weight_accepted entry db = true ->
  exists row, fst (create_weight_entry new_id now entry db) = Py.Return row.
Proof.
  intros Hacc.
  destruct (weight_accepted_spec entry db Hacc) as (Ht & Hv & Hi & Hu).
  unfold create_weight_entry, Sql.refused.
  rewrite Ht, Hv, Hi, Hu. cbn [negb andb].
  destruct (Query.first _ _); eexists; reflexivity.
Qed.

(** A request that raises leaves the store as it was, whatever key
    and time the database had ready for the row. *)
Lemma upsert_raises (db : DB.t) (new_id now : Z)
    (entry : WeightEntryCreate.t) (e : Py.exn) :
  fst (create_weight_entry new_id now entry db) = Py.Raise e ->
  forall new_id' now',
    create_weight_entry new_id' now' entry db = (Py.Raise e, db).
Proof.
  unfold create_weight_entry.
  destruct (Query.first _ _);
    match goal with
    | |- context [Sql.refused ?a ?b ?c] => destruct (Sql.refused a b c)
    end; cbn [fst]; intros H new_id' now'; congruence.
Qed.

(** A request that returns has a note that can be stored. *)
Lemma upsert_returns_note (db : DB.t) (new_id now : Z)
    (entry : WeightEntryCreate.t) (row : WeightEntry.t) :
  fst (create_weight_entry new_id now entry db) = Py.Return row ->
  Sql.refused (Sql.nullable Sql.text (WeightEntryCreate.note entry))
    (Sql.nullable (Sql.varchar 500) (WeightEntryCreate.note entry)) true
  = None.
Proof.
  unfold create_weight_entry, Sql.refused.
  destruct (Query.first _ _);
    destruct (Sql.nullable Sql.text _), (Sql.nullable (Sql.varchar 500) _);
    try destruct (Sql.int4 _); try destruct (Sql.has_user _ _);
    cbn; intros H; try discriminate H; reflexivity.
Qed.

(** What one call of [create_weight_entry] that returns does to a
    store in which primary keys are unique and each (user, date) is
    logged at most once. *)
Lemma upsert_spec (db : DB.t) (new_id now : Z) (entry : WeightEntryCreate.t)
    (row : WeightEntry.t) :
  NoDup (weight_ids db) -> one_per_day db -> ~ In new_id (weight_ids db) ->
  fst (create_weight_entry new_id now entry db) = Py.Return row ->
  let user_id := WeightEntryCreate.user_id entry in
  let d := WeightEntryCreate.date entry in
  let db' := snd (create_weight_entry new_id now entry db) in
  NoDup (weight_ids db') /\ one_per_day db'
  /\ incl (weight_ids db') (new_id :: weight_ids db)
  /\ DB.users db' = DB.users db
  /\ DB.food_entries db' = DB.food_entries db
  /\ logged user_id d db' = [row]
  /\ weight_key row = (user_id, d)
  /\ WeightEntry.weight row = Sql.float8 (WeightEntryCreate.weight entry)
  /\ WeightEntry.note row = WeightEntryCreate.note entry
  /\ (forall user_id' d', (user_id', d') <> (user_id, d) ->
        logged user_id' d' db' = logged user_id' d' db)
  /\ match logged user_id d db with
     | [] =>
         DB.weight_entries db' = DB.weight_entries db ++ [row]
         /\ WeightEntry.id row = new_id
         /\ WeightEntry.created_at row = now
     | existing :: _ =>
         row = with_weight_note existing
                 (Sql.float8 (WeightEntryCreate.weight entry))
                 (WeightEntryCreate.note entry)
         /\ exists before after,
              DB.weight_entries db = before ++ existing :: after
              /\ DB.weight_entries db' = before ++ row :: after
     end.
Proof.
  intros Hids Hkeys Hfresh Hres user_id d db'.
  subst db'. revert Hres. unfold create_weight_entry, Query.first.
  fold user_id d.
  unfold logged, weight_ids, one_per_day in *.
  set (p := fun w => (WeightEntry.user_id w =? user_id)
                     && (WeightEntry.date w =? d)).
  destruct (find p (DB.weight_entries db)) as [existing |] eqn:Efind;
    match goal with
    | |- context [Sql.refused ?a ?b ?c] => destruct (Sql.refused a b c)
    end;
    unfold commit_weight_entry, add_weight_entry;
    cbn [fst snd DB.users DB.food_entries DB.weight_entries];
    intros Hres; try discriminate Hres;
    injection Hres as Hres.
  - apply find_some in Efind. destruct Efind as [Hin Hp].
    assert (Hkey : weight_key existing = (user_id, d))
      by now apply same_day_key.
    assert (Hid : WeightEntry.id row = WeightEntry.id existing)
      by (now rewrite <- Hres).
    rewrite Hres.
    destruct (rewrite_row WeightEntry.id (DB.weight_entries db) existing row
                Hids Hin Hid) as (before & after & Hrows & Hrows').
    fold p. rewrite Hrows'. rewrite Hrows in Hids, Hkeys |- *.
    assert (Hkrow : weight_key row = weight_key existing)
      by (now rewrite <- Hres).
    assert (Hk' : map weight_key (before ++ row :: after)
                  = map weight_key (before ++ existing :: after))
      by (rewrite !map_app; simpl; now rewrite Hkrow).
    assert (Hi' : map WeightEntry.id (before ++ row :: after)
                  = map WeightEntry.id (before ++ existing :: after))
      by (rewrite !map_app; simpl; now rewrite Hid).
    assert (Hnone : ~ In (user_id, d) (map weight_key (before ++ after))).
    { rewrite map_app in Hkeys. simpl in Hkeys.
      apply NoDup_remove_2 in Hkeys. rewrite Hkey in Hkeys.
      now rewrite map_app. }
    rewrite map_app in Hnone.
    assert (Hb : filter p before = []).
    { apply (filter_key_none (user_id, d)). intros H. apply Hnone.
      apply in_or_app. now left. }
    assert (Ha : filter p after = []).
    { apply (filter_key_none (user_id, d)). intros H. apply Hnone.
      apply in_or_app. now right. }
    assert (Hprow : p row = true).
    { apply same_day_key. now rewrite Hkrow. }
    split; [now rewrite Hi' |]. split; [now rewrite Hk' |].
    split; [rewrite Hi'; apply incl_tl, incl_refl |].
    split; [reflexivity |]. split; [reflexivity |].
    split; [rewrite filter_app; simpl; rewrite Hprow; now rewrite Hb, Ha |].
    split; [now rewrite Hkrow |].
    split; [now rewrite <- Hres |]. split; [now rewrite <- Hres |].
    split.
    + intros u' d' Hne. rewrite !filter_app. simpl.
      destruct ((WeightEntry.user_id existing =? u')
                && (WeightEntry.date existing =? d')) eqn:E.
      * apply same_day_key in E. exfalso. apply Hne. congruence.
      * replace ((WeightEntry.user_id row =? u')
                 && (WeightEntry.date row =? d')) with false; [reflexivity |].
        rewrite <- E, <- Hres. reflexivity.
    + rewrite filter_app. simpl. rewrite Hp, Hb. simpl.
      split; [now rewrite <- Hres |]. now exists before, after.
  - pose proof (find_none _ _ Efind) as Hnone.
    assert (Hp : p row = true).
    { rewrite <- Hres. unfold p. simpl. now rewrite !Z.eqb_refl. }
    assert (Hempty : filter p (DB.weight_entries db) = []).
    { apply filter_none, Forall_forall. exact Hnone. }
    assert (Hid : WeightEntry.id row = new_id) by (now rewrite <- Hres).
    assert (Hkey : weight_key row = (user_id, d)) by (now rewrite <- Hres).
    rewrite Hres.
    split.
    { rewrite map_app. apply NoDup_app; [exact Hids | repeat constructor; auto |].
      intros a Ha [<- | []]. rewrite Hid in Ha. contradiction. }
    split.
    { rewrite map_app. apply NoDup_app; [exact Hkeys | repeat constructor; auto |].
      intros a Ha [<- | []]. apply in_map_iff in Ha.
      destruct Ha as (w & Hw & Hin).
      assert (Hpw : p w = true) by (apply same_day_key; congruence).
      rewrite (Hnone w Hin) in Hpw. discriminate. }
    split.
    { rewrite map_app. simpl. rewrite Hid. intros a Ha. apply in_app_or in Ha.
      destruct Ha as [Ha | [<- | []]]; [now right | now left]. }
    split; [reflexivity |]. split; [reflexivity |].
    split; [rewrite filter_app, Hempty; simpl; now rewrite Hp |].
    split; [exact Hkey |].
    split; [now rewrite <- Hres |]. split; [now rewrite <- Hres |].
    split.
    + intros u' d' Hne. rewrite filter_app. simpl.
      unfold weight_key in Hkey. injection Hkey as Hu Hd. rewrite Hu, Hd.
      destruct (Z.eqb_spec user_id u'); destruct (Z.eqb_spec d d'); simpl;
        try (now rewrite app_nil_r).
      exfalso. apply Hne. congruence.
    + fold p. rewrite Hempty. repeat split; [exact Hid | now rewrite <- Hres].
Qed.

End Weight.

Section WeightClaims.
Import Routes.

(** C3 (amended): in a store where each (user, date) is logged at
    most once, a weight log that the database takes (the user exists,
    the note, if any, has at most 500 characters and no NUL) keeps it
    so: a record already stored for the pair has its weight and note
    overwritten and no record is added, otherwise one record with the
    supplied fields is added.  The weight stored is the weight
    supplied, zero for a negative zero.  Logging a second time for
    the same pair leaves one record for it, holding the second weight
    and note; logging for another date leaves one record for each
    date.  A weight log for a user id that no user has, with no
    record stored for the pair, raises [IntegrityError] and stores
    nothing. *)
Theorem weight_upsert (db : DB.t) (id1 id2 now1 now2 : Z)
    (first second : WeightEntryCreate.t) :
  NoDup (weight_ids db) ->
  one_per_day db ->
  ~ In id1 (weight_ids db) -> ~ In id2 (weight_ids db) -> id1 <> id2 ->
  let user_id := WeightEntryCreate.user_id first in
  let d := WeightEntryCreate.date first in
  let db1 := snd (create_weight_entry id1 now1 first db) in
  let db2 := snd (create_weight_entry id2 now2 second db1) in
  (user_exists db user_id = false ->
   -2147483648 <= user_id <= 2147483647 ->
   note_fits (WeightEntryCreate.note first) = true ->
   logged user_id d db = [] ->
   create_weight_entry id1 now1 first db = (Py.Raise Py.IntegrityError, db))
  /\
  (weight_accepted first db = true ->
   weight_accepted second db = true ->
   one_per_day db1
  /\ (exists row,
        fst (create_weight_entry id1 now1 first db) = Py.Return row
        /\ logged user_id d db1 = [row]
        /\ stored_as (WeightEntryCreate.weight first) (WeightEntry.weight row)
        /\ WeightEntry.note row = WeightEntryCreate.note first
        /\ match logged user_id d db with
           | [] =>
               Permutation (DB.weight_entries db1)
                 (row :: DB.weight_entries db)
               /\ WeightEntry.id row = id1
               /\ WeightEntry.user_id row = user_id
               /\ WeightEntry.date row = d
               /\ WeightEntry.created_at row = now1
           | existing :: _ =>
               WeightEntry.id row = WeightEntry.id existing
               /\ WeightEntry.user_id row = WeightEntry.user_id existing
               /\ WeightEntry.date row = WeightEntry.date existing
               /\ WeightEntry.created_at row = WeightEntry.created_at existing
               /\ exists before after,
                    DB.weight_entries db = before ++ existing :: after
                    /\ Permutation (DB.weight_entries db1)
                         (row :: before ++ after)
           end)
  /\ (WeightEntryCreate.user_id second = user_id ->
      WeightEntryCreate.date second = d ->
      one_per_day db2
      /\ List.length (DB.weight_entries db2)
         = List.length (DB.weight_entries db1)
      /\ exists row,
           fst (create_weight_entry id2 now2 second db1) = Py.Return row
           /\ logged user_id d db2 = [row]
           /\ stored_as (WeightEntryCreate.weight second)
                (WeightEntry.weight row)
           /\ WeightEntry.note row = WeightEntryCreate.note second)
  /\ (WeightEntryCreate.user_id second = user_id ->
      WeightEntryCreate.date second <> d ->
      one_per_day db2
      /\ exists row1 row2,
           logged user_id d db2 = [row1]
           /\ logged user_id (WeightEntryCreate.date second) db2 = [row2]
           /\ stored_as (WeightEntryCreate.weight first)
                (WeightEntry.weight row1)
           /\ stored_as (WeightEntryCreate.weight second)
                (WeightEntry.weight row2))).
Proof.
  intros Hids Hkeys Hf1 Hf2 Hne user_id d db1 db2.
  split.
  { intros Hunknown Hrange Hnote Hnone.
    destruct (note_fits_spec _ Hnote) as [Ht Hv].
    unfold create_weight_entry, Sql.refused. rewrite first_is_head.
    unfold logged in Hnone. fold user_id d. rewrite Hnone. cbn [hd_error].
    unfold Sql.has_user. unfold user_exists in Hunknown.
    fold user_id. rewrite Ht, Hv, Hunknown.
    unfold Sql.int4.
    destruct (Z.leb_spec (-2147483648) user_id); [| lia].
    destruct (Z.leb_spec user_id 2147483647); [reflexivity | lia]. }
  intros Hacc1 Hacc2.
  destruct (upsert_accepted db id1 now1 first Hacc1) as (row1 & Hres1).
  destruct (upsert_spec db id1 now1 first row1 Hids Hkeys Hf1 Hres1)
    as (Hids1 & Hkeys1 & Hincl1 & Husers1 & _ & Hlog1 & Hkey1
        & Hw1 & Hn1 & Hothers1 & Hcase1).
  fold user_id d db1 in Hids1, Hkeys1, Hincl1, Husers1, Hlog1, Hkey1,
    Hothers1, Hcase1.
  assert (Hf2' : ~ In id2 (weight_ids db1)).
  { intros H. apply Hincl1 in H. destruct H as [E | H]; [| contradiction].
    now apply Hne. }
  assert (Hacc2' : weight_accepted second db1 = true).
  { unfold weight_accepted, user_exists in *. now rewrite Husers1. }
  destruct (upsert_accepted db1 id2 now2 second Hacc2') as (row2 & Hres2).
  destruct (upsert_spec db1 id2 now2 second row2 Hids1 Hkeys1 Hf2' Hres2)
    as (Hids2 & Hkeys2 & _ & _ & _ & Hlog2 & Hkey2
        & Hw2 & Hn2 & Hothers2 & Hcase2).
  fold db2 in Hids2, Hkeys2, Hlog2, Hkey2, Hothers2, Hcase2.
  pose proof (float8_spec (WeightEntryCreate.weight first)) as Hs1.
  pose proof (float8_spec (WeightEntryCreate.weight second)) as Hs2.
  rewrite <- Hw1 in Hs1. rewrite <- Hw2 in Hs2.
  split; [exact Hkeys1 |]. split; [| split].
  - exists row1. split; [exact Hres1 |]. split; [exact Hlog1 |].
    split; [exact Hs1 |]. split; [exact Hn1 |].
    destruct (logged user_id d db) as [| existing rest].
    + destruct Hcase1 as (Hrows & Hid & Hnow).
      unfold weight_key in Hkey1. inversion Hkey1.
      split; [| repeat split; assumption].
      rewrite Hrows. apply Permutation_sym, Permutation_cons_append.
    + destruct Hcase1 as (Hrow & before & after & Hrows & Hrows').
      rewrite Hrow. cbn [with_weight_note WeightEntry.id WeightEntry.user_id
                           WeightEntry.date WeightEntry.created_at].
      repeat (split; [reflexivity |]).
      exists before, after. split; [exact Hrows |].
      rewrite Hrows', Hrow. apply Permutation_sym, Permutation_middle.
  - intros Eu Ed. rewrite Eu, Ed in *.
    split; [exact Hkeys2 |]. split.
    + rewrite Hlog1 in Hcase2.
      destruct Hcase2 as (_ & before & after & -> & ->).
      rewrite !List.length_app. reflexivity.
    + exists row2. split; [exact Hres2 |]. split; [exact Hlog2 |].
      split; [exact Hs2 |]. exact Hn2.
  - intros Eu Ed. rewrite Eu in *.
    split; [exact Hkeys2 |].
    exists row1, row2.
    split; [| split; [exact Hlog2 | split; [exact Hs1 | exact Hs2]]].
    rewrite Hothers2; [exact Hlog1 |].
    intros E. inversion E. congruence.
Qed.

Lemma weight_upsert_witness :
  let db2 :=
    snd (create_weight_entry 2 20 (weigh 1 monday 79.5 (Some "after run"))
           (snd (create_weight_entry 1 10 (weigh 1 monday 80.5 None)
                   sample_db))) in
  one_per_day db2
  /\ exists row,
       logged 1 monday db2 = [row]
       /\ WeightEntry.weight row = 79.5%float
       /\ WeightEntry.note row = Some "after run".
Proof.
  destruct (weight_upsert sample_db 1 2 10 20
              (weigh 1 monday 80.5 None)
              (weigh 1 monday 79.5 (Some "after run")))
    as (_ & Haccepted).
  - constructor.
  - constructor.
  - intros [].
  - intros [].
  - discriminate.
  - destruct Haccepted as (_ & _ & Hsame & _); [reflexivity | reflexivity |].
    destruct (Hsame eq_refl eq_refl)
      as (Hk & _ & row & _ & Hlog & (_ & Hw) & Hn).
    split; [exact Hk |].
    exists row. split; [exact Hlog |]. split; [| exact Hn].
    apply Hw. unfold negative_zero. vm_compute. discriminate.
Defined.

(** C3 as stated fails: a weight log for a user id that is not in
    [users] adds no record; the insert breaks the foreign key, the
    request raises and the store is as before. *)
Lemma weight_unknown_user_refused :
  user_exists empty_db 1 = false
  /\ create_weight_entry 1 10 (weigh 1 monday 80.5 None) empty_db
     = (Py.Raise Py.IntegrityError, empty_db)
  /\ logged 1 monday
       (snd (create_weight_entry 1 10 (weigh 1 monday 80.5 None) empty_db))
     = [].
Proof. repeat split. Qed.

(** The scenario of the specification, run. *)
Example weight_twice :
  DB.weight_entries
    (snd (create_weight_entry 2 20 (weigh 1 monday 79.5 (Some "after run"))
            (snd (create_weight_entry 1 10 (weigh 1 monday 80.5 None)
                    sample_db))))
  = [{| WeightEntry.id := 1; WeightEntry.user_id := 1;
        WeightEntry.date := monday; WeightEntry.weight := 79.5;
        WeightEntry.note := Some "after run";
        WeightEntry.created_at := 10 |}].
Proof. reflexivity. Qed.

Example weight_two_dates :
  map weight_key
    (DB.weight_entries
       (snd (create_weight_entry 2 20 (weigh 1 (monday + 1) 79.5 None)
               (snd (create_weight_entry 1 10 (weigh 1 monday 80.5 None)
                       sample_db)))))
  = [(1, monday); (1, monday + 1)].
Proof. reflexivity. Qed.

End WeightClaims.

(* ================================================================= *)
(** * Updates of one row: goals and servings *)

Section RowLookup.
Context {A : Type} (id : A -> Z).

Lemma first_unique (rows : list A) (x : A) :
  NoDup (map id rows) -> In x rows ->
  Query.first (fun r => id r =? id x) rows = Some x.
Proof.
  unfold Query.first.
  induction rows as [| r rows IH]; simpl; [tauto |].
  intros Hnd [-> | Hin].
  - now rewrite Z.eqb_refl.
  - inversion Hnd as [| ? ? Hr Hrest]; subst.
    destruct (Z.eqb_spec (id r) (id x)) as [E | _].
    + exfalso. apply Hr. rewrite E. now apply in_map.
    + now apply IH.
Qed.

Lemma first_missing (rows : list A) (k : Z) :
  ~ In k (map id rows) -> Query.first (fun r => id r =? k) rows = None.
Proof.
  unfold Query.first.
  induction rows as [| r rows IH]; simpl; [reflexivity |].
  intros Hnot. destruct (Z.eqb_spec (id r) k) as [E | _].
  - exfalso. apply Hnot. now left.
  - apply IH. intros H. apply Hnot. now right.
Qed.

End RowLookup.

Section UpdateClaims.
Import Routes.

Lemma goal_fits_item (k : string) (f : UserUpdate.field) :
  forallb goal_fits (UserUpdate.item k f) = true <-> goal_in_range f.
Proof.
  destruct f as [| [value |]]; cbn; try tauto.
  unfold Sql.int4. rewrite andb_true_r, andb_true_iff, !Z.leb_le. tauto.
Qed.

Lemma goals_fit (user_update : UserUpdate.t) :
  forallb goal_fits (UserUpdate.dict_exclude_unset user_update) = true
  <-> goals_in_range user_update.
Proof.
  unfold UserUpdate.dict_exclude_unset, goals_in_range.
  rewrite !forallb_app, !andb_true_iff, !goal_fits_item. tauto.
Qed.

(** C5 (amended): a goal update whose numbers fit their 32-bit integer
    columns sets each goal that the request body gives a number for,
    and leaves as they are the goals the body leaves out or gives as
    [null], the id, name and creation time of the user, and every
    other row of the store; with a number that does not fit, the
    update raises at the commit and the store is as before; for a
    user id that no user has it fails with 404 and the store is as
    before. *)
Theorem update_user_partial (db : DB.t) (user_update : UserUpdate.t) :
  NoDup (map User.id (DB.users db)) ->
  (goals_in_range user_update ->
   forall user, In user (DB.users db) ->
     exists user' db',
       update_user (User.id user) user_update db = (Py.Return user', db')
       /\ User.calorie_goal user'
          = apply_field (UserUpdate.calorie_goal user_update)
              (User.calorie_goal user)
       /\ User.protein_goal user'
          = apply_field (UserUpdate.protein_goal user_update)
              (User.protein_goal user)
       /\ User.carb_goal user'
          = apply_field (UserUpdate.carb_goal user_update)
              (User.carb_goal user)
       /\ User.fat_goal user'
          = apply_field (UserUpdate.fat_goal user_update)
              (User.fat_goal user)
       /\ User.id user' = User.id user
       /\ User.name user' = User.name user
       /\ User.created_at user' = User.created_at user
       /\ (exists before after,
             DB.users db = before ++ user :: after
             /\ Permutation (DB.users db') (user' :: before ++ after))
       /\ DB.food_entries db' = DB.food_entries db
       /\ DB.weight_entries db' = DB.weight_entries db)
  /\ (~ goals_in_range user_update ->
      forall user, In user (DB.users db) ->
        update_user (User.id user) user_update db
        = (Py.Raise Py.DataError, db))
  /\ (forall user_id, ~ In user_id (map User.id (DB.users db)) ->
        update_user user_id user_update db
        = (Py.Raise (Py.HTTPException 404 "User not found"), db)).
Proof.
  intros Hids. split; [| split].
  - intros Hrange user Hin. unfold update_user.
    rewrite (first_unique User.id _ _ Hids Hin).
    rewrite (proj2 (goals_fit user_update) Hrange).
    set (user' := fold_left _ _ user).
    assert (Hfields :
      User.calorie_goal user'
      = apply_field (UserUpdate.calorie_goal user_update)
          (User.calorie_goal user)
      /\ User.protein_goal user'
         = apply_field (UserUpdate.protein_goal user_update)
             (User.protein_goal user)
      /\ User.carb_goal user'
         = apply_field (UserUpdate.carb_goal user_update)
             (User.carb_goal user)
      /\ User.fat_goal user'
         = apply_field (UserUpdate.fat_goal user_update)
             (User.fat_goal user)
      /\ User.id user' = User.id user
      /\ User.name user' = User.name user
      /\ User.created_at user' = User.created_at user).
    { subst user'. unfold UserUpdate.dict_exclude_unset.
      destruct user_update as [[| [c |]] [| [p |]] [| [b |]] [| [f |]]];
        cbn; repeat split. }
    destruct Hfields as (Hc & Hp & Hb & Hf & Hid & Hname & Hat).
    exists user', (commit_user user' db).
    split; [reflexivity |].
    repeat (split; [assumption |]).
    split; [| split; reflexivity].
    unfold commit_user. cbn [DB.users].
    destruct (rewrite_row User.id (DB.users db) user user' Hids Hin Hid)
      as (before & after & Hrows & Hrows').
    exists before, after. split; [exact Hrows |].
    rewrite Hrows'. apply Permutation_sym, Permutation_middle.
  - intros Hrange user Hin. unfold update_user.
    rewrite (first_unique User.id _ _ Hids Hin).
    destruct (forallb goal_fits (UserUpdate.dict_exclude_unset user_update))
      eqn:E; [| reflexivity].
    exfalso. apply Hrange. now apply goals_fit.
  - intros user_id Hnot. unfold update_user.
    now rewrite (first_missing User.id _ _ Hnot).
Qed.

Lemma update_user_partial_witness :
  (exists user' db',
     update_user (User.id alice) protein_180 sample_db
     = (Py.Return user', db')
     /\ User.calorie_goal user' = 2000
     /\ User.protein_goal user' = 180
     /\ User.carb_goal user' = 200
     /\ User.fat_goal user' = 65
     /\ User.name user' = "alice"
     /\ DB.food_entries db' = [banana])
  /\ update_user (User.id alice) protein_overflow sample_db
     = (Py.Raise Py.DataError, sample_db).
Proof.
  destruct (update_user_partial sample_db protein_180) as (Hfound & _).
  { repeat constructor. intros []. }
  destruct (update_user_partial sample_db protein_overflow)
    as (_ & Hrefused & _).
  { repeat constructor. intros []. }
  split.
  - destruct (Hfound) with (user := alice)
      as (user' & db' & Hrun & Hc & Hp & Hb & Hf & _ & Hname & _ & _
          & Hfood & _).
    + unfold goals_in_range, protein_180; cbn. lia.
    + now left.
    + exists user', db'. repeat split; assumption.
  - apply Hrefused; [| now left].
    unfold goals_in_range, protein_overflow; cbn. lia.
Defined.

(** The example of the specification, run. *)
Example update_protein_only :
  fst (update_user 1 protein_180 sample_db)
  = Py.Return
      {| User.id := 1; User.name := "alice";
         User.calorie_goal := 2000; User.protein_goal := 180;
         User.carb_goal := 200; User.fat_goal := 65;
         User.created_at := 0 |}.
Proof. reflexivity. Qed.

(** C5 as stated fails: a goal that is present in the request body
    with the value [null] is not set; the user is returned and
    stored as before. *)
Lemma update_user_null_ignored :
  UserUpdate.dict_exclude_unset protein_null = [("protein_goal", None)]
  /\ update_user 1 protein_null sample_db = (Py.Return alice, sample_db).
Proof. split; reflexivity. Qed.

(** C10 (amended): updating an entry that is stored sets its servings
    to the value supplied, as the column holds it (zero for the
    negative zero), and changes no other field of it, no other entry
    and no other table; for an id no entry has it fails with 404 and
    the store is as before. *)
Theorem update_food_entry_servings (db : DB.t) (servings : float) :
  NoDup (map FoodEntry.id (DB.food_entries db)) ->
  (forall entry, In entry (DB.food_entries db) ->
     exists entry' db',
       update_food_entry (FoodEntry.id entry) servings db
       = (Py.Return entry', db')
       /\ stored_as servings (FoodEntry.servings entry')
       /\ FoodEntry.id entry' = FoodEntry.id entry
       /\ FoodEntry.user_id entry' = FoodEntry.user_id entry
       /\ FoodEntry.date entry' = FoodEntry.date entry
       /\ FoodEntry.meal_type entry' = FoodEntry.meal_type entry
       /\ FoodEntry.name entry' = FoodEntry.name entry
       /\ FoodEntry.brand entry' = FoodEntry.brand entry
       /\ FoodEntry.barcode entry' = FoodEntry.barcode entry
       /\ FoodEntry.serving_size entry' = FoodEntry.serving_size entry
       /\ FoodEntry.calories entry' = FoodEntry.calories entry
       /\ FoodEntry.protein entry' = FoodEntry.protein entry
       /\ FoodEntry.carbs entry' = FoodEntry.carbs entry
       /\ FoodEntry.fat entry' = FoodEntry.fat entry
       /\ FoodEntry.fiber entry' = FoodEntry.fiber entry
       /\ FoodEntry.sugar entry' = FoodEntry.sugar entry
       /\ FoodEntry.source entry' = FoodEntry.source entry
       /\ FoodEntry.external_id entry' = FoodEntry.external_id entry
       /\ FoodEntry.image_url entry' = FoodEntry.image_url entry
       /\ FoodEntry.created_at entry' = FoodEntry.created_at entry
       /\ (exists before after,
             DB.food_entries db = before ++ entry :: after
             /\ Permutation (DB.food_entries db')
                  (entry' :: before ++ after))
       /\ DB.users db' = DB.users db
       /\ DB.weight_entries db' = DB.weight_entries db)
  /\ (forall entry_id, ~ In entry_id (map FoodEntry.id (DB.food_entries db)) ->
        update_food_entry entry_id servings db
        = (Py.Raise (Py.HTTPException 404 "Entry not found"), db)).
Proof.
  intros Hids. split.
  - intros entry Hin. unfold update_food_entry.
    rewrite (first_unique FoodEntry.id _ _ Hids Hin).
    exists (with_servings entry (Sql.float8 servings)),
           (commit_food_entry (with_servings entry (Sql.float8 servings)) db).
    split; [reflexivity |].
    split; [apply float8_spec |].
    repeat (split; [reflexivity |]).
    split; [| split; reflexivity].
    unfold commit_food_entry. cbn [DB.food_entries].
    destruct (rewrite_row FoodEntry.id (DB.food_entries db) entry
                (with_servings entry (Sql.float8 servings)) Hids Hin eq_refl)
      as (before & after & Hrows & Hrows').
    exists before, after. split; [exact Hrows |].
    rewrite Hrows'. apply Permutation_sym, Permutation_middle.
  - intros entry_id Hnot. unfold update_food_entry.
    now rewrite (first_missing FoodEntry.id _ _ Hnot).
Qed.

Lemma update_food_entry_servings_witness :
  (exists entry' db',
     update_food_entry (FoodEntry.id banana) 3 sample_db
     = (Py.Return entry', db')
     /\ FoodEntry.servings entry' = 3%float
     /\ FoodEntry.calories entry' = 90%float
     /\ FoodEntry.meal_type entry' = "breakfast"
     /\ DB.users db' = [alice])
  /\ update_food_entry 7 3 sample_db
     = (Py.Raise (Py.HTTPException 404 "Entry not found"), sample_db).
Proof.
  destruct (update_food_entry_servings sample_db 3) as [Hfound Hmissing].
  - repeat constructor. intros [].
  - split.
    + destruct (Hfound banana (or_introl eq_refl))
        as (e' & db' & Hrun & (_ & Hs) & _ & _ & _ & Hm & _ & _ & _ & _ & Hc
            & _ & _ & _ & _ & _ & _ & _ & _ & _ & _ & Hu & _).
      exists e', db'. repeat split; try assumption.
      apply Hs. unfold negative_zero. vm_compute. discriminate.
    + apply Hmissing. simpl. intros [E | []]. discriminate E.
Defined.

(** C10 as stated fails: for the negative zero the servings stored
    and returned are not the value supplied but zero. *)
Lemma update_negative_zero :
  negative_zero (-0)%float
  /\ exists entry' db',
       update_food_entry (FoodEntry.id banana) (-0)%float sample_db
       = (Py.Return entry', db')
       /\ FoodEntry.servings entry' = 0%float
       /\ FoodEntry.servings entry' <> (-0)%float
       /\ DB.food_entries db' = [entry'].
Proof.
  split; [reflexivity |].
  eexists _, _. split; [reflexivity |].
  split; [reflexivity |]. split; [| reflexivity].
  intros E. apply (f_equal PrimFloat.classify) in E.
  vm_compute in E. discriminate E.
Qed.

Example update_servings_run :
  update_food_entry 1 3 sample_db
  = (Py.Return (with_servings banana 3),
     {| DB.users := [alice];
        DB.food_entries := [with_servings banana 3];
        DB.weight_entries := [] |}).
Proof. reflexivity. Qed.

End UpdateClaims.

(* ================================================================= *)
(** * Ordered queries *)

Section OrderBy.
Context {A : Type} (leb : A -> A -> bool).

Lemma insert_perm (x : A) (l : list A) :
  Permutation (Query.insert leb x l) (x :: l).
Proof.
  induction l as [| y l IH]; simpl; [reflexivity |].
  destruct (leb x y); [reflexivity |].
  rewrite IH. apply perm_swap.
Qed.

Lemma order_by_perm (l : list A) : Permutation (Query.order_by leb l) l.
Proof.
  induction l as [| x l IH]; simpl; [constructor |].
  rewrite insert_perm. now constructor.
Qed.

Hypothesis leb_total : forall a b, leb a b = false -> leb b a = true.
Hypothesis leb_trans :
  forall a b c, leb a b = true -> leb b c = true -> leb a c = true.

Let R (a b : A) : Prop := leb a b = true.

Lemma insert_sorted (x : A) (l : list A) :
  StronglySorted R l -> StronglySorted R (Query.insert leb x l).
Proof.
  induction 1 as [| y l Hl IH Hy]; simpl.
  - repeat constructor.
  - destruct (leb x y) eqn:E.
    + constructor; [now constructor |].
      constructor; [exact E |].
      eapply Forall_impl; [| exact Hy]. intros z Hz.
      exact (leb_trans _ _ _ E Hz).
    + constructor; [exact IH |].
      rewrite (insert_perm x l). constructor; [| exact Hy].
      now apply leb_total.
Qed.

Lemma order_by_sorted (l : list A) : StronglySorted R (Query.order_by leb l).
Proof.
  induction l as [| x l IH]; simpl; [constructor |].
  now apply insert_sorted.
Qed.

End OrderBy.

Lemma strongly_sorted_impl {A} (R S : A -> A -> Prop) (l : list A) :
  (forall a b, R a b -> S a b) -> StronglySorted R l -> StronglySorted S l.
Proof.
  intros HRS. induction 1 as [| a l Hl IH Ha]; constructor; [exact IH |].
  eapply Forall_impl; [| exact Ha]. intros b. apply HRS.
Qed.

Section Listing.
Import Routes.

Lemma newest_first_leb (a b : FoodEntry.t) :
  date_desc_created_desc a b = true <-> newest_first a b.
Proof.
  unfold date_desc_created_desc, newest_first.
  rewrite orb_true_iff, andb_true_iff, Z.ltb_lt, Z.eqb_eq, Z.leb_le.
  reflexivity.
Qed.

Lemma newest_first_total (a b : FoodEntry.t) :
  date_desc_created_desc a b = false -> date_desc_created_desc b a = true.
Proof.
  intros H. apply newest_first_leb.
  assert (Hn : ~ newest_first a b).
  { intros Hab. apply newest_first_leb in Hab. congruence. }
  unfold newest_first in *. lia.
Qed.

Lemma newest_first_trans (a b c : FoodEntry.t) :
  date_desc_created_desc a b = true -> date_desc_created_desc b c = true ->
  date_desc_created_desc a c = true.
Proof.
  rewrite !newest_first_leb. unfold newest_first. lia.
Qed.

Lemma filter_filter {A} (f g : A -> bool) (l : list A) :
  filter g (filter f l) = filter (fun a => f a && g a) l.
Proof.
  induction l as [| a l IH]; simpl; [reflexivity |].
  destruct (f a); simpl; [destruct (g a) |]; now rewrite IH.
Qed.

(** C8 (amended): the listing returns exactly the user's entries
    within the optional date bounds, later dates first and, within a
    date, later creation first; the meal type plays no part in the
    order. *)
Theorem get_food_entries_order (user_id : Z)
    (date_from date_to : option Date.date) (db : DB.t) :
  Permutation (get_food_entries user_id date_from date_to db)
    (filter (selected user_id date_from date_to) (DB.food_entries db))
  /\ StronglySorted newest_first
       (get_food_entries user_id date_from date_to db).
Proof.
  unfold get_food_entries. split.
  - rewrite order_by_perm.
    destruct date_from, date_to; rewrite ?filter_filter;
      (erewrite filter_ext; [reflexivity |]);
      intros e; unfold selected; now rewrite ?andb_true_r, ?andb_assoc.
  - apply strongly_sorted_impl
      with (R := fun a b => date_desc_created_desc a b = true).
    + intros a b. apply newest_first_leb.
    + apply order_by_sorted.
      * exact newest_first_total.
      * exact newest_first_trans.
Qed.

(** C8 as stated fails: the snack logged after the breakfast of the
    same day is listed before it, which (date descending, meal type,
    creation time) forbids. *)
Lemma get_food_entries_not_by_meal :
  get_food_entries 1 None None snack_db = [apple; porridge]
  /\ Query.sorted date_desc_meal_type_created
       (get_food_entries 1 None None snack_db) = false
  /\ Query.order_by date_desc_meal_type_created (DB.food_entries snack_db)
     = [porridge; apple].
Proof. repeat split. Qed.

End Listing.

(* ================================================================= *)
(** * The food fact normalizer *)

Section Normalizer.
Import OpenFoodFacts.

(** C4 (amended): a response with a status other than 200 degrades
    to an empty result set for search and to "not found" for barcode
    lookup; so does, with status 200, a barcode payload that is an
    object whose status field is missing or is not 1, and a search
    payload that is an object without a products field.  But an
    exception of the transport (a timeout among them) and the
    exception raised decoding a 200 body that is not JSON text are
    raised to the caller. *)
Theorem upstream_failures (r : response) (e : Py.exn) (page page_size : Z) :
  (status_code r <> 200 ->
     search_food (Py.Return r) page page_size
     = Py.Return {| products := []; count := VInt 0;
                    page := None; page_size := None |}
     /\ get_product_by_barcode (Py.Return r) = Py.Return None
     /\ Routes.get_food_by_barcode (Py.Return r)
        = Py.Raise (Py.HTTPException 404 "Product not found"))
  /\ (forall data,
        status_code r = 200 -> body r = Py.Return (VDict data) ->
        ne_one (or_default VNone (Dict.get "status" data)) = true ->
        get_product_by_barcode (Py.Return r) = Py.Return None
        /\ Routes.get_food_by_barcode (Py.Return r)
           = Py.Raise (Py.HTTPException 404 "Product not found"))
  /\ (forall data,
        status_code r = 200 -> body r = Py.Return (VDict data) ->
        Dict.get "products" data = None ->
        search_food (Py.Return r) page page_size
        = Py.Return {| products := [];
                       count := or_default (VInt 0) (Dict.get "count" data);
                       page := Some page; page_size := Some page_size |})
  /\ search_food (Py.Raise e) page page_size = Py.Raise e
  /\ get_product_by_barcode (Py.Raise e) = Py.Raise e
  /\ (status_code r = 200 -> body r = Py.Raise e ->
        search_food (Py.Return r) page page_size = Py.Raise e
        /\ get_product_by_barcode (Py.Return r) = Py.Raise e).
Proof.
  split; [| split; [| split; [| split; [| split]]]].
  - intros Hstatus.
    unfold Routes.get_food_by_barcode, search_food, get_product_by_barcode.
    simpl. apply Z.eqb_neq in Hstatus. rewrite Hstatus. simpl.
    repeat split.
  - intros data Hstatus Hbody Hne.
    unfold Routes.get_food_by_barcode, get_product_by_barcode, json. simpl.
    rewrite Hstatus, Hbody. simpl.
    unfold or_default in Hne.
    destruct (Dict.get "status" data) as [status |]; rewrite Hne;
      split; reflexivity.
  - intros data Hstatus Hbody Hproducts.
    unfold search_food, json. simpl.
    rewrite Hstatus, Hbody. simpl. rewrite Hproducts. simpl.
    unfold or_default.
    destruct (Dict.get "count" data); reflexivity.
  - reflexivity.
  - reflexivity.
  - intros Hstatus Hbody.
    unfold search_food, get_product_by_barcode, json. simpl.
    rewrite Hstatus, Hbody. split; reflexivity.
Qed.

Lemma upstream_failures_witness :
  search_food (Py.Return unavailable) 1 20
  = Py.Return {| products := []; count := VInt 0;
                 page := None; page_size := None |}
  /\ get_product_by_barcode (Py.Return unavailable) = Py.Return None
  /\ get_product_by_barcode (Py.Return no_status) = Py.Return None
  /\ search_food (Py.Return no_status) 1 20
     = Py.Return {| products := []; count := VInt 0;
                    page := Some 1; page_size := Some 20 |}
  /\ get_product_by_barcode (Py.Return mangled)
     = Py.Raise Py.UnicodeDecodeError.
Proof.
  destruct (upstream_failures unavailable Py.TimeoutException 1 20)
    as (Hdown & _).
  destruct (upstream_failures no_status Py.TimeoutException 1 20)
    as (_ & Hbarcode & Hsearch & _).
  destruct (upstream_failures mangled Py.UnicodeDecodeError 1 20)
    as (_ & _ & _ & _ & _ & Hmangled).
  destruct Hdown as (Hs & Hb & _); [discriminate |].
  destruct (Hbarcode _ eq_refl eq_refl eq_refl) as (Hnone & _).
  pose proof (Hsearch _ eq_refl eq_refl eq_refl) as Hempty.
  destruct Hmangled as (_ & Hm); [reflexivity | reflexivity |].
  repeat split; assumption.
Defined.

(** C4 as stated fails: a timeout and a payload that cannot be
    decoded are not turned into empty results; the caller gets the
    exception. *)
Lemma upstream_errors_propagate :
  search_food (Py.Raise Py.TimeoutException) 1 20
  = Py.Raise Py.TimeoutException
  /\ get_product_by_barcode (Py.Raise Py.TimeoutException)
     = Py.Raise Py.TimeoutException
  /\ search_food (Py.Return garbled) 1 20 = Py.Raise Py.JSONDecodeError
  /\ get_product_by_barcode (Py.Return garbled)
     = Py.Raise Py.JSONDecodeError.
Proof. repeat split. Qed.

Lemma get_dict (d : Dict.t value) (key : string) (default : value) :
  get (VDict d) key default = Py.Return (or_default default (Dict.get key d)).
Proof. reflexivity. Qed.

Lemma get_nutriments (product : Dict.t value) :
  raw_product product ->
  get (VDict product) "nutriments" (VDict [])
  = Py.Return (VDict (nutrient_map product)).
Proof.
  unfold raw_product, nutrient_map. rewrite get_dict.
  destruct (Dict.get "nutriments" product) as [[] |]; simpl;
    intros H; try contradiction; reflexivity.
Qed.

Lemma search_step_canonical (facts : list fact) (product : Dict.t value) :
  raw_product product ->
  search_step facts (VDict product) = Py.Return (facts ++ [canonical product]).
Proof.
  intros Hraw. unfold search_step.
  rewrite (get_nutriments product Hraw).
  cbn [Py.bind]. rewrite !get_dict. reflexivity.
Qed.

Lemma search_loop_canonical (raw : list (Dict.t value)) :
  Forall raw_product raw ->
  forall facts,
    Py.for_each search_step (map VDict raw) facts
    = Py.Return (facts ++ map canonical raw).
Proof.
  induction 1 as [| product raw Hraw _ IH]; intros facts; simpl.
  - now rewrite app_nil_r.
  - rewrite (search_step_canonical facts product Hraw). simpl.
    rewrite IH, <- app_assoc. reflexivity.
Qed.

End Normalizer.

Section NormalizerClaims.
Import OpenFoodFacts.

(** C6 (amended): for raw product records (JSON objects whose
    [nutriments], when there, is an object), search returns the
    canonical fact of each product and barcode lookup that of the
    product found.  In it a missing display name is the literal
    ["Unbekannt"], a missing brand the empty string, a missing image
    URL [None], a missing serving size ["100g"], each macro absent
    from the nutrient map the integer 0, and the source
    ["openfoodfacts"]; without [nutriments] all six macros are 0. *)
Theorem normalizer_defaults (raw : list (Dict.t value))
    (product data : Dict.t value) (page page_size : Z) :
  Forall raw_product raw ->
  raw_product product ->
  (Dict.get "products" data = Some (VList (map VDict raw)) ->
     search_food (ok_response (VDict data)) page page_size
     = Py.Return {| products := map canonical raw;
                    count := or_default (VInt 0) (Dict.get "count" data);
                    page := Some page;
                    page_size := Some page_size |})
  /\ (forall status,
        Dict.get "status" data = Some status -> ne_one status = false ->
        Dict.get "product" data = Some (VDict product) ->
        get_product_by_barcode (ok_response (VDict data))
        = Py.Return (Some (canonical product)))
  /\ (Dict.get "product_name" product = None ->
        name (canonical product) = VStr "Unbekannt")
  /\ (Dict.get "brands" product = None ->
        brand (canonical product) = VStr "")
  /\ (Dict.get "image_front_small_url" product = None ->
        image_url (canonical product) = VNone)
  /\ (Dict.get "serving_size" product = None ->
        serving_size (canonical product) = VStr "100g")
  /\ (Dict.get "energy-kcal_100g" (nutrient_map product) = None ->
        calories_per_100g (canonical product) = VInt 0)
  /\ (Dict.get "proteins_100g" (nutrient_map product) = None ->
        protein_per_100g (canonical product) = VInt 0)
  /\ (Dict.get "carbohydrates_100g" (nutrient_map product) = None ->
        carbs_per_100g (canonical product) = VInt 0)
  /\ (Dict.get "fat_100g" (nutrient_map product) = None ->
        fat_per_100g (canonical product) = VInt 0)
  /\ (Dict.get "fiber_100g" (nutrient_map product) = None ->
        fiber_per_100g (canonical product) = VInt 0)
  /\ (Dict.get "sugars_100g" (nutrient_map product) = None ->
        sugar_per_100g (canonical product) = VInt 0)
  /\ source (canonical product) = "openfoodfacts"
  /\ (Dict.get "nutriments" product = None ->
        calories_per_100g (canonical product) = VInt 0
        /\ protein_per_100g (canonical product) = VInt 0
        /\ carbs_per_100g (canonical product) = VInt 0
        /\ fat_per_100g (canonical product) = VInt 0
        /\ fiber_per_100g (canonical product) = VInt 0
        /\ sugar_per_100g (canonical product) = VInt 0).
Proof.
  intros Hraw Hproduct. split; [| split].
  - intros Hproducts. unfold search_food, ok_response, json.
    cbn [Py.bind status_code body Z.eqb Pos.eqb negb].
    rewrite !get_dict, Hproducts.
    cbn [Py.bind or_default iter].
    rewrite (search_loop_canonical raw Hraw []). reflexivity.
  - intros status Hstatus Hone Hfound.
    unfold get_product_by_barcode, ok_response, json.
    cbn [Py.bind status_code body Z.eqb Pos.eqb negb].
    rewrite get_dict, Hstatus.
    cbn [Py.bind or_default]. rewrite Hone.
    rewrite get_dict, Hfound. cbn [Py.bind or_default].
    rewrite (get_nutriments product Hproduct).
    cbn [Py.bind]. rewrite !get_dict. reflexivity.
  - unfold canonical.
    cbn [name brand image_url serving_size calories_per_100g
         protein_per_100g carbs_per_100g fat_per_100g fiber_per_100g
         sugar_per_100g source].
    repeat (split; [intros ->; reflexivity |]).
    split; [reflexivity |].
    intros Hnone. unfold nutrient_map. rewrite Hnone. repeat split.
Qed.

Lemma normalizer_defaults_witness :
  search_food
    (ok_response
       (VDict [("count", VInt 1);
               ("products", VList [VDict [("code", VStr "4000405002124")]])]))
    1 20
  = Py.Return
      {| products :=
           [{| barcode := VStr "4000405002124";
               name := VStr "Unbekannt";
               brand := VStr "";
               image_url := VNone;
               serving_size := VStr "100g";
               calories_per_100g := VInt 0;
               protein_per_100g := VInt 0;
               carbs_per_100g := VInt 0;
               fat_per_100g := VInt 0;
               fiber_per_100g := VInt 0;
               sugar_per_100g := VInt 0;
               source := "openfoodfacts" |}];
         count := VInt 1;
         page := Some 1;
         page_size := Some 20 |}.
Proof.
  destruct (normalizer_defaults
              [[("code", VStr "4000405002124")]] []
              [("count", VInt 1);
               ("products", VList [VDict [("code", VStr "4000405002124")]])]
              1 20) as (Hsearch & _).
  - repeat constructor.
  - exact I.
  - exact (Hsearch eq_refl).
Defined.

(** C6 as stated fails: the placeholder of a missing display name
    is the string ["Unbekannt"], not ["unknown"]; and a product
    whose [nutriments] is [null] yields no fact, the lookup
    raises. *)
Lemma normalizer_placeholder_and_null :
  get_product_by_barcode (ok_response (found (VDict [])))
  = Py.Return (Some (canonical []))
  /\ name (canonical []) = VStr "Unbekannt"
  /\ name (canonical []) <> VStr "unknown"
  /\ get_product_by_barcode
       (ok_response (found (VDict [("nutriments", VNone)])))
     = Py.Raise Py.AttributeError
  /\ search_food
       (ok_response
          (VDict [("products", VList [VDict [("nutriments", VNone)]])]))
       1 20
     = Py.Raise Py.AttributeError.
Proof. repeat split. discriminate. Qed.

End NormalizerClaims.

(* ================================================================= *)
(** * More on the daily view *)

Section DailyEdges.
Import Routes.

Lemma for_each_app {A S} (body : S -> A -> Py.result S) (xs ys : list A) :
  forall acc,
    Py.for_each body (xs ++ ys) acc
    = Py.bind (Py.for_each body xs acc) (Py.for_each body ys).
Proof.
  induction xs as [| x xs IH]; intros acc; simpl; [reflexivity |].
  destruct (body acc x); simpl; [apply IH | reflexivity].
Qed.

Lemma meal_slot_mem (m : string) :
  meal_slot m <-> Dict.mem m empty_meals = true.
Proof. rewrite mem_keys. reflexivity. Qed.

(** Either every row has one of the four meal types, or there is a
    first row that has not. *)
Lemma first_unknown_meal (entries : list FoodEntry.t) :
  Forall (fun e => meal_slot (FoodEntry.meal_type e)) entries
  \/ exists before e after,
       entries = before ++ e :: after
       /\ Forall (fun e => meal_slot (FoodEntry.meal_type e)) before
       /\ ~ meal_slot (FoodEntry.meal_type e).
Proof.
  induction entries as [| e entries IH]; [left; constructor |].
  destruct (Dict.mem (FoodEntry.meal_type e) empty_meals) eqn:E.
  - apply meal_slot_mem in E. destruct IH as [IH | (b & x & a & -> & Hb & Hx)].
    + left. now constructor.
    + right. exists (e :: b), x, a. repeat split; [now constructor | exact Hx].
  - right. exists [], e, entries. repeat split; [constructor |].
    intros H. apply meal_slot_mem in H. congruence.
Qed.

Lemma daily_of_first_unknown (entry_date : Date.date)
    (before after : list FoodEntry.t) (e : FoodEntry.t) :
  Forall (fun e => meal_slot (FoodEntry.meal_type e)) before ->
  ~ meal_slot (FoodEntry.meal_type e) ->
  daily_of entry_date (before ++ e :: after)
  = Py.Raise (Py.KeyError (FoodEntry.meal_type e)).
Proof.
  intros Hb He. unfold daily_of. rewrite for_each_app.
  destruct (daily_loop before empty_meals Totals.zero (slots_covered _ Hb))
    as (g & Hrun & Hkeys & _).
  rewrite Hrun. simpl. unfold Dict.getitem.
  rewrite mem_absent_keys; [reflexivity |].
  rewrite Hkeys. exact He.
Qed.

(** X1: the daily view returns exactly when every fetched row has one
    of the four meal types; otherwise it raises [KeyError] with the
    meal type of the first row that has not, whatever follows. *)
Theorem daily_returns_iff_slots (entry_date : Date.date)
    (entries : list FoodEntry.t) :
  (Py.raises (daily_of entry_date entries) = false
   <-> Forall (fun e => meal_slot (FoodEntry.meal_type e)) entries)
  /\ (forall before e after,
        entries = before ++ e :: after ->
        Forall (fun e => meal_slot (FoodEntry.meal_type e)) before ->
        ~ meal_slot (FoodEntry.meal_type e) ->
        daily_of entry_date entries
        = Py.Raise (Py.KeyError (FoodEntry.meal_type e))).
Proof.
  split.
  - split.
    + intros Hret.
      destruct (first_unknown_meal entries)
        as [Hall | (b & x & a & -> & Hb & Hx)]; [exact Hall |].
      rewrite (daily_of_first_unknown entry_date b a x Hb Hx) in Hret.
      discriminate.
    + intros Hall. unfold daily_of.
      destruct (daily_loop entries empty_meals Totals.zero
                  (slots_covered _ Hall)) as (g & Hrun & _).
      now rewrite Hrun.
  - intros before e after -> Hb He. now apply daily_of_first_unknown.
Qed.

Lemma daily_returns_iff_slots_witness :
  daily_of monday [banana; brunch; banana] = Py.Raise (Py.KeyError "brunch").
Proof.
  destruct (daily_returns_iff_slots monday [banana; brunch; banana])
    as [_ Hfirst].
  apply (Hfirst [banana] brunch [banana] eq_refl).
  - repeat constructor.
  - unfold meal_slot, meal_slots. simpl.
    intros [E | [E | [E | [E | []]]]]; discriminate E.
Defined.

Lemma in_order_by {A} (leb : A -> A -> bool) (x : A) (l : list A) :
  In x (Query.order_by leb l) <-> In x l.
Proof.
  split; apply Permutation_in;
    [apply order_by_perm | apply Permutation_sym, order_by_perm].
Qed.

Lemma string_fits_spec (n : nat) (s : string) :
  string_fits n s = true -> Sql.text s = true /\ Sql.varchar n s = true.
Proof.
  unfold string_fits, Sql.varchar. now rewrite no_nul_text, andb_true_iff.
Qed.

Lemma optional_fits_spec (n : nat) (value : option string) :
  optional_fits n value = true ->
  Sql.nullable Sql.text value = true
  /\ Sql.nullable (Sql.varchar n) value = true.
Proof.
  destruct value as [s |]; simpl; [apply string_fits_spec | now split].
Qed.

Lemma int_fits_spec (z : Z) : int_fits z = Sql.int4 z.
Proof. reflexivity. Qed.

(** A food entry the database takes is not refused. *)
Lemma food_entry_accepted_spec (entry : Crud.FoodEntryCreate.t) (db : DB.t) :
  food_entry_accepted entry db = true ->
  Sql.refused (Crud.food_entry_sendable entry) (Crud.food_entry_fits entry)
    (Sql.has_user (Crud.FoodEntryCreate.user_id entry) db)
  = None.
Proof.
  unfold food_entry_accepted. rewrite !andb_true_iff.
  intros [[[[[[[[[Hu Hlo] Hhi] Hm] Hn] Hb] Hc] Hs] He] Hi].
  apply string_fits_spec in Hm, Hn, Hs.
  apply optional_fits_spec in Hb, Hc, He, Hi.
  destruct Hm as [Hm1 Hm2], Hn as [Hn1 Hn2], Hs as [Hs1 Hs2],
    Hb as [Hb1 Hb2], Hc as [Hc1 Hc2], He as [He1 He2], Hi as [Hi1 Hi2].
  unfold Sql.refused, Crud.food_entry_sendable, Crud.food_entry_fits,
    Sql.int4, Sql.has_user.
  unfold user_exists in Hu.
  now rewrite Hu, Hlo, Hhi, Hm1, Hm2, Hn1, Hn2, Hs1, Hs2, Hb1, Hb2, Hc1, Hc2,
    He1, He2, Hi1, Hi2.
Qed.

(** X2: [POST /entries] stores an entry that the database takes
    whatever its meal type; once one with a meal type outside the
    four slots is stored, the daily view of that user and date raises
    a [KeyError]. *)
Theorem create_unknown_meal_breaks_day (db : DB.t) (new_id now : Z)
    (entry : Crud.FoodEntryCreate.t) :
  food_entry_accepted entry db = true ->
  ~ meal_slot (Crud.FoodEntryCreate.meal_type entry) ->
  exists row,
    fst (Crud.create_food_entry new_id now entry db) = Py.Return row
    /\ In row (DB.food_entries (snd (Crud.create_food_entry new_id now entry db)))
    /\ exists key,
         ~ meal_slot key
         /\ get_daily_entries (Crud.FoodEntryCreate.user_id entry)
              (Crud.FoodEntryCreate.date entry)
              (snd (Crud.create_food_entry new_id now entry db))
            = Py.Raise (Py.KeyError key).
Proof.
  intros Hacc Hbad. unfold Crud.create_food_entry.
  rewrite (food_entry_accepted_spec entry db Hacc). cbn [fst snd].
  set (row := {| FoodEntry.id := new_id |}).
  exists row. split; [reflexivity |]. split.
  { cbn [DB.food_entries]. apply in_or_app. right. now left. }
  unfold get_daily_entries.
  set (fetched := daily_query _ _ _).
  assert (Hin : In row fetched).
  { subst fetched. unfold daily_query. apply in_order_by, filter_In.
    cbn [DB.food_entries]. split.
    - apply in_or_app. right. now left.
    - subst row. cbn. now rewrite !Z.eqb_refl. }
  destruct (first_unknown_meal fetched) as [Hall | (b & x & a & E & Hb & Hx)].
  - exfalso. rewrite Forall_forall in Hall. exact (Hbad (Hall row Hin)).
  - exists (FoodEntry.meal_type x). split; [exact Hx |].
    rewrite E. now apply daily_of_first_unknown.
Qed.

Lemma create_unknown_meal_breaks_day_witness :
  exists key,
    get_daily_entries 1 monday
      (snd (Crud.create_food_entry 5 300
              (log_food 1 monday "brunch" "Eggs" 1 150) sample_db))
    = Py.Raise (Py.KeyError key).
Proof.
  destruct (create_unknown_meal_breaks_day sample_db 5 300
              (log_food 1 monday "brunch" "Eggs" 1 150))
    as (row & _ & _ & key & _ & Hraise).
  - reflexivity.
  - unfold meal_slot, meal_slots. simpl.
    intros [E | [E | [E | [E | []]]]]; discriminate E.
  - exists key. exact Hraise.
Defined.

End DailyEdges.

(* ================================================================= *)
(** * More on the weekly statistics *)

Section WeeklyEdges.
Import Routes.

Lemma weekly_of_returns (start : Date.date) (entries : list FoodEntry.t) :
  Date.valid start -> Date.valid (start + 6) ->
  weekly_of start (start + 6) entries
  = Py.Return {| start_date := start;
                 end_date := start + 6;
                 daily_stats := fold_left weekly_step entries (seeded start) |}.
Proof.
  intros Hs He. unfold weekly_of. rewrite seed_loop.
  - reflexivity.
  - repeat (constructor; [simpl; intuition lia |]). constructor.
  - apply Forall_map. now apply week_valid.
  - apply Forall_forall. intros i _ [].
Qed.

Lemma weekly_some_start (today user_id : Z) (start : Date.date) (db : DB.t) :
  Date.valid start -> Date.valid (start + 6) ->
  get_weekly_stats today user_id (Some start) db
  = Py.Return
      {| start_date := start;
         end_date := start + 6;
         daily_stats :=
           fold_left weekly_step
             (weekly_query user_id start (start + 6) db) (seeded start) |}.
Proof.
  intros Hs He. unfold get_weekly_stats. cbn [Py.bind].
  rewrite (add_days_valid start 6 He). cbn [Py.bind].
  now apply weekly_of_returns.
Qed.

(** X3: without a start date the week is the one of [today]: its
    start is a date, a Monday, at most six days before [today], and
    the statistics are those of the request that names that Monday;
    the subtraction never leaves the calendar. *)
Theorem week_starts_monday (today user_id : Z) (db : DB.t) :
  Date.valid today ->
  let start := today - Date.weekday today in
  Date.valid start
  /\ Date.weekday start = 0
  /\ start <= today <= start + 6
  /\ get_weekly_stats today user_id None db
     = get_weekly_stats today user_id (Some start) db.
Proof.
  intros Htoday. cbv zeta. unfold Date.valid, Date.weekday in *.
  destruct Htoday as [H1 H2].
  assert (Hr : 0 <= (today + 6) mod 7 < 7) by (apply Z.mod_pos_bound; lia).
  pose proof (Z.div_mod (today + 6) 7 ltac:(lia)) as Hq.
  assert (Hq1 : 1 <= (today + 6) / 7)
    by (apply Z.div_le_lower_bound; lia).
  split; [lia |]. split.
  - replace (today - (today + 6) mod 7 + 6) with (((today + 6) / 7) * 7) by lia.
    apply Z.mod_mul. lia.
  - split; [lia |].
    unfold get_weekly_stats, Date.sub_days, Date.weekday.
    rewrite add_days_valid; [reflexivity |].
    unfold Date.valid. lia.
Qed.

Lemma week_starts_monday_witness :
  get_weekly_stats (Date.of_ymd 2024 3 6) 1 None sample_db
  = get_weekly_stats (Date.of_ymd 2024 3 6) 1 (Some monday) sample_db.
Proof.
  apply (week_starts_monday (Date.of_ymd 2024 3 6) 1 sample_db).
  unfold Date.valid. cbv. split; discriminate.
Defined.

Lemma seeded_keys (start : Date.date) :
  Dict.keys (seeded start) = map Date.isoformat (week start).
Proof. unfold seeded, Dict.keys. rewrite map_map. reflexivity. Qed.

End WeeklyEdges.

(* ================================================================= *)
(** * Rows deleted and looked up by primary key *)

Section RowsDelete.
Context {A : Type} (id : A -> Z).

Lemma filter_all (f : A -> bool) (rows : list A) :
  Forall (fun r => f r = true) rows -> filter f rows = rows.
Proof.
  induction 1 as [| r rows Hr _ IH]; simpl; [reflexivity |].
  now rewrite Hr, IH.
Qed.

Lemma delete_others (k : Z) (rows : list A) :
  ~ In k (map id rows) -> filter (fun r => negb (id r =? k)) rows = rows.
Proof.
  intros Hnot. apply filter_all, Forall_forall. intros r Hr.
  apply negb_true_iff, Z.eqb_neq. intros E. apply Hnot.
  rewrite <- E. now apply in_map.
Qed.

(** With unique keys, deleting the row of [x] removes that row alone. *)
Lemma delete_row (rows : list A) (x : A) :
  NoDup (map id rows) -> In x rows ->
  exists before after,
    rows = before ++ x :: after
    /\ filter (fun r => negb (id r =? id x)) rows = before ++ after
    /\ ~ In (id x) (map id (before ++ after))
    /\ NoDup (map id (before ++ after)).
Proof.
  intros Hnd Hin.
  destruct (in_split _ _ Hin) as (before & after & ->).
  exists before, after. split; [reflexivity |].
  rewrite map_app in Hnd. simpl in Hnd.
  pose proof (NoDup_remove_2 _ _ _ Hnd) as Hnot.
  pose proof (NoDup_remove_1 _ _ _ Hnd) as Hrest.
  rewrite <- map_app in Hnot, Hrest.
  split; [| split; assumption].
  rewrite filter_app. simpl. rewrite Z.eqb_refl. simpl.
  rewrite map_app in Hnot.
  rewrite !delete_others; [reflexivity | |];
    intros H; apply Hnot, in_or_app; auto.
Qed.

Lemma first_map (f : A -> A) (k : Z) (rows : list A) :
  (forall r, id (f r) = id r) ->
  Query.first (fun r => id r =? k) (map f rows)
  = option_map f (Query.first (fun r => id r =? k) rows).
Proof.
  intros Hid. unfold Query.first.
  induction rows as [| r rows IH]; simpl; [reflexivity |].
  rewrite Hid. destruct (id r =? k); [reflexivity | exact IH].
Qed.

Lemma first_app_missing (k : Z) (rows more : list A) :
  ~ In k (map id rows) ->
  Query.first (fun r => id r =? k) (rows ++ more)
  = Query.first (fun r => id r =? k) more.
Proof.
  unfold Query.first.
  induction rows as [| r rows IH]; simpl; [reflexivity |].
  intros Hnot. destruct (Z.eqb_spec (id r) k) as [E | _].
  - exfalso. apply Hnot. now left.
  - apply IH. intros H. apply Hnot. now right.
Qed.

End RowsDelete.

Lemma db_ext (a b : DB.t) :
  DB.users a = DB.users b ->
  DB.food_entries a = DB.food_entries b ->
  DB.weight_entries a = DB.weight_entries b ->
  a = b.
Proof. destruct a, b. simpl. congruence. Qed.

(* ================================================================= *)
(** * Food entries: delete, create and delete, update twice *)

Section FoodEntryEdges.
Import Routes.

(** X5: with unique primary keys, deleting a stored entry removes
    that row and nothing else, after which the id is gone: deleting or
    updating it again fails with 404.  Deleting an id no entry has
    fails with 404 and the store is as before. *)
Theorem delete_food_entry_removes (db : DB.t) :
  NoDup (food_ids db) ->
  (forall entry, In entry (DB.food_entries db) ->
     exists before after db',
       DB.food_entries db = before ++ entry :: after
       /\ Crud.delete_food_entry (FoodEntry.id entry) db
          = (Py.Return Crud.deleted, db')
       /\ DB.food_entries db' = before ++ after
       /\ DB.users db' = DB.users db
       /\ DB.weight_entries db' = DB.weight_entries db
       /\ Crud.delete_food_entry (FoodEntry.id entry) db'
          = (Py.Raise (Py.HTTPException 404 "Entry not found"), db')
       /\ forall servings,
            update_food_entry (FoodEntry.id entry) servings db'
            = (Py.Raise (Py.HTTPException 404 "Entry not found"), db'))
  /\ (forall entry_id, ~ In entry_id (food_ids db) ->
        Crud.delete_food_entry entry_id db
        = (Py.Raise (Py.HTTPException 404 "Entry not found"), db)).
Proof.
  unfold food_ids. intros Hids. split.
  - intros entry Hin.
    destruct (delete_row FoodEntry.id _ entry Hids Hin)
      as (before & after & Hrows & Hdel & Hgone & _).
    exists before, after.
    eexists. split; [exact Hrows |]. split.
    { unfold Crud.delete_food_entry.
      rewrite (first_unique FoodEntry.id _ _ Hids Hin). reflexivity. }
    cbn [DB.food_entries DB.users DB.weight_entries].
    split; [exact Hdel |]. split; [reflexivity |]. split; [reflexivity |].
    rewrite Hdel. split.
    + unfold Crud.delete_food_entry. cbn [DB.food_entries].
      now rewrite (first_missing FoodEntry.id _ _ Hgone).
    + intros servings. unfold update_food_entry. cbn [DB.food_entries].
      now rewrite (first_missing FoodEntry.id _ _ Hgone).
  - intros entry_id Hnot. unfold Crud.delete_food_entry.
    now rewrite (first_missing FoodEntry.id _ _ Hnot).
Qed.

Lemma delete_food_entry_removes_witness :
  exists db',
    Crud.delete_food_entry (FoodEntry.id porridge) snack_db
    = (Py.Return Crud.deleted, db')
    /\ DB.food_entries db' = [apple].
Proof.
  destruct (delete_food_entry_removes snack_db) as [Hfound _].
  - repeat constructor; simpl; intuition discriminate.
  - destruct (Hfound porridge (or_introl eq_refl))
      as (before & after & db' & Hrows & Hrun & Hrest & _).
    exists db'. split; [exact Hrun |].
    cbv in Hrun. injection Hrun as <-. reflexivity.
Defined.

(** X6: when [POST /entries] has created an entry, deleting it under
    the fresh id it was given answers [{"status": "deleted"}] and
    gives back the store there was before the two requests; when the
    database refused the entry, the store is as before already. *)
Theorem create_then_delete_food_entry (db : DB.t) (new_id now : Z)
    (entry : Crud.FoodEntryCreate.t) :
  ~ In new_id (food_ids db) ->
  (forall row,
     fst (Crud.create_food_entry new_id now entry db) = Py.Return row ->
     FoodEntry.id row = new_id
     /\ Crud.delete_food_entry (FoodEntry.id row)
          (snd (Crud.create_food_entry new_id now entry db))
        = (Py.Return [("status", "deleted")], db))
  /\ (forall e,
        fst (Crud.create_food_entry new_id now entry db) = Py.Raise e ->
        snd (Crud.create_food_entry new_id now entry db) = db)
  /\ (food_entry_accepted entry db = true ->
      exists row,
        fst (Crud.create_food_entry new_id now entry db) = Py.Return row).
Proof.
  unfold food_ids. intros Hfresh.
  split; [| split].
  - intros row. unfold Crud.create_food_entry.
    destruct (Sql.refused _ _ _); cbn [fst snd]; [discriminate |].
    intros Hrow. injection Hrow as <-.
    cbn [FoodEntry.id]. split; [reflexivity |].
    unfold Crud.delete_food_entry.
    cbn [snd DB.food_entries DB.users DB.weight_entries].
    rewrite (first_app_missing FoodEntry.id _ _ _ Hfresh).
    cbn. rewrite Z.eqb_refl. f_equal.
    apply db_ext; cbn [DB.food_entries DB.users DB.weight_entries];
      try reflexivity.
    rewrite filter_app. cbn. rewrite Z.eqb_refl. cbn.
    rewrite app_nil_r. now apply (delete_others FoodEntry.id).
  - intros e. unfold Crud.create_food_entry.
    destruct (Sql.refused _ _ _); cbn [fst snd]; [reflexivity | discriminate].
  - intros Hacc. unfold Crud.create_food_entry.
    rewrite (food_entry_accepted_spec entry db Hacc). cbn [fst].
    eexists. reflexivity.
Qed.

Lemma create_then_delete_food_entry_witness :
  Crud.delete_food_entry 5
    (snd (Crud.create_food_entry 5 300
            (log_food 1 monday "lunch" "Soup" 2 120) sample_db))
  = (Py.Return [("status", "deleted")], sample_db).
Proof.
  destruct (create_then_delete_food_entry sample_db 5 300
              (log_food 1 monday "lunch" "Soup" 2 120))
    as (Hdel & _ & Hruns).
  - simpl. intros [E | []]. discriminate E.
  - destruct (Hruns eq_refl) as (row & Hrow).
    destruct (Hdel row Hrow) as (Hid & Hgone).
    rewrite Hid in Hgone. exact Hgone.
Defined.

(** X7: of two updates of the servings of one entry the last one
    wins: the answer and the store after both are those of the second
    update alone (so repeating an update changes nothing more). *)
Theorem update_food_entry_last_wins (db : DB.t) (entry_id : Z)
    (first second : float) :
  update_food_entry entry_id second
    (snd (update_food_entry entry_id first db))
  = update_food_entry entry_id second db.
Proof.
  unfold update_food_entry at 2 3.
  destruct (Query.first _ (DB.food_entries db)) as [entry |] eqn:Efind;
    cbn [snd]; [| unfold update_food_entry; now rewrite Efind].
  pose proof Efind as Hfound. unfold Query.first in Hfound.
  apply find_some in Hfound. destruct Hfound as [_ Hid].
  apply Z.eqb_eq in Hid.
  unfold update_food_entry, commit_food_entry.
  cbn [DB.food_entries DB.users DB.weight_entries FoodEntry.id with_servings].
  rewrite (first_map FoodEntry.id).
  2:{ intros r. destruct (Z.eqb_spec (FoodEntry.id r) (FoodEntry.id entry));
        [symmetry; assumption | reflexivity]. }
  rewrite Efind. cbn [option_map]. rewrite Hid, Z.eqb_refl.
  cbn [FoodEntry.id with_servings]. f_equal.
  apply db_ext; cbn [DB.food_entries DB.users DB.weight_entries];
    try reflexivity.
  rewrite map_map. apply map_ext. intros r.
  destruct (Z.eqb_spec (FoodEntry.id r) entry_id) as [E | E].
  - cbn. rewrite <- Hid in *. now rewrite Z.eqb_refl.
  - apply Z.eqb_neq in E. rewrite <- Hid in E at 1. now rewrite E.
Qed.

End FoodEntryEdges.

(* ================================================================= *)
(** * Users: sign-up, read after write, empty updates *)

Section UserEdges.
Import Routes.

Lemma first_name_missing (name : string) (users : list User.t) :
  ~ In name (map User.name users) ->
  Query.first (fun u => String.eqb (User.name u) name) users = None.
Proof.
  unfold Query.first.
  induction users as [| u users IH]; simpl; [reflexivity |].
  intros Hnot. destruct (String.eqb_spec (User.name u) name) as [E | _].
  - exfalso. apply Hnot. now left.
  - apply IH. intros H. apply Hnot. now right.
Qed.

Lemma first_name_found (name : string) (users : list User.t) :
  In name (map User.name users) ->
  exists u, Query.first (fun u => String.eqb (User.name u) name) users = Some u.
Proof.
  unfold Query.first.
  induction users as [| u users IH]; simpl; [tauto |].
  intros [E | Hin].
  - exists u. rewrite E. now rewrite String.eqb_refl.
  - destruct (String.eqb (User.name u) name); [now exists u | now apply IH].
Qed.

Lemma user_accepted_spec (user : Crud.UserCreate.t) :
  user_accepted user = true ->
  Sql.text (Crud.UserCreate.name user) = true
  /\ Crud.user_fits user = true.
Proof.
  unfold user_accepted, Crud.user_fits. rewrite !andb_true_iff.
  intros [[[[Hn Hc] Hp] Hb] Hf].
  apply string_fits_spec in Hn. destruct Hn as [Hn1 Hn2].
  rewrite int_fits_spec in Hc, Hp, Hb, Hf.
  now rewrite Hn1, Hn2, Hc, Hp, Hb, Hf.
Qed.

(** X8: a sign-up that the database takes (a name of at most 100
    characters, goals that are 32-bit integers) keeps user names (and
    primary keys) unique: a name that is taken is refused with 400
    and the store is as before; a new name is stored with the goals of
    the request, can be read back under its id, and is taken from
    then on. *)
Theorem create_user_unique_names (db : DB.t) (new_id now : Z)
    (user : Crud.UserCreate.t) :
  user_accepted user = true ->
  NoDup (user_names db) ->
  NoDup (user_ids db) ->
  ~ In new_id (user_ids db) ->
  let db' := snd (Crud.create_user new_id now user db) in
  NoDup (user_names db')
  /\ NoDup (user_ids db')
  /\ (In (Crud.UserCreate.name user) (user_names db) ->
        Crud.create_user new_id now user db
        = (Py.Raise (Py.HTTPException 400 "User already exists"), db))
  /\ (~ In (Crud.UserCreate.name user) (user_names db) ->
        exists row,
          fst (Crud.create_user new_id now user db) = Py.Return row
          /\ Permutation (DB.users db') (row :: DB.users db)
          /\ DB.food_entries db' = DB.food_entries db
          /\ DB.weight_entries db' = DB.weight_entries db
          /\ User.id row = new_id
          /\ User.name row = Crud.UserCreate.name user
          /\ User.calorie_goal row = Crud.UserCreate.calorie_goal user
          /\ User.protein_goal row = Crud.UserCreate.protein_goal user
          /\ User.carb_goal row = Crud.UserCreate.carb_goal user
          /\ User.fat_goal row = Crud.UserCreate.fat_goal user
          /\ Crud.get_user new_id db' = Py.Return row
          /\ forall id' now',
               Crud.create_user id' now' user db'
               = (Py.Raise (Py.HTTPException 400 "User already exists"), db')).
Proof.
  intros Hacc Hnames Hids Hfresh db'. unfold user_names, user_ids in *.
  destruct (user_accepted_spec user Hacc) as [Htext Hfits].
  assert (Htaken : In (Crud.UserCreate.name user) (map User.name (DB.users db)) ->
            Crud.create_user new_id now user db
            = (Py.Raise (Py.HTTPException 400 "User already exists"), db)).
  { intros Hin. unfold Crud.create_user. rewrite Htext. cbn [negb].
    destruct (first_name_found _ _ Hin) as (u & ->). reflexivity. }
  assert (Hnew : ~ In (Crud.UserCreate.name user) (map User.name (DB.users db)) ->
            Crud.create_user new_id now user db
            = (Py.Return
                 {| User.id := new_id;
                    User.name := Crud.UserCreate.name user;
                    User.calorie_goal := Crud.UserCreate.calorie_goal user;
                    User.protein_goal := Crud.UserCreate.protein_goal user;
                    User.carb_goal := Crud.UserCreate.carb_goal user;
                    User.fat_goal := Crud.UserCreate.fat_goal user;
                    User.created_at := now |},
               {| DB.users :=
                    DB.users db
                    ++ [{| User.id := new_id;
                           User.name := Crud.UserCreate.name user;
                           User.calorie_goal := Crud.UserCreate.calorie_goal user;
                           User.protein_goal := Crud.UserCreate.protein_goal user;
                           User.carb_goal := Crud.UserCreate.carb_goal user;
                           User.fat_goal := Crud.UserCreate.fat_goal user;
                           User.created_at := now |}];
                  DB.food_entries := DB.food_entries db;
                  DB.weight_entries := DB.weight_entries db |})).
  { intros Hnot. unfold Crud.create_user, Sql.refused.
    rewrite Htext, Hfits. cbn [negb].
    now rewrite (first_name_missing _ _ Hnot). }
  assert (Hcases : In (Crud.UserCreate.name user) (map User.name (DB.users db))
                   \/ ~ In (Crud.UserCreate.name user)
                          (map User.name (DB.users db))).
  { destruct (in_dec string_dec (Crud.UserCreate.name user)
                (map User.name (DB.users db))); auto. }
  split; [| split; [| split; [exact Htaken |]]].
  - subst db'. destruct Hcases as [H | H].
    + now rewrite (Htaken H).
    + rewrite (Hnew H). cbn [snd DB.users]. rewrite map_app.
      apply NoDup_app; [exact Hnames | repeat constructor; auto |].
      intros a Ha [<- | []]. contradiction.
  - subst db'. destruct Hcases as [H | H].
    + now rewrite (Htaken H).
    + rewrite (Hnew H). cbn [snd DB.users]. rewrite map_app.
      apply NoDup_app; [exact Hids | repeat constructor; auto |].
      intros a Ha [<- | []]. contradiction.
  - intros Hnot. subst db'. rewrite (Hnew Hnot). cbn [fst snd].
    eexists. split; [reflexivity |].
    cbn [DB.users DB.food_entries DB.weight_entries User.name User.id
         User.calorie_goal User.protein_goal User.carb_goal User.fat_goal].
    split; [apply Permutation_sym, Permutation_cons_append |].
    repeat (split; [reflexivity |]). split.
    + unfold Crud.get_user. cbn [DB.users].
      rewrite (first_app_missing User.id _ _ _ Hfresh).
      cbn. now rewrite Z.eqb_refl.
    + intros id' now'. unfold Crud.create_user. cbn [DB.users].
      rewrite Htext. cbn [negb].
      destruct (first_name_found (Crud.UserCreate.name user)
                  (DB.users db
                   ++ [{| User.id := new_id;
                          User.name := Crud.UserCreate.name user;
                          User.calorie_goal := Crud.UserCreate.calorie_goal user;
                          User.protein_goal := Crud.UserCreate.protein_goal user;
                          User.carb_goal := Crud.UserCreate.carb_goal user;
                          User.fat_goal := Crud.UserCreate.fat_goal user;
                          User.created_at := now |}])) as (u & ->);
        [| reflexivity].
      rewrite map_app. apply in_or_app. right. now left.
Qed.

Lemma create_user_unique_names_witness :
  Crud.create_user 2 50 (sign_up "alice") sample_db
  = (Py.Raise (Py.HTTPException 400 "User already exists"), sample_db)
  /\ exists row,
       fst (Crud.create_user 2 50 (sign_up "bob") sample_db) = Py.Return row
       /\ User.name row = "bob".
Proof.
  destruct (create_user_unique_names sample_db 2 50 (sign_up "alice"))
    as (_ & _ & Htaken & _);
    [reflexivity | repeat constructor; intros []
    | repeat constructor; intros []
    | simpl; intros [E | []]; discriminate E |].
  destruct (create_user_unique_names sample_db 2 50 (sign_up "bob"))
    as (_ & _ & _ & Hnew);
    [reflexivity | repeat constructor; intros []
    | repeat constructor; intros []
    | simpl; intros [E | []]; discriminate E |].
  split.
  - apply Htaken. now left.
  - destruct Hnew as (row & Hrow & _ & _ & _ & _ & Hname & _).
    + simpl. intros [E | []]. discriminate E.
    + exists row. split; [exact Hrow | exact Hname].
Defined.

Lemma commit_user_same (db : DB.t) (user : User.t) :
  NoDup (user_ids db) -> In user (DB.users db) -> commit_user user db = db.
Proof.
  unfold user_ids. intros Hids Hin.
  destruct (rewrite_row User.id _ user user Hids Hin eq_refl)
    as (before & after & Hrows & Hmap).
  apply db_ext; unfold commit_user;
    cbn [DB.users DB.food_entries DB.weight_entries]; try reflexivity.
  now rewrite Hmap.
Qed.

(** X9: with unique primary keys, a user read after a goal update is
    the user the update returned. *)
Theorem get_user_after_update (db db' : DB.t) (user_id : Z)
    (user_update : UserUpdate.t) (user' : User.t) :
  NoDup (user_ids db) ->
  update_user user_id user_update db = (Py.Return user', db') ->
  Crud.get_user user_id db' = Py.Return user'
  /\ user_ids db' = user_ids db.
Proof.
  unfold user_ids. intros Hids Hrun. unfold update_user in Hrun.
  destruct (Query.first _ (DB.users db)) as [user |] eqn:Efind;
    [| discriminate].
  pose proof Efind as Hfound. unfold Query.first in Hfound.
  apply find_some in Hfound. destruct Hfound as [Hin Hid].
  apply Z.eqb_eq in Hid.
  destruct (forallb goal_fits _); [| discriminate].
  injection Hrun as Huser Hdb.
  assert (Hid' : User.id user' = User.id user).
  { rewrite <- Huser. unfold UserUpdate.dict_exclude_unset.
    destruct user_update as [[| [c |]] [| [p |]] [| [b |]] [| [f |]]];
      reflexivity. }
  rewrite Huser in Hdb.
  destruct (rewrite_row User.id _ user user' Hids Hin Hid')
    as (before & after & Hrows & Hmap).
  assert (Hrows' : DB.users db' = before ++ user' :: after).
  { rewrite <- Hdb. unfold commit_user. cbn [DB.users]. exact Hmap. }
  assert (Hsame : map User.id (DB.users db') = map User.id (DB.users db)).
  { rewrite Hrows', Hrows, !map_app. simpl. now rewrite Hid'. }
  split; [| exact Hsame].
  unfold Crud.get_user. rewrite <- Hid, <- Hid'.
  rewrite (first_unique User.id); [reflexivity | now rewrite Hsame |].
  rewrite Hrows'. apply in_or_app. right. now left.
Qed.

Lemma get_user_after_update_witness :
  Crud.get_user 1 (snd (update_user 1 protein_180 sample_db))
  = fst (update_user 1 protein_180 sample_db).
Proof.
  destruct (get_user_after_update sample_db
              (snd (update_user 1 protein_180 sample_db)) 1 protein_180
              {| User.id := 1; User.name := "alice";
                 User.calorie_goal := 2000; User.protein_goal := 180;
                 User.carb_goal := 200; User.fat_goal := 65;
                 User.created_at := 0 |}) as [Hget _].
  - repeat constructor. intros [].
  - reflexivity.
  - rewrite Hget. reflexivity.
Defined.

(** X10: with unique primary keys, a goal update that sends no field,
    or only [null] fields, returns the user and leaves the whole store
    as it was. *)
Theorem update_user_sets_nothing (db : DB.t) (user : User.t)
    (user_update : UserUpdate.t) :
  NoDup (user_ids db) ->
  In user (DB.users db) ->
  sets_nothing user_update ->
  update_user (User.id user) user_update db = (Py.Return user, db).
Proof.
  intros Hids Hin Hnothing. unfold update_user.
  rewrite (first_unique User.id _ _ Hids Hin).
  assert (Hfold : forall items u,
            Forall (fun kv : string * option Z => snd kv = None) items ->
            fold_left
              (fun user (kv : string * option Z) =>
                 match snd kv with
                 | Some value => setattr user (fst kv) value
                 | None => user
                 end) items u = u).
  { induction items as [| kv items IH]; intros u Hall; simpl; [reflexivity |].
    inversion Hall as [| ? ? Hkv Hrest]; subst. rewrite Hkv. now apply IH. }
  rewrite (Hfold _ user Hnothing).
  assert (Hfits : forallb goal_fits
                    (UserUpdate.dict_exclude_unset user_update) = true).
  { apply forallb_forall. intros kv Hkv.
    unfold sets_nothing in Hnothing. rewrite Forall_forall in Hnothing.
    unfold goal_fits. now rewrite (Hnothing kv Hkv). }
  rewrite Hfits.
  now rewrite (commit_user_same db user Hids Hin).
Qed.

Lemma update_user_sets_nothing_witness :
  update_user (User.id alice) protein_null sample_db
  = (Py.Return alice, sample_db).
Proof.
  apply (update_user_sets_nothing sample_db alice protein_null).
  - repeat constructor. intros [].
  - now left.
  - repeat constructor.
Defined.

End UserEdges.

(* ================================================================= *)
(** * Weight log: repeated requests, the latest entries, deletion *)

Section WeightEdges.
Import Routes.

Lemma commit_weight_entry_same (db : DB.t) (row : WeightEntry.t) :
  NoDup (weight_ids db) -> In row (DB.weight_entries db) ->
  commit_weight_entry row db = db.
Proof.
  unfold weight_ids. intros Hids Hin.
  destruct (rewrite_row WeightEntry.id _ row row Hids Hin eq_refl)
    as (before & after & Hrows & Hmap).
  apply db_ext; unfold commit_weight_entry;
    cbn [DB.users DB.food_entries DB.weight_entries]; try reflexivity.
  now rewrite Hmap.
Qed.

(** X11: the weight log is idempotent: in a store with unique primary
    keys and at most one entry per (user, date), sending the request a
    second time returns the record of the first time and leaves the
    store as the first time left it. *)
Theorem weight_log_idempotent (db : DB.t) (id1 id2 now1 now2 : Z)
    (entry : WeightEntryCreate.t) :
  NoDup (weight_ids db) ->
  one_per_day db ->
  ~ In id1 (weight_ids db) ->
  create_weight_entry id2 now2 entry
    (snd (create_weight_entry id1 now1 entry db))
  = create_weight_entry id1 now1 entry db.
Proof.
  intros Hids Hkeys Hfresh.
  destruct (fst (create_weight_entry id1 now1 entry db)) as [row | e] eqn:Hres.
  2:{ rewrite (upsert_raises db id1 now1 entry e Hres id1 now1). cbn [snd].
      exact (upsert_raises db id1 now1 entry e Hres id2 now2). }
  destruct (upsert_spec db id1 now1 entry row Hids Hkeys Hfresh Hres)
    as (Hids1 & _ & _ & _ & _ & Hlog & _ & Hw & Hn & _).
  pose proof (upsert_returns_note db id1 now1 entry row Hres) as Hnote.
  destruct (create_weight_entry id1 now1 entry db) as [res db1] eqn:Erun.
  cbn [fst snd] in *. subst res.
  unfold create_weight_entry. rewrite first_is_head.
  unfold logged in Hlog. rewrite Hlog. cbn [hd_error].
  rewrite Hnote.
  assert (Hrow : with_weight_note row
                   (Sql.float8 (WeightEntryCreate.weight entry))
                   (WeightEntryCreate.note entry) = row).
  { destruct row. cbn in Hw, Hn |- *. unfold with_weight_note. cbn.
    now rewrite Hw, Hn. }
  rewrite Hrow. f_equal.
  apply commit_weight_entry_same; [exact Hids1 |].
  assert (Hin : In row (filter
                          (fun w => (WeightEntry.user_id w
                                     =? WeightEntryCreate.user_id entry)
                                    && (WeightEntry.date w
                                        =? WeightEntryCreate.date entry))
                          (DB.weight_entries db1)))
    by (rewrite Hlog; now left).
  apply filter_In in Hin. exact (proj1 Hin).
Qed.

Lemma weight_log_idempotent_witness :
  create_weight_entry 9 90 (weigh 1 monday 80.5 None)
    (snd (create_weight_entry 4 40 (weigh 1 monday 80.5 None) weight_db))
  = create_weight_entry 4 40 (weigh 1 monday 80.5 None) weight_db.
Proof.
  apply (weight_log_idempotent weight_db 4 9 40 90).
  - repeat constructor; simpl; intuition discriminate.
  - unfold one_per_day. cbv [weight_db DB.weight_entries map weight_key
      weighed WeightEntry.user_id WeightEntry.date].
    repeat constructor; simpl; intros H;
      repeat (destruct H as [H | H]; [inversion H |]); try exact H;
      try discriminate.
  - simpl. intuition discriminate.
Defined.






(** X13: with unique primary keys, deleting a stored weight entry
    removes that row alone and keeps at most one entry per (user,
    date); when the store had that property, nothing is logged for the
    user and date of the deleted entry any more.  Deleting an id no
    entry has fails with 404 and the store is as before. *)
Theorem delete_weight_entry_removes (db : DB.t) :
  NoDup (weight_ids db) ->
  one_per_day db ->
  (forall entry, In entry (DB.weight_entries db) ->
     exists before after db',
       DB.weight_entries db = before ++ entry :: after
       /\ Crud.delete_weight_entry (WeightEntry.id entry) db
          = (Py.Return Crud.deleted, db')
       /\ DB.weight_entries db' = before ++ after
       /\ DB.users db' = DB.users db
       /\ DB.food_entries db' = DB.food_entries db
       /\ one_per_day db'
       /\ NoDup (weight_ids db')
       /\ logged (WeightEntry.user_id entry) (WeightEntry.date entry) db' = [])
  /\ (forall entry_id, ~ In entry_id (weight_ids db) ->
        Crud.delete_weight_entry entry_id db
        = (Py.Raise (Py.HTTPException 404 "Entry not found"), db)).
Proof.
  unfold weight_ids, one_per_day. intros Hids Hkeys. split.
  - intros entry Hin.
    destruct (delete_row WeightEntry.id _ entry Hids Hin)
      as (before & after & Hrows & Hdel & _ & Hids').
    exists before, after. eexists. split; [exact Hrows |]. split.
    { unfold Crud.delete_weight_entry.
      rewrite (first_unique WeightEntry.id _ _ Hids Hin). reflexivity. }
    cbn [DB.food_entries DB.users DB.weight_entries]. unfold logged.
    cbn [DB.weight_entries]. rewrite Hdel.
    split; [reflexivity |]. split; [reflexivity |]. split; [reflexivity |].
    rewrite Hrows, map_app in Hkeys. simpl in Hkeys.
    pose proof (NoDup_remove_1 _ _ _ Hkeys) as Hkeys'.
    pose proof (NoDup_remove_2 _ _ _ Hkeys) as Hgone.
    rewrite <- map_app in Hkeys', Hgone.
    split; [exact Hkeys' |]. split; [exact Hids' |].
    exact (filter_key_none (weight_key entry) (before ++ after) Hgone).
  - intros entry_id Hnot. unfold Crud.delete_weight_entry.
    now rewrite (first_missing WeightEntry.id _ _ Hnot).
Qed.

Lemma delete_weight_entry_removes_witness :
  exists db',
    Crud.delete_weight_entry 2 weight_db = (Py.Return Crud.deleted, db')
    /\ logged 1 monday db' = [].
Proof.
  destruct (delete_weight_entry_removes weight_db) as [Hfound _].
  - repeat constructor; simpl; intuition discriminate.
  - unfold one_per_day. cbv [weight_db DB.weight_entries map weight_key
      weighed WeightEntry.user_id WeightEntry.date].
    repeat constructor; simpl; intros H;
      repeat (destruct H as [H | H]; [inversion H |]); try exact H;
      try discriminate.
  - destruct (Hfound (weighed 2 monday 81)) as
      (before & after & db' & _ & Hrun & _ & _ & _ & _ & _ & Hlog).
    + simpl. auto.
    + exists db'. split; [exact Hrun | exact Hlog].
Defined.

End WeightEdges.

(* ================================================================= *)
(** * The normalizer on payloads of every shape *)

Section NormalizerEdges.
Import OpenFoodFacts.

Lemma raw_item_product (product : Dict.t value) :
  raw_item (VDict product) = true <-> raw_product product.
Proof.
  unfold raw_item, raw_product.
  destruct (Dict.get "nutriments" product) as [[] |]; simpl;
    split; intros H; try exact I; try reflexivity;
    try discriminate; try contradiction.
Qed.

Lemma search_step_not_raw (facts : list fact) (item : value) :
  raw_item item = false -> search_step facts item = Py.Raise Py.AttributeError.
Proof.
  destruct item as [| b | z | f | s | l | product]; try reflexivity.
  unfold raw_item, search_step. rewrite !get_dict.
  destruct (Dict.get "nutriments" product) as [[] |]; simpl;
    intros H; try discriminate; reflexivity.
Qed.

(** The loop of [search_food] returns one fact per item when every
    item is a raw product, and raises otherwise. *)
Lemma search_loop_cases (items : list value) :
  forall facts,
    (forallb raw_item items = true
     /\ exists more,
          Py.for_each search_step items facts = Py.Return (facts ++ more)
          /\ List.length more = List.length items)
    \/ (forallb raw_item items = false
        /\ Py.for_each search_step items facts = Py.Raise Py.AttributeError).
Proof.
  induction items as [| item items IH]; intros facts.
  - left. split; [reflexivity |]. exists []. now rewrite app_nil_r.
  - cbn [forallb Py.for_each].
    destruct (raw_item item) eqn:Eitem.
    + destruct item as [| | | | | | product]; try discriminate Eitem.
      rewrite (search_step_canonical facts product)
        by (now apply raw_item_product).
      cbn [Py.bind andb].
      destruct (IH (facts ++ [canonical product]))
        as [(Hall & more & Hrun & Hlen) | (Hsome & Hraise)].
      * left. split; [exact Hall |].
        exists (canonical product :: more). rewrite Hrun, <- app_assoc.
        split; [reflexivity | simpl; now rewrite Hlen].
      * right. split; [exact Hsome | exact Hraise].
    + right. split; [reflexivity |].
      now rewrite (search_step_not_raw facts item Eitem).
Qed.

(** X14: a search is all or nothing: when every item of the upstream
    product list is a raw product (an object whose [nutriments], if
    there, is an object) it returns one fact per item with the count
    and the page of the request; when one item is not, it raises
    [AttributeError] and returns no fact at all. *)
Theorem search_all_or_nothing (data : Dict.t value) (items : list value)
    (page page_size : Z) :
  Dict.get "products" data = Some (VList items) ->
  (forallb raw_item items = true ->
     exists facts,
       search_food (ok_response (VDict data)) page page_size
       = Py.Return {| products := facts;
                      count := or_default (VInt 0) (Dict.get "count" data);
                      page := Some page;
                      page_size := Some page_size |}
       /\ List.length facts = List.length items)
  /\ (forallb raw_item items = false ->
        search_food (ok_response (VDict data)) page page_size
        = Py.Raise Py.AttributeError).
Proof.
  intros Hproducts.
  assert (Hrun :
    search_food (ok_response (VDict data)) page page_size
    = (products <- Py.for_each search_step items [] ;;
       Py.Return {| products := products;
                    count := or_default (VInt 0) (Dict.get "count" data);
                    page := Some page;
                    page_size := Some page_size |})).
  { unfold search_food, ok_response, json.
    cbn [Py.bind status_code body Z.eqb Pos.eqb negb].
    rewrite !get_dict, Hproducts. reflexivity. }
  rewrite Hrun.
  destruct (search_loop_cases items [])
    as [(Hall & more & Hloop & Hlen) | (Hsome & Hraise)]; split; intros H;
    try congruence.
  - rewrite Hloop. exists more. split; [reflexivity | exact Hlen].
  - now rewrite Hraise.
Qed.

Lemma search_all_or_nothing_witness :
  search_food
    (ok_response
       (VDict [("products",
                VList [VDict [("code", VStr "1")]; VStr "oops"])]))
    1 20
  = Py.Raise Py.AttributeError.
Proof.
  destruct (search_all_or_nothing
              [("products", VList [VDict [("code", VStr "1")]; VStr "oops"])]
              [VDict [("code", VStr "1")]; VStr "oops"] 1 20 eq_refl)
    as [_ Hraise].
  exact (Hraise eq_refl).
Defined.

(** X15: a 200 response whose JSON document is not an object makes
    search and barcode lookup raise [AttributeError]; an object
    without [products] is a search with no products, with the page
    and page size of the request (which the result for a status other
    than 200 does not carry); [products] that is [null], a boolean or
    a number makes search raise [TypeError]. *)
Theorem search_unexpected_documents (data : value) (page page_size : Z) :
  (is_object data = false ->
     search_food (ok_response data) page page_size
     = Py.Raise Py.AttributeError
     /\ get_product_by_barcode (ok_response data)
        = Py.Raise Py.AttributeError)
  /\ (forall d, data = VDict d -> Dict.get "products" d = None ->
        search_food (ok_response data) page page_size
        = Py.Return {| products := [];
                       count := or_default (VInt 0) (Dict.get "count" d);
                       page := Some page;
                       page_size := Some page_size |})
  /\ (forall d listed, data = VDict d ->
        Dict.get "products" d = Some listed -> is_scalar listed = true ->
        search_food (ok_response data) page page_size
        = Py.Raise Py.TypeError).
Proof.
  split; [| split].
  - intros Hshape. destruct data; try discriminate Hshape;
      split; reflexivity.
  - intros d -> Hnone.
    unfold search_food, ok_response, json.
    cbn [Py.bind status_code body Z.eqb Pos.eqb negb].
    rewrite !get_dict, Hnone. reflexivity.
  - intros d listed -> Hsome Hscalar.
    unfold search_food, ok_response, json.
    cbn [Py.bind status_code body Z.eqb Pos.eqb negb].
    rewrite !get_dict, Hsome.
    destruct listed; try discriminate Hscalar; reflexivity.
Qed.

Lemma search_unexpected_documents_witness :
  search_food (ok_response (VList [])) 1 20 = Py.Raise Py.AttributeError
  /\ search_food (ok_response (VDict [("products", VNone)])) 1 20
     = Py.Raise Py.TypeError.
Proof.
  destruct (search_unexpected_documents (VList []) 1 20) as (Hshape & _).
  destruct (search_unexpected_documents (VDict [("products", VNone)]) 1 20)
    as (_ & _ & Hscalar).
  split.
  - exact (proj1 (Hshape eq_refl)).
  - exact (Hscalar _ VNone eq_refl eq_refl eq_refl).
Defined.

(** X16: what upstream gives for a field is handed on as it is, of
    whatever type: the default stands in for a missing key only, so a
    display name that is present as [null] stays [None] and is not
    given the placeholder. *)
Theorem barcode_fields_verbatim (data product : Dict.t value)
    (status : value) :
  Dict.get "status" data = Some status -> ne_one status = false ->
  Dict.get "product" data = Some (VDict product) ->
  raw_product product ->
  exists f,
    get_product_by_barcode (ok_response (VDict data)) = Py.Return (Some f)
    /\ (forall v, Dict.get "code" product = Some v -> barcode f = v)
    /\ (forall v, Dict.get "product_name" product = Some v -> name f = v)
    /\ (forall v, Dict.get "brands" product = Some v -> brand f = v)
    /\ (forall v, Dict.get "image_front_small_url" product = Some v ->
          image_url f = v)
    /\ (forall v, Dict.get "serving_size" product = Some v ->
          serving_size f = v)
    /\ (forall v, Dict.get "energy-kcal_100g" (nutrient_map product) = Some v ->
          calories_per_100g f = v)
    /\ (forall v, Dict.get "proteins_100g" (nutrient_map product) = Some v ->
          protein_per_100g f = v)
    /\ (forall v, Dict.get "carbohydrates_100g" (nutrient_map product) = Some v ->
          carbs_per_100g f = v)
    /\ (forall v, Dict.get "fat_100g" (nutrient_map product) = Some v ->
          fat_per_100g f = v)
    /\ (forall v, Dict.get "fiber_100g" (nutrient_map product) = Some v ->
          fiber_per_100g f = v)
    /\ (forall v, Dict.get "sugars_100g" (nutrient_map product) = Some v ->
          sugar_per_100g f = v)
    /\ (Dict.get "code" product = None -> barcode f = VNone).
Proof.
  intros Hstatus Hone Hfound Hraw.
  exists (canonical product). split.
  - unfold get_product_by_barcode, ok_response, json.
    cbn [Py.bind status_code body Z.eqb Pos.eqb negb].
    rewrite get_dict, Hstatus. cbn [Py.bind or_default]. rewrite Hone.
    rewrite get_dict, Hfound. cbn [Py.bind or_default].
    rewrite (get_nutriments product Hraw).
    cbn [Py.bind]. rewrite !get_dict. reflexivity.
  - unfold canonical.
    cbn [barcode name brand image_url serving_size calories_per_100g
         protein_per_100g carbs_per_100g fat_per_100g fiber_per_100g
         sugar_per_100g].
    repeat (split; [intros v ->; reflexivity |]).
    intros ->. reflexivity.
Qed.

Lemma barcode_fields_verbatim_witness :
  exists f,
    get_product_by_barcode
      (ok_response (found (VDict [("product_name", VNone)])))
    = Py.Return (Some f)
    /\ name f = VNone.
Proof.
  destruct (barcode_fields_verbatim
              [("status", VInt 1);
               ("product", VDict [("product_name", VNone)])]
              [("product_name", VNone)] (VInt 1) eq_refl eq_refl eq_refl I)
    as (f & Hrun & _ & Hname & _).
  exists f. split; [exact Hrun | exact (Hname VNone eq_refl)].
Defined.

End NormalizerEdges.

(* ================================================================= *)
(** * Favorites, and the listing over a date range *)

Section FavoritesAndRange.
Import Routes.

(** A favorite the database takes is not refused. *)
Lemma favorite_accepted_spec (favorite : Crud.FavoriteFoodCreate.t)
    (db : DB.t) :
  favorite_accepted favorite db = true ->
  Sql.refused (Crud.favorite_sendable favorite) (Crud.favorite_fits favorite)
    (Sql.has_user (Crud.FavoriteFoodCreate.user_id favorite) db)
  = None.
Proof.
  unfold favorite_accepted. rewrite !andb_true_iff.
  intros [[[[[[[Hu Hint] Hn] Hb] Hc] Hs] He] Hi].
  apply string_fits_spec in Hn, Hs.
  apply optional_fits_spec in Hb, Hc, He, Hi.
  rewrite int_fits_spec in Hint.
  destruct Hn as [Hn1 Hn2], Hs as [Hs1 Hs2],
    Hb as [Hb1 Hb2], Hc as [Hc1 Hc2], He as [He1 He2], Hi as [Hi1 Hi2].
  unfold Sql.refused, Crud.favorite_sendable, Crud.favorite_fits,
    Sql.has_user.
  unfold user_exists in Hu.
  now rewrite Hu, Hint, Hn1, Hn2, Hs1, Hs2, Hb1, Hb2, Hc1, Hc2,
    He1, He2, Hi1, Hi2.
Qed.

(** X17: a favorite that the database takes (its user exists, its
    strings fit their columns) is listed for its user, once more than
    before, and changes the listing of no other user and no other
    table; removing it under the fresh id it was given answers
    [{"status": "deleted"}] and gives back the store there was;
    removing an id no favorite has fails with 404 and the store is as
    before. *)
Theorem favorites_add_remove (store : Crud.Store.t) (new_id now : Z)
    (favorite : Crud.FavoriteFoodCreate.t) :
  favorite_accepted favorite (Crud.Store.db store) = true ->
  ~ In new_id (map FavoriteFood.id (Crud.Store.favorite_foods store)) ->
  let user_id := Crud.FavoriteFoodCreate.user_id favorite in
  let store' := snd (Crud.add_favorite new_id now favorite store) in
  (exists row,
     fst (Crud.add_favorite new_id now favorite store) = Py.Return row
     /\ Permutation (Crud.Store.favorite_foods store')
          (row :: Crud.Store.favorite_foods store)
     /\ Crud.Store.db store' = Crud.Store.db store
     /\ FavoriteFood.id row = new_id
     /\ FavoriteFood.user_id row = user_id
     /\ FavoriteFood.name row = Crud.FavoriteFoodCreate.name favorite
     /\ Permutation (Crud.get_favorites user_id store')
          (row :: Crud.get_favorites user_id store))
  /\ (forall other, other <> user_id ->
        Crud.get_favorites other store' = Crud.get_favorites other store)
  /\ Crud.remove_favorite new_id store'
     = (Py.Return [("status", "deleted")], store)
  /\ Crud.remove_favorite new_id store
     = (Py.Raise (Py.HTTPException 404 "Favorite not found"), store).
Proof.
  intros Hacc Hfresh user_id store'. subst store'.
  unfold Crud.add_favorite.
  rewrite (favorite_accepted_spec favorite _ Hacc).
  cbn [fst snd].
  set (row := {| FavoriteFood.id := new_id |}) in *.
  destruct store as [db table]. cbn [Crud.Store.db Crud.Store.favorite_foods] in *.
  split; [| split; [| split]].
  - exists row. split; [reflexivity |].
    cbn [Crud.Store.db Crud.Store.favorite_foods].
    split; [apply Permutation_sym, Permutation_cons_append |].
    repeat (split; [reflexivity |]).
    unfold Crud.get_favorites. cbn [Crud.Store.favorite_foods].
    rewrite !order_by_perm.
    rewrite filter_app. cbn. fold user_id. rewrite Z.eqb_refl.
    apply Permutation_sym, Permutation_cons_append.
  - intros other Hother. unfold Crud.get_favorites.
    cbn [Crud.Store.favorite_foods].
    rewrite filter_app. cbn. fold user_id.
    destruct (Z.eqb_spec user_id other); [congruence |].
    now rewrite app_nil_r.
  - unfold Crud.remove_favorite.
    cbn [Crud.Store.db Crud.Store.favorite_foods].
    rewrite (first_app_missing FavoriteFood.id _ _ _ Hfresh).
    cbn. rewrite Z.eqb_refl. cbn.
    rewrite filter_app. cbn. rewrite Z.eqb_refl. cbn.
    rewrite app_nil_r.
    now rewrite (delete_others FavoriteFood.id new_id table Hfresh).
  - unfold Crud.remove_favorite. cbn [Crud.Store.favorite_foods].
    now rewrite (first_missing FavoriteFood.id _ _ Hfresh).
Qed.

Lemma favorites_add_remove_witness :
  (exists row,
     fst (Crud.add_favorite 2 50 (favor 1 "Skyr") favorites_db)
     = Py.Return row
     /\ FavoriteFood.name row = "Skyr")
  /\ Crud.remove_favorite 2
       (snd (Crud.add_favorite 2 50 (favor 1 "Skyr") favorites_db))
     = (Py.Return [("status", "deleted")], favorites_db).
Proof.
  destruct (favorites_add_remove favorites_db 2 50 (favor 1 "Skyr"))
    as ((row & Hrow & _ & _ & _ & _ & Hname & _) & _ & H & _).
  - reflexivity.
  - simpl. intros [E | []]. discriminate E.
  - split; [exists row; split; assumption | exact H].
Defined.

(** Requests the database refuses, run: a meal type of 26
    characters, an entry and a favorite for a user id that no user
    has, a name of 101 characters and a goal of 2^31. *)
Example create_food_entry_refused :
  Crud.create_food_entry 5 300
    (log_food 1 monday "abcdefghijklmnopqrstuvwxyz" "Eggs" 1 150) sample_db
  = (Py.Raise Py.DataError, sample_db)
  /\ Crud.create_food_entry 5 300
       (log_food 42 monday "lunch" "Soup" 1 150) sample_db
     = (Py.Raise Py.IntegrityError, sample_db).
Proof. split; reflexivity. Qed.

Example create_user_refused :
  String.length (Crud.UserCreate.name (sign_up long_name)) = 101%nat
  /\ Crud.create_user 2 50 (sign_up long_name) sample_db
     = (Py.Raise Py.DataError, sample_db)
  /\ Crud.create_user 2 50
       {| Crud.UserCreate.name := "bob";
          Crud.UserCreate.calorie_goal := 2147483648;
          Crud.UserCreate.protein_goal := 150;
          Crud.UserCreate.carb_goal := 200;
          Crud.UserCreate.fat_goal := 65 |} sample_db
     = (Py.Raise Py.DataError, sample_db).
Proof. repeat split. Qed.

Example add_favorite_refused :
  Crud.add_favorite 2 50 (favor 42 "Skyr") favorites_db
  = (Py.Raise Py.IntegrityError, favorites_db).
Proof. reflexivity. Qed.

(** X18: the entry listing returns entries of the user alone, dated
    within the bounds that are given; bounds that cross (a [date_to]
    before the [date_from]) give the empty list, not an error. *)
Theorem get_food_entries_range (user_id : Z)
    (date_from date_to : option Date.date) (db : DB.t) :
  (forall e,
     In e (get_food_entries user_id date_from date_to db)
     <-> In e (DB.food_entries db)
         /\ FoodEntry.user_id e = user_id
         /\ (forall d, date_from = Some d -> d <= FoodEntry.date e)
         /\ (forall d, date_to = Some d -> FoodEntry.date e <= d))
  /\ (forall a b, date_from = Some a -> date_to = Some b -> b < a ->
        get_food_entries user_id date_from date_to db = []).
Proof.
  assert (Hmem : forall e,
    In e (get_food_entries user_id date_from date_to db)
    <-> In e (DB.food_entries db)
        /\ FoodEntry.user_id e = user_id
        /\ (forall d, date_from = Some d -> d <= FoodEntry.date e)
        /\ (forall d, date_to = Some d -> FoodEntry.date e <= d)).
  { intros e. unfold get_food_entries. rewrite in_order_by.
    destruct date_from as [a |], date_to as [b |];
      rewrite ?filter_In, ?Z.eqb_eq, ?Z.leb_le; split;
      try (intros (H1 & H2 & H3 & H4); repeat split; auto; fail);
      intros H; decompose [and] H; clear H;
      repeat split; try assumption; intros d E;
      first [discriminate E | injection E as <-; assumption]. }
  split; [exact Hmem |].
  intros a b Ea Eb Hcross.
  destruct (get_food_entries user_id date_from date_to db) as [| e rest] eqn:E;
    [reflexivity |].
  exfalso.
  assert (Hin : In e (e :: rest)) by now left.
  apply Hmem in Hin. destruct Hin as (_ & _ & Hfrom & Hto).
  specialize (Hfrom a Ea). specialize (Hto b Eb). lia.
Qed.

Lemma get_food_entries_range_witness :
  get_food_entries 1 (Some (monday + 1)) (Some monday) snack_db = [].
Proof.
  destruct (get_food_entries_range 1 (Some (monday + 1)) (Some monday) snack_db)
    as [_ Hcross].
  apply (Hcross (monday + 1) monday eq_refl eq_refl). lia.
Defined.

End FavoritesAndRange.

(* ================================================================= *)
(** * The order of entries within a meal *)

Section BucketOrder.
Import Routes.

Lemma ltb_lt (s t : string) :
  String.ltb s t = true <-> OrderedTypeEx.String_as_OT.lt s t.
Proof.
  unfold String.ltb. rewrite <- OrderedTypeEx.String_as_OT.cmp_lt.
  unfold OrderedTypeEx.String_as_OT.cmp.
  destruct (String.compare s t); split; intros H; congruence.
Qed.

Lemma meal_type_created_spec (a b : FoodEntry.t) :
  meal_type_created a b = true
  <-> OrderedTypeEx.String_as_OT.lt (FoodEntry.meal_type a) (FoodEntry.meal_type b)
      \/ (FoodEntry.meal_type a = FoodEntry.meal_type b
          /\ FoodEntry.created_at a <= FoodEntry.created_at b).
Proof.
  unfold meal_type_created.
  now rewrite orb_true_iff, andb_true_iff, ltb_lt, String.eqb_eq, Z.leb_le.
Qed.

Lemma meal_type_created_total (a b : FoodEntry.t) :
  meal_type_created a b = false -> meal_type_created b a = true.
Proof.
  intros H. apply meal_type_created_spec.
  assert (Hn : ~ (OrderedTypeEx.String_as_OT.lt (FoodEntry.meal_type a)
                    (FoodEntry.meal_type b)
                  \/ (FoodEntry.meal_type a = FoodEntry.meal_type b
                      /\ FoodEntry.created_at a <= FoodEntry.created_at b))).
  { intros Hab. apply meal_type_created_spec in Hab. congruence. }
  destruct (OrderedTypeEx.String_as_OT.compare (FoodEntry.meal_type a)
              (FoodEntry.meal_type b)) as [Hlt | Heq | Hgt].
  - exfalso. apply Hn. now left.
  - unfold OrderedTypeEx.String_as_OT.eq in Heq. right. split; [now symmetry |].
    destruct (Z.le_gt_cases (FoodEntry.created_at a) (FoodEntry.created_at b));
      [exfalso; apply Hn; right; now split | lia].
  - now left.
Qed.

Lemma meal_type_created_trans (a b c : FoodEntry.t) :
  meal_type_created a b = true -> meal_type_created b c = true ->
  meal_type_created a c = true.
Proof.
  rewrite !meal_type_created_spec.
  intros [Hab | [Eab Hab]] [Hbc | [Ebc Hbc]].
  - left. eapply OrderedTypeEx.String_as_OT.lt_trans; eassumption.
  - left. now rewrite <- Ebc.
  - left. now rewrite Eab.
  - right. split; [congruence | lia].
Qed.

Lemma strongly_sorted_filter {A} (R : A -> A -> Prop) (p : A -> bool)
    (l : list A) :
  StronglySorted R l -> StronglySorted R (filter p l).
Proof.
  induction 1 as [| a l Hl IH Ha]; simpl; [constructor |].
  destruct (p a); [| exact IH].
  constructor; [exact IH |].
  rewrite Forall_forall in *. intros x Hx. apply filter_In in Hx.
  apply Ha, Hx.
Qed.

Lemma strongly_sorted_map {A B} (R : A -> A -> Prop) (S : B -> B -> Prop)
    (f : A -> B) (l : list A) :
  (forall a b, R a b -> S (f a) (f b)) ->
  StronglySorted R l -> StronglySorted S (map f l).
Proof.
  intros HRS. induction 1 as [| a l Hl IH Ha]; simpl; constructor;
    [exact IH |].
  apply Forall_map. eapply Forall_impl; [| exact Ha]. intros b. apply HRS.
Qed.

(** X20: in the daily view of rows with enumerated meal types, every
    bucket lists its entries in order of creation, earliest first. *)
Theorem daily_buckets_by_creation (user_id : Z) (d : Date.date) (db : DB.t) :
  Forall (fun e => meal_slot (FoodEntry.meal_type e)) (daily_query user_id d db) ->
  exists r,
    get_daily_entries user_id d db = Py.Return r
    /\ forall m, meal_slot m ->
         exists bucket,
           Dict.get m (meals r) = Some bucket
           /\ StronglySorted created_before bucket.
Proof.
  intros Hslots. unfold get_daily_entries, daily_of.
  destruct (daily_loop _ empty_meals Totals.zero (slots_covered _ Hslots))
    as (g & Hrun & _ & Hget).
  rewrite Hrun. cbn [Py.bind fst snd]. eexists. split; [reflexivity |].
  cbn [meals]. intros m Hm. rewrite Hget.
  pose proof Hm as Hmem. apply meal_slot_mem in Hmem. unfold Dict.mem in Hmem.
  destruct (Dict.get m empty_meals) as [bucket0 |] eqn:E0; [| discriminate].
  assert (bucket0 = []) as ->.
  { unfold empty_meals in E0. simpl in E0.
    repeat match type of E0 with
           | (if ?c then _ else _) = _ => destruct c
           end; congruence. }
  cbn [option_map app]. eexists. split; [reflexivity |].
  unfold daily_query.
  set (rows := filter _ (DB.food_entries db)).
  pose proof (order_by_sorted meal_type_created meal_type_created_total
                meal_type_created_trans rows) as Hsorted.
  apply (strongly_sorted_filter _ (in_meal m)) in Hsorted.
  assert (Hmeal : Forall (fun e => FoodEntry.meal_type e = m)
                    (filter (in_meal m) (Query.order_by meal_type_created rows))).
  { apply Forall_forall. intros e He. apply filter_In in He.
    destruct He as [_ He]. now apply String.eqb_eq in He. }
  revert Hsorted Hmeal.
  generalize (filter (in_meal m) (Query.order_by meal_type_created rows)).
  intros l Hsorted. induction Hsorted as [| a l Hl IH Ha]; intros Hmeal;
    simpl; constructor.
  - apply IH. now inversion Hmeal.
  - inversion Hmeal as [| ? ? Ea Hrest]; subst.
    apply Forall_map. rewrite Forall_forall in *.
    intros b Hb. specialize (Ha b Hb). specialize (Hrest b Hb).
    apply meal_type_created_spec in Ha. unfold created_before. cbn.
    destruct Ha as [Hlt | [_ Hle]]; [| exact Hle].
    exfalso. rewrite Hrest in Hlt.
    exact (OrderedTypeEx.String_as_OT.lt_not_eq _ _ Hlt eq_refl).
Qed.

Lemma daily_buckets_by_creation_witness :
  map FoodEntry.created_at (DB.food_entries snacks_db) = [300; 200; 150]
  /\ exists r,
       get_daily_entries 1 monday snacks_db = Py.Return r
       /\ exists bucket,
            Dict.get "snack" (meals r) = Some bucket
            /\ map (fun v => FoodEntry.created_at (Routes.entry v)) bucket
               = [150; 200; 300]
            /\ StronglySorted created_before bucket.
Proof.
  split; [reflexivity |].
  destruct (daily_buckets_by_creation 1 monday snacks_db) as (r & Hr & Hb).
  - apply Forall_forall. intros e He. vm_compute in He.
    destruct He as [<- | [<- | [<- | []]]]; unfold meal_slot; simpl;
      do 3 right; left; reflexivity.
  - exists r. split; [exact Hr |].
    destruct (Hb "snack") as (bucket & Hget & Hsorted).
    { unfold meal_slot. simpl. tauto. }
    exists bucket. split; [exact Hget |]. split; [| exact Hsorted].
    cbv in Hr. injection Hr as <-. cbv in Hget. injection Hget as <-.
    reflexivity.
Defined.

End BucketOrder.

(* ================================================================= *)
(** * The daily view after an update of servings *)

Section SortedUnique.
Context {A : Type} (R : A -> A -> Prop).

(** Two sorted lists of the same rows are the same list when no two
    rows tie. *)
Lemma sorted_perm_eq (l : list A) :
  forall l',
    StronglySorted R l -> StronglySorted R l' -> Permutation l l' ->
    (forall a b, In a l -> In b l -> R a b -> R b a -> a = b) ->
    l = l'.
Proof.
  induction l as [| a t IH]; intros l' Hs Hs' Hperm Hanti.
  - apply Permutation_nil in Hperm. now subst.
  - destruct l' as [| b t'].
    { apply Permutation_sym, Permutation_nil in Hperm. discriminate. }
    apply StronglySorted_inv in Hs. destruct Hs as [Hst Ha].
    apply StronglySorted_inv in Hs'. destruct Hs' as [Hst' Hb].
    rewrite Forall_forall in Ha, Hb.
    assert (Hab : a = b).
    { assert (Hina : In a (b :: t'))
        by (apply (Permutation_in _ Hperm); now left).
      assert (Hinb : In b (a :: t))
        by (apply (Permutation_in _ (Permutation_sym Hperm)); now left).
      destruct Hina as [E | Hina]; [now symmetry |].
      destruct Hinb as [E | Hinb]; [now symmetry |].
      apply Hanti; [now left | now right | now apply Ha | now apply Hb]. }
    subst b. f_equal.
    apply IH; [exact Hst | exact Hst' | |].
    + now apply Permutation_cons_inv in Hperm.
    + intros x y Hx Hy. apply Hanti; now right.
Qed.

End SortedUnique.

Lemma filter_perm {A} (p : A -> bool) (l l' : list A) :
  Permutation l l' -> Permutation (filter p l) (filter p l').
Proof.
  induction 1 as [| x l l' _ IH | x y l | l l' l'' _ IH1 _ IH2]; simpl.
  - constructor.
  - destruct (p x); [now constructor | exact IH].
  - destruct (p x), (p y); try reflexivity. apply perm_swap.
  - now transitivity (filter p l').
Qed.

Lemma nodup_map_inj {A B} (f : A -> B) (l : list A) (a b : A) :
  NoDup (map f l) -> In a l -> In b l -> f a = f b -> a = b.
Proof.
  induction l as [| r l IH]; simpl; [tauto |].
  intros Hnd Ha Hb E. inversion Hnd as [| ? ? Hr Hrest]; subst.
  destruct Ha as [-> | Ha], Hb as [-> | Hb]; auto.
  - exfalso. apply Hr. rewrite E. now apply in_map.
  - exfalso. apply Hr. rewrite <- E. now apply in_map.
Qed.

Section DailyAfterUpdate.
Import Routes.

Lemma unique_row {A} (id : A -> Z) (rows : list A) (a b : A) :
  NoDup (map id rows) -> In a rows -> In b rows -> id a = id b -> a = b.
Proof. apply nodup_map_inj. Qed.

Lemma filter_map_same {A} (f : A -> A) (p : A -> bool) (l : list A) :
  (forall a, p (f a) = p a) -> filter p (map f l) = map f (filter p l).
Proof.
  intros Hp. induction l as [| a l IH]; simpl; [reflexivity |].
  rewrite Hp. destruct (p a); simpl; now rewrite IH.
Qed.

Lemma insert_map {A} (f : A -> A) (leb : A -> A -> bool) (x : A) (l : list A) :
  (forall a b, leb (f a) (f b) = leb a b) ->
  Query.insert leb (f x) (map f l) = map f (Query.insert leb x l).
Proof.
  intros Hleb. induction l as [| y l IH]; simpl; [reflexivity |].
  rewrite Hleb. destruct (leb x y); simpl; [reflexivity | now rewrite IH].
Qed.

Lemma order_by_map {A} (f : A -> A) (leb : A -> A -> bool) (l : list A) :
  (forall a b, leb (f a) (f b) = leb a b) ->
  Query.order_by leb (map f l) = map f (Query.order_by leb l).
Proof.
  intros Hleb. induction l as [| x l IH]; simpl; [reflexivity |].
  rewrite IH. now apply insert_map.
Qed.

Lemma rescale_keeps (entry_id : Z) (servings : float) (e : FoodEntry.t) :
  FoodEntry.id (rescale entry_id servings e) = FoodEntry.id e
  /\ FoodEntry.user_id (rescale entry_id servings e) = FoodEntry.user_id e
  /\ FoodEntry.date (rescale entry_id servings e) = FoodEntry.date e
  /\ FoodEntry.meal_type (rescale entry_id servings e) = FoodEntry.meal_type e
  /\ FoodEntry.created_at (rescale entry_id servings e)
     = FoodEntry.created_at e.
Proof.
  unfold rescale. destruct (FoodEntry.id e =? entry_id); repeat split.
Qed.

Lemma update_rows (db : DB.t) (entry : FoodEntry.t) (servings : float) :
  NoDup (food_ids db) -> In entry (DB.food_entries db) ->
  update_food_entry (FoodEntry.id entry) servings db
  = (Py.Return (with_servings entry (Sql.float8 servings)),
     {| DB.users := DB.users db;
        DB.food_entries :=
          map (rescale (FoodEntry.id entry) (Sql.float8 servings))
            (DB.food_entries db);
        DB.weight_entries := DB.weight_entries db |}).
Proof.
  unfold food_ids. intros Hids Hin. unfold update_food_entry.
  rewrite (first_unique FoodEntry.id _ _ Hids Hin).
  unfold commit_food_entry. cbn [FoodEntry.id with_servings].
  f_equal. f_equal. apply map_ext_in. intros r Hr. unfold rescale.
  destruct (Z.eqb_spec (FoodEntry.id r) (FoodEntry.id entry)) as [E | _];
    [| reflexivity].
  now rewrite (unique_row FoodEntry.id _ r entry Hids Hr Hin E).
Qed.

(** The rows of a day come in one order only when no two of them tie
    on meal type and creation time, whatever the order of the table. *)
Lemma daily_query_perm (user_id : Z) (d : Date.date) (db db' : DB.t) :
  Permutation (DB.food_entries db') (DB.food_entries db) ->
  NoDup (map sort_key (daily_query user_id d db)) ->
  daily_query user_id d db' = daily_query user_id d db.
Proof.
  intros Hperm Hkeys. unfold daily_query in *.
  set (p := fun e => (FoodEntry.user_id e =? user_id)
                     && (FoodEntry.date e =? d)) in *.
  apply (sorted_perm_eq (fun a b => meal_type_created a b = true)).
  - apply order_by_sorted;
      [exact meal_type_created_total | exact meal_type_created_trans].
  - apply order_by_sorted;
      [exact meal_type_created_total | exact meal_type_created_trans].
  - rewrite !order_by_perm. now apply filter_perm.
  - intros a b Ha Hb Hab Hba.
    assert (Ha' : In a (Query.order_by meal_type_created
                          (filter p (DB.food_entries db)))).
    { eapply Permutation_in; [| exact Ha].
      rewrite !order_by_perm. now apply filter_perm. }
    assert (Hb' : In b (Query.order_by meal_type_created
                          (filter p (DB.food_entries db)))).
    { eapply Permutation_in; [| exact Hb].
      rewrite !order_by_perm. now apply filter_perm. }
    apply (nodup_map_inj sort_key _ a b Hkeys Ha' Hb').
    apply meal_type_created_spec in Hab, Hba. unfold sort_key.
    destruct Hab as [Hlt | [Em Hle]].
    + exfalso. destruct Hba as [Hgt | [Em _]].
      * exact (OrderedTypeEx.String_as_OT.lt_not_eq _ _
                 (OrderedTypeEx.String_as_OT.lt_trans _ _ _ Hlt Hgt) eq_refl).
      * rewrite Em in Hlt.
        exact (OrderedTypeEx.String_as_OT.lt_not_eq _ _ Hlt eq_refl).
    + destruct Hba as [Hgt | [_ Hge]].
      * exfalso. rewrite Em in Hgt.
        exact (OrderedTypeEx.String_as_OT.lt_not_eq _ _ Hgt eq_refl).
      * f_equal; [exact Em | lia].
Qed.

(** X19: with unique primary keys, and with no two entries of the day
    that tie on meal type and creation time, the daily view after an
    update of the servings of a stored entry, wherever the database
    keeps the updated row within its table, lists the same entries in
    the same buckets and the same order; the entry that was updated
    shows its per-serving values times the servings stored, every
    other entry is shown as before. *)
Theorem daily_after_update (db : DB.t) (entry : FoodEntry.t)
    (servings : float) (user_id : Z) (d : Date.date) :
  NoDup (food_ids db) ->
  In entry (DB.food_entries db) ->
  Forall (fun e => meal_slot (FoodEntry.meal_type e)) (daily_query user_id d db) ->
  NoDup (map sort_key (daily_query user_id d db)) ->
  exists entry' r r',
    fst (update_food_entry (FoodEntry.id entry) servings db) = Py.Return entry'
    /\ stored_as servings (FoodEntry.servings entry')
    /\ get_daily_entries user_id d db = Py.Return r
    /\ (forall db',
          Permutation (DB.food_entries db')
            (DB.food_entries
               (snd (update_food_entry (FoodEntry.id entry) servings db))) ->
          get_daily_entries user_id d db' = Py.Return r')
    /\ Dict.keys (meals r') = Dict.keys (meals r)
    /\ (forall m, meal_slot m ->
          exists bucket,
            Dict.get m (meals r) = Some bucket
            /\ Dict.get m (meals r')
               = Some (map (fun v =>
                              if FoodEntry.id (Routes.entry v)
                                 =? FoodEntry.id entry
                              then view_of
                                     (with_servings (Routes.entry v)
                                        (FoodEntry.servings entry'))
                              else v)
                         bucket))
    /\ (forall e,
          let v := view_of (with_servings e (FoodEntry.servings entry')) in
          total_calories v
          = (FoodEntry.calories e * FoodEntry.servings entry')%float
          /\ total_protein v
             = (FoodEntry.protein e * FoodEntry.servings entry')%float
          /\ total_carbs v
             = (FoodEntry.carbs e * FoodEntry.servings entry')%float
          /\ total_fat v
             = (FoodEntry.fat e * FoodEntry.servings entry')%float).
Proof.
  intros Hids Hin Hslots Hkeys.
  rewrite (update_rows db entry servings Hids Hin). cbn [fst snd].
  set (stored := Sql.float8 servings).
  set (f := rescale (FoodEntry.id entry) stored).
  set (db1 := {| DB.users := DB.users db;
                 DB.food_entries := map f (DB.food_entries db);
                 DB.weight_entries := DB.weight_entries db |}).
  assert (Hquery : daily_query user_id d db1 = map f (daily_query user_id d db)).
  { unfold daily_query, db1. cbn [DB.food_entries].
    rewrite filter_map_same.
    - apply order_by_map. intros a b. unfold meal_type_created, f.
      destruct (rescale_keeps (FoodEntry.id entry) stored a)
        as (_ & _ & _ & -> & ->).
      destruct (rescale_keeps (FoodEntry.id entry) stored b)
        as (_ & _ & _ & -> & ->).
      reflexivity.
    - intros a. unfold f.
      destruct (rescale_keeps (FoodEntry.id entry) stored a)
        as (_ & -> & -> & _).
      reflexivity. }
  assert (Hkeys1 : NoDup (map sort_key (daily_query user_id d db1))).
  { rewrite Hquery, map_map.
    erewrite map_ext; [exact Hkeys |].
    intros a. unfold sort_key, f.
    destruct (rescale_keeps (FoodEntry.id entry) stored a)
      as (_ & _ & _ & -> & ->).
    reflexivity. }
  set (fetched := daily_query user_id d db) in *.
  assert (Hslots' : Forall (fun e => meal_slot (FoodEntry.meal_type e))
                      (map f fetched)).
  { apply Forall_map. eapply Forall_impl; [| exact Hslots].
    intros a Ha. unfold f.
    destruct (rescale_keeps (FoodEntry.id entry) stored a)
      as (_ & _ & _ & -> & _).
    exact Ha. }
  destruct (daily_loop fetched empty_meals Totals.zero (slots_covered _ Hslots))
    as (g & Hrun & Hk & Hget).
  destruct (daily_loop (map f fetched) empty_meals Totals.zero
              (slots_covered _ Hslots')) as (g' & Hrun' & Hk' & Hget').
  exists (with_servings entry stored).
  exists {| date := d; meals := g;
            totals := fold_left Totals.add_entry fetched Totals.zero |}.
  exists {| date := d; meals := g';
            totals := fold_left Totals.add_entry (map f fetched) Totals.zero |}.
  split; [reflexivity |].
  split; [apply float8_spec |].
  split.
  { unfold get_daily_entries, daily_of. fold fetched. now rewrite Hrun. }
  split.
  { intros db' Hperm. unfold get_daily_entries.
    rewrite (daily_query_perm user_id d db1 db' Hperm Hkeys1).
    rewrite Hquery. unfold daily_of. now rewrite Hrun'. }
  cbn [meals]. split; [now rewrite Hk, Hk' |].
  split; [| intros e; cbv zeta; repeat split].
  intros m Hm. rewrite Hget, Hget'.
  apply meal_slot_mem in Hm. unfold Dict.mem in Hm.
  destruct (Dict.get m empty_meals) as [bucket0 |] eqn:E0; [| discriminate].
  assert (bucket0 = []) as ->.
  { unfold empty_meals in E0. simpl in E0.
    repeat match type of E0 with
           | (if ?c then _ else _) = _ => destruct c
           end; congruence. }
  cbn [option_map app]. eexists. split; [reflexivity |].
  f_equal. rewrite filter_map_same.
  - rewrite !map_map. apply map_ext. intros a.
    unfold f, rescale. cbn [Routes.entry view_of with_servings FoodEntry.servings].
    destruct (FoodEntry.id a =? FoodEntry.id entry); reflexivity.
  - intros a. unfold in_meal, f.
    destruct (rescale_keeps (FoodEntry.id entry) stored a)
      as (_ & _ & _ & -> & _).
    reflexivity.
Qed.

Lemma daily_after_update_witness :
  exists r',
    get_daily_entries 1 monday
      {| DB.users := [alice];
         DB.food_entries := [nuts; yoghurt; with_servings apple 2];
         DB.weight_entries := [] |}
    = Py.Return r'
    /\ option_map (map (fun v => FoodEntry.name (Routes.entry v)))
         (Dict.get "snack" (meals r'))
       = Some ["Yoghurt"; "Apple"; "Nuts"].
Proof.
  destruct (daily_after_update snacks_db apple 2 1 monday)
    as (entry' & r & r' & He & (_ & Hs) & Hr & Hr' & _ & Hb & _).
  - repeat constructor; simpl; intuition discriminate.
  - right. now left.
  - apply Forall_forall. intros e He. vm_compute in He.
    destruct He as [<- | [<- | [<- | []]]]; unfold meal_slot; simpl;
      do 3 right; left; reflexivity.
  - vm_compute. repeat constructor; simpl; intuition discriminate.
  - exists r'. split.
    + apply Hr'. cbn. apply perm_skip, perm_swap.
    + destruct (Hb "snack") as (bucket & Hget & ->).
      { unfold meal_slot. simpl. tauto. }
      cbv in Hr. injection Hr as <-. cbv in Hget. injection Hget as <-.
      reflexivity.
Defined.

End DailyAfterUpdate.
